(** * Secure-Text-Transfer: the message relay and its two persistence back ends

    The repository holds two versions of [server.js]: one that keeps users and
    messages in MongoDB through Mongoose ([Mongo] below) and one that keeps
    them in two JSON files ([Flat] below, and [FlatFs] for the same server on
    a disk where writing can fail).  Both expose the same five routes.

    Every handler is embedded as a function from the state of the store, the
    environment of the request (clock, random bytes, store faults) and the
    request to the new state and the response. *)

From Stdlib Require Import List String Ascii ZArith NArith Bool Lia.
From Stdlib Require Import Sorted Permutation DecimalString.
Import ListNotations.
Local Open Scope string_scope.
Local Open Scope Z_scope.
Local Open Scope list_scope.
Set Warnings "-register-all".

(** ** JavaScript values that reach the handlers *)

(** What [express.json()] leaves in a field of [req.body]: a parsed JSON value,
    or [undefined] when the body has no such property.  [JNum] stands for the
    numbers that are integers from [-2^53] to [2^53], which a double holds
    exactly; the other doubles, fractions and the [Infinity] that a numeral
    like [1e400] is read as, have no constructor.  The handlers only test a number
    for truth and pass it on, so the statements below that range over every
    [value] speak of strings, booleans, [null], [undefined], arrays, objects
    and those integers. *)
Inductive value : Type :=
| JUndefined
| JNull
| JBool (b : bool)
| JNum (n : Z)
| JStr (s : string)
| JArr (items : list value)
| JObj (fields : list (string * value)).

(** [!!v] *)
Definition truthy (v : value) : bool :=
  match v with
  | JUndefined | JNull => false
  | JBool b => b
  | JNum n => negb (n =? 0)
  | JStr s => negb (s =? "")%string
  | JArr _ | JObj _ => true
  end.

(** [v === s] for a string [s] *)
Definition strictEqualsString (v : value) (s : string) : bool :=
  match v with
  | JStr s' => (s' =? s)%string
  | _ => false
  end.

(** A header or a property that holds a string when it is there. *)
Definition falsyString (o : option string) : bool :=
  match o with
  | None => true
  | Some s => (s =? "")%string
  end.

(** [a !== b] on such values *)
Definition strictNotEqual (a b : option string) : bool :=
  match a, b with
  | None, None => false
  | Some x, Some y => negb (x =? y)%string
  | _, _ => true
  end.

(** [!apiKey || apiKey !== user.token] *)
Definition invalidApiKey (apiKey token : option string) : bool :=
  falsyString apiKey || strictNotEqual apiKey token.

(** ** Tokens: [crypto.randomBytes(16).toString('hex')] *)

Definition hexDigit (d : N) : ascii :=
  nth (N.to_nat d) (list_ascii_of_string "0123456789abcdef") "0"%char.

Fixpoint toHex (digits : nat) (r : N) (acc : string) : string :=
  match digits with
  | O => acc
  | S k => toHex k (N.div r 16) (String (hexDigit (N.modulo r 16)) acc)
  end.

(** The sixteen random bytes are read as one big-endian number; two hex digits
    per byte. *)
Definition randomToken (randomBytes16 : N) : string := toHex 32 randomBytes16 "".
Arguments randomToken : simpl never.

(** ** Coercions of the language and of Mongoose

    The handlers pass body fields on without checking that they are strings.
    What JavaScript and Mongoose then do with a value that is not a string is
    not written in the repository; it is a parameter, fixed only on strings. *)

(** [users[key]] converts [key] to a property key; [None] when that throws. *)
Class JsCoercions := {
  toPropertyKey : value -> option string;
  toPropertyKey_string : forall s, toPropertyKey (JStr s) = Some s
}.

(** Mongoose casts document fields and query conditions of a [String] path;
    [None] when the cast is refused.  A query condition becomes a predicate on
    the stored strings. *)
Class MongooseCasts := {
  castString : value -> option string;
  castFilter : value -> option (string -> bool);
  castString_string : forall s, castString (JStr s) = Some s;
  castFilter_string : forall s, castFilter (JStr s) = Some (String.eqb s)
}.

(** Strings, numbers and booleans the way JavaScript prints them. *)
Definition scalarToString (v : value) : option string :=
  match v with
  | JStr s => Some s
  | JBool true => Some "true"
  | JBool false => Some "false"
  | JNum n => Some (NilZero.string_of_int (Z.to_int n))
  | _ => None
  end.

(** The conversion of a parsed JSON value to a property key: a scalar is
    printed; an array is joined with commas, [null] and [undefined] items
    giving the empty string; an object gives ["[object Object]"], unless it
    has a property [toString] of its own, which is not a function: then the
    conversion throws. *)
Fixpoint propertyKey (v : value) : option string :=
  match v with
  | JUndefined => Some "undefined"
  | JNull => Some "null"
  | JArr items =>
      (fix join (l : list value) : option string :=
         match l with
         | [] => Some ""
         | x :: rest =>
             match match x with
                   | JUndefined | JNull => Some ""
                   | _ => propertyKey x
                   end, rest with
             | Some a, [] => Some a
             | Some a, _ :: _ =>
                 option_map (fun b => a ++ "," ++ b)%string (join rest)
             | None, _ => None
             end
         end) items
  | JObj fields =>
      if existsb (fun f => (fst f =? "toString")%string) fields then None
      else Some "[object Object]"
  | _ => scalarToString v
  end.

(** The coercions used to run the handlers on given requests. *)
#[export] Instance scalarKeys : JsCoercions :=
  {| toPropertyKey := propertyKey;
     toPropertyKey_string := fun s => eq_refl |}.

(** Of Mongoose's casts only those of strings, numbers and booleans: this
    instance refuses every array and object, also the ones that Mongoose
    accepts (an object with a string [_id], a query operator such as [$ne],
    an array in a query).  The examples below use it on strings. *)
#[export] Instance scalarCasts : MongooseCasts :=
  {| castString := scalarToString;
     castFilter := fun v => option_map String.eqb (scalarToString v);
     castString_string := fun s => eq_refl;
     castFilter_string := fun s => eq_refl |}.

(** ** Requests and responses *)

Module Http.

(** A message as JSON: what the flat file stores and the fields that both
    servers send. *)
Record message := {
  from : value;
  to : value;
  ciphertext : value;
  encryptedKey : value;
  iv : value;
  timestamp : Z
}.

Inductive body : Type :=
| BError (error : string)
| BToken (token : string)
| BPublicKey (publicKeyPem : value)
| BOk
| BMessages (messages : list message)
| BUsers (users : list string)
| BUncaught.

Record response := { status : Z; json : body }.

Inductive request : Type :=
| Register (username publicKeyPem : value)
| PublicKey (username : string)
| Send (from to ciphertext encryptedKey iv : value) (apiKey : option string)
| Messages (username : string) (apiKey : option string)
| Users.

(** What a request finds around it: [Date.now()], the bytes of
    [crypto.randomBytes(16)], and whether the first and the second store
    operation of the handler fail. *)
Record env := {
  now : Z;
  randomBytes16 : N;
  firstOpFails : bool;
  secondOpFails : bool
}.

Definition internalError : response :=
  {| status := 500; json := BError "internal error" |}.

End Http.
Import Http.

(** ** The MongoDB version ([server.js]) *)

Module Mongo.

(** [userSchema] *)
Record userDoc := {
  username : string;
  publicKeyPem : string;
  token : string;
  createdAt : Z
}.

(** [messageSchema] *)
Record messageDoc := {
  from : string;
  to : string;
  ciphertext : string;
  encryptedKey : string;
  iv : string;
  timestamp : Z
}.

(** The two collections, each in the order its documents were inserted.  The
    [_id] that MongoDB gives every document is not kept: no handler reads
    it. *)
Record state := {
  users : list userDoc;
  messages : list messageDoc
}.

Definition empty : state := {| users := []; messages := [] |}.

(** The six fields of the schema as [res.json] sends them.  On the wire a
    message of this server carries the [_id] of its document besides, which a
    message of the flat-file server has not; [Http.message] has no place for
    it, so an answer in this model is the answer on the wire without the
    [_id]s. *)
Definition toJson (m : messageDoc) : Http.message :=
  {| Http.from := JStr (from m);
     Http.to := JStr (to m);
     Http.ciphertext := JStr (ciphertext m);
     Http.encryptedKey := JStr (encryptedKey m);
     Http.iv := JStr (iv m);
     Http.timestamp := timestamp m |}.

(** [.sort({ timestamp: 1 })]: ascending, and documents with the same
    timestamp stay in the order of the collection. *)
Fixpoint insertByTimestamp (m : messageDoc) (sorted : list messageDoc) : list messageDoc :=
  match sorted with
  | [] => [m]
  | m' :: rest =>
      if timestamp m <=? timestamp m' then m :: m' :: rest
      else m' :: insertByTimestamp m rest
  end.

Fixpoint sortByTimestamp (ms : list messageDoc) : list messageDoc :=
  match ms with
  | [] => []
  | m :: rest => insertByTimestamp m (sortByTimestamp rest)
  end.

(** The document a query for the string [name] finds. *)
Definition lookup (us : list userDoc) (name : string) : option userDoc :=
  find (fun u => (name =? username u)%string) us.

Section Handlers.
Context {casts : MongooseCasts}.

(** [User.findOne({ username: v }).lean()]; [None] when the promise rejects. *)
Definition findOne (fails : bool) (v : value) (us : list userDoc)
  : option (option userDoc) :=
  if fails then None
  else match castFilter v with
       | None => None
       | Some matches => Some (find (fun u => matches (username u)) us)
       end.

(** [new User({ username, publicKeyPem, token }).save()]: the fields are cast
    to [String], each is [required], [username] is [unique], [createdAt]
    defaults to [Date.now]. *)
Definition saveUser (fails : bool) (t : Z) (username publicKeyPem : value)
    (token : string) (us : list userDoc) : option (list userDoc) :=
  if fails then None
  else match castString username, castString publicKeyPem with
       | Some u, Some k =>
           if ((u =? "") || (k =? "") || (token =? ""))%string then None
           else if existsb (fun d => (Mongo.username d =? u)%string) us then None
           else Some (us ++ [ {| username := u; publicKeyPem := k;
                                 token := token; createdAt := t |} ])
       | _, _ => None
       end.

(** [new Message({ from, to, ciphertext, encryptedKey, iv }).save()] *)
Definition saveMessage (fails : bool) (t : Z)
    (from to ciphertext encryptedKey iv : value) (ms : list messageDoc)
  : option (list messageDoc) :=
  if fails then None
  else match castString from, castString to, castString ciphertext,
             castString encryptedKey, castString iv with
       | Some f, Some r, Some c, Some k, Some i =>
           if ((f =? "") || (r =? "") || (c =? "") || (k =? "") || (i =? ""))%string
           then None
           else Some (ms ++ [ {| from := f; to := r; ciphertext := c;
                                 encryptedKey := k; iv := i; timestamp := t |} ])
       | _, _, _, _, _ => None
       end.

(** [Message.find({ to: username }).sort({ timestamp: 1 }).lean()] *)
Definition findMessages (fails : bool) (username : string) (ms : list messageDoc)
  : option (list messageDoc) :=
  if fails then None
  else Some (sortByTimestamp (filter (fun m => (to m =? username)%string) ms)).

(** The body of each [try] block: [None] is an exception. *)

Definition tryRegister (e : env) (s : state) (username publicKeyPem : value)
  : option (state * response) :=
  if negb (truthy username) || negb (truthy publicKeyPem) then
    Some (s, {| status := 400; json := BError "username and publicKeyPem required" |})
  else
    match findOne (firstOpFails e) username (users s) with
    | None => None
    | Some (Some existing) =>
        Some (s, {| status := 200; json := BToken (token existing) |})
    | Some None =>
        let token := randomToken (randomBytes16 e) in
        match saveUser (secondOpFails e) (now e) username publicKeyPem token (users s) with
        | None => None
        | Some us =>
            Some ({| users := us; messages := messages s |},
                  {| status := 200; json := BToken token |})
        end
    end.

Definition tryPublicKey (e : env) (s : state) (username : string)
  : option (state * response) :=
  match findOne (firstOpFails e) (JStr username) (users s) with
  | None => None
  | Some None => Some (s, {| status := 404; json := BError "user not found" |})
  | Some (Some u) =>
      Some (s, {| status := 200; json := BPublicKey (JStr (publicKeyPem u)) |})
  end.

Definition trySend (e : env) (s : state)
    (from to ciphertext encryptedKey iv : value) (apiKey : option string)
  : option (state * response) :=
  if negb (truthy from) || negb (truthy to) || negb (truthy ciphertext)
     || negb (truthy encryptedKey) || negb (truthy iv) then
    Some (s, {| status := 400; json := BError "missing fields" |})
  else
    match findOne (firstOpFails e) from (users s) with
    | None => None
    | Some None => Some (s, {| status := 400; json := BError "unknown sender" |})
    | Some (Some user) =>
        if invalidApiKey apiKey (Some (token user)) then
          Some (s, {| status := 401; json := BError "invalid api key" |})
        else
          match saveMessage (secondOpFails e) (now e)
                  from to ciphertext encryptedKey iv (messages s) with
          | None => None
          | Some ms =>
              Some ({| users := users s; messages := ms |},
                    {| status := 200; json := BOk |})
          end
    end.

Definition tryMessages (e : env) (s : state) (username : string)
    (apiKey : option string) : option (state * response) :=
  match findOne (firstOpFails e) (JStr username) (users s) with
  | None => None
  | Some None => Some (s, {| status := 404; json := BError "unknown user" |})
  | Some (Some user) =>
      if invalidApiKey apiKey (Some (token user)) then
        Some (s, {| status := 401; json := BError "invalid api key" |})
      else
        match findMessages (secondOpFails e) username (messages s) with
        | None => None
        | Some found =>
            Some (s, {| status := 200; json := BMessages (map toJson found) |})
        end
  end.

(** [User.find({}, 'username').lean()] and [docs.map(d => d.username)] *)
Definition tryUsers (e : env) (s : state) : option (state * response) :=
  if firstOpFails e then None
  else Some (s, {| status := 200; json := BUsers (map username (users s)) |}).

Definition tryHandler (e : env) (s : state) (req : request)
  : option (state * response) :=
  match req with
  | Register username publicKeyPem => tryRegister e s username publicKeyPem
  | PublicKey username => tryPublicKey e s username
  | Send from to ciphertext encryptedKey iv apiKey =>
      trySend e s from to ciphertext encryptedKey iv apiKey
  | Messages username apiKey => tryMessages e s username apiKey
  | Users => tryUsers e s
  end.

(** [try { ... } catch (err) { return res.status(500).json({ error: 'internal error' }) }] *)
Definition handle (e : env) (s : state) (req : request) : state * response :=
  match tryHandler e s req with
  | Some result => result
  | None => (s, internalError)
  end.

Fixpoint run (s : state) (trace : list (env * request)) : state * list response :=
  match trace with
  | [] => (s, [])
  | (e, req) :: rest =>
      let (s1, r) := handle e s req in
      let (s2, rs) := run s1 rest in
      (s2, r :: rs)
  end.

End Handlers.
End Mongo.

(** ** The flat-file version (the other [server.js]) *)

Module Flat.

(** A value of [users.json]; [createdAt] is the instant that
    [new Date().toISOString()] prints. *)
Record userRecord := {
  publicKeyPem : value;
  token : string;
  createdAt : Z
}.

(** A file on disk: not there, there but not readable as JSON, or holding
    data of the expected shape. *)
Inductive file (A : Type) : Type :=
| Missing
| Unreadable
| Content (data : A).
Arguments Missing {A}.
Arguments Unreadable {A}.
Arguments Content {A} data.

(** The own properties of the object in [users.json], in insertion order, and
    the array in [messages.json]. *)
Record state := {
  USERS_FILE : file (list (string * userRecord));
  MSG_FILE : file (list Http.message)
}.

Definition empty : state := {| USERS_FILE := Missing; MSG_FILE := Missing |}.

(** Returns the parsed data and leaves the file as it is; a missing file is
    created with the fallback; any exception gives the fallback. *)
Definition readJson {A : Type} (f : file A) (fallback : A) : A * file A :=
  match f with
  | Missing => (fallback, Content fallback)
  | Unreadable => (fallback, Unreadable)
  | Content data => (data, Content data)
  end.

(** [fs.writeFileSync] that succeeds.  This module is the server on a disk
    that takes every write; [FlatFs] below is the same server on a disk where
    a write can fail. *)
Definition writeJson {A : Type} (obj : A) : file A := Content obj.

(** *** The object [users] *)

(** The properties every object inherits from [Object.prototype]. *)
Definition objectPrototype : list string :=
  [ "constructor"; "__defineGetter__"; "__defineSetter__"; "hasOwnProperty";
    "__lookupGetter__"; "__lookupSetter__"; "isPrototypeOf";
    "propertyIsEnumerable"; "toString"; "valueOf"; "__proto__";
    "toLocaleString" ].

(** What [users[key]] evaluates to. *)
Inductive property : Type :=
| Absent
| Inherited
| Own (u : userRecord).

Fixpoint ownProperty (o : list (string * userRecord)) (key : string)
  : option userRecord :=
  match o with
  | [] => None
  | (k, u) :: rest => if (k =? key)%string then Some u else ownProperty rest key
  end.

Definition getProperty (o : list (string * userRecord)) (key : string) : property :=
  match ownProperty o key with
  | Some u => Own u
  | None => if existsb (String.eqb key) objectPrototype then Inherited else Absent
  end.

Fixpoint replaceOwn (o : list (string * userRecord)) (key : string) (u : userRecord)
  : list (string * userRecord) :=
  match o with
  | [] => []
  | (k, u') :: rest =>
      if (k =? key)%string then (k, u) :: rest else (k, u') :: replaceOwn rest key u
  end.

(** [users[key] = u]: an own property is overwritten in place; a new one goes
    last, except that assigning an object to [__proto__] changes the prototype
    and adds no property. *)
Definition setProperty (o : list (string * userRecord)) (key : string) (u : userRecord)
  : list (string * userRecord) :=
  match ownProperty o key with
  | Some _ => replaceOwn o key u
  | None => if (key =? "__proto__")%string then o else o ++ [(key, u)]
  end.

(** [!user] *)
Definition isUndefined (p : property) : bool :=
  match p with Absent => true | _ => false end.

(** [user.token] *)
Definition tokenOf (p : property) : option string :=
  match p with Own u => Some (token u) | _ => None end.

(** [u.publicKeyPem] *)
Definition publicKeyPemOf (p : property) : value :=
  match p with Own u => publicKeyPem u | _ => JUndefined end.

(** *** [Object.keys]: array indices ascending, then the other keys in
    insertion order *)

Definition digit (c : ascii) : option N :=
  let n := N_of_ascii c in
  if ((48 <=? n) && (n <=? 57))%N then Some (n - 48)%N else None.

Fixpoint digits (s : string) (acc : N) : option N :=
  match s with
  | EmptyString => Some acc
  | String c rest =>
      match digit c with
      | Some d => digits rest (10 * acc + d)%N
      | None => None
      end
  end.

(** A canonical decimal numeral below [2^32 - 1]. *)
Definition arrayIndex (key : string) : option N :=
  match key with
  | EmptyString => None
  | String c rest =>
      if (c =? "0")%char && negb (rest =? "")%string then None
      else match digits key 0 with
           | Some n => if (n <? 4294967295)%N then Some n else None
           | None => None
           end
  end.

Fixpoint insertIndex (i : N) (key : string) (sorted : list (N * string))
  : list (N * string) :=
  match sorted with
  | [] => [(i, key)]
  | (j, k) :: rest =>
      if (i <=? j)%N then (i, key) :: (j, k) :: rest
      else (j, k) :: insertIndex i key rest
  end.

Definition indexKeys (keys : list string) : list (N * string) :=
  fold_right (fun k acc => match arrayIndex k with
                           | Some i => insertIndex i k acc
                           | None => acc
                           end) [] keys.

Definition Object_keys (o : list (string * userRecord)) : list string :=
  let keys := map fst o in
  map snd (indexKeys keys)
  ++ filter (fun k => match arrayIndex k with None => true | Some _ => false end) keys.

(** What the handlers read from the two files. *)
Definition registry (s : state) : list (string * userRecord) :=
  fst (readJson (USERS_FILE s) []).

Definition stored (s : state) : list Http.message :=
  fst (readJson (MSG_FILE s) []).

(** *** The handlers *)

(** A handler that throws: Express answers 500 with its own error page. *)
Definition uncaught : response := {| status := 500; json := BUncaught |}.

Section Handlers.
Context {js : JsCoercions}.

Definition register (e : env) (s : state) (username publicKeyPem : value)
  : state * response :=
  if negb (truthy username) || negb (truthy publicKeyPem) then
    (s, {| status := 400; json := BError "username and publicKeyPem required" |})
  else
    let (users, usersFile) := readJson (USERS_FILE s) [] in
    let token := randomToken (randomBytes16 e) in
    match toPropertyKey username with
    | None => ({| USERS_FILE := usersFile; MSG_FILE := MSG_FILE s |}, uncaught)
    | Some key =>
        let users :=
          setProperty users key
            {| publicKeyPem := publicKeyPem; token := token; createdAt := now e |} in
        ({| USERS_FILE := writeJson users; MSG_FILE := MSG_FILE s |},
         {| status := 200; json := BToken token |})
    end.

Definition publicKey (e : env) (s : state) (username : string) : state * response :=
  let (users, usersFile) := readJson (USERS_FILE s) [] in
  let s := {| USERS_FILE := usersFile; MSG_FILE := MSG_FILE s |} in
  let u := getProperty users username in
  if isUndefined u then (s, {| status := 404; json := BError "user not found" |})
  else (s, {| status := 200; json := BPublicKey (publicKeyPemOf u) |}).

Definition send (e : env) (s : state)
    (from to ciphertext encryptedKey iv : value) (apiKey : option string)
  : state * response :=
  if negb (truthy from) || negb (truthy to) || negb (truthy ciphertext)
     || negb (truthy encryptedKey) || negb (truthy iv) then
    (s, {| status := 400; json := BError "missing fields" |})
  else
    let (users, usersFile) := readJson (USERS_FILE s) [] in
    let s1 := {| USERS_FILE := usersFile; MSG_FILE := MSG_FILE s |} in
    match toPropertyKey from with
    | None => (s1, uncaught)
    | Some key =>
        let user := getProperty users key in
        if isUndefined user then
          (s1, {| status := 400; json := BError "unknown sender" |})
        else if invalidApiKey apiKey (tokenOf user) then
          (s1, {| status := 401; json := BError "invalid api key" |})
        else
          let (messages, _) := readJson (MSG_FILE s) [] in
          let messages :=
            messages ++ [ {| Http.from := from; Http.to := to;
                             Http.ciphertext := ciphertext;
                             Http.encryptedKey := encryptedKey;
                             Http.iv := iv; Http.timestamp := now e |} ] in
          ({| USERS_FILE := usersFile; MSG_FILE := writeJson messages |},
           {| status := 200; json := BOk |})
    end.

Definition messages (e : env) (s : state) (username : string)
    (apiKey : option string) : state * response :=
  let (users, usersFile) := readJson (USERS_FILE s) [] in
  let s1 := {| USERS_FILE := usersFile; MSG_FILE := MSG_FILE s |} in
  let user := getProperty users username in
  if isUndefined user then
    (s1, {| status := 404; json := BError "unknown user" |})
  else if invalidApiKey apiKey (tokenOf user) then
    (s1, {| status := 401; json := BError "invalid api key" |})
  else
    let (all, msgFile) := readJson (MSG_FILE s) [] in
    ({| USERS_FILE := usersFile; MSG_FILE := msgFile |},
     {| status := 200;
        json := BMessages
                  (filter (fun m => strictEqualsString (Http.to m) username) all) |}).

Definition users (e : env) (s : state) : state * response :=
  let (users, usersFile) := readJson (USERS_FILE s) [] in
  ({| USERS_FILE := usersFile; MSG_FILE := MSG_FILE s |},
   {| status := 200; json := BUsers (Object_keys users) |}).

Definition handle (e : env) (s : state) (req : request) : state * response :=
  match req with
  | Register username publicKeyPem => register e s username publicKeyPem
  | PublicKey username => publicKey e s username
  | Send from to ciphertext encryptedKey iv apiKey =>
      send e s from to ciphertext encryptedKey iv apiKey
  | Messages username apiKey => messages e s username apiKey
  | Users => users e s
  end.

Fixpoint run (s : state) (trace : list (env * request)) : state * list response :=
  match trace with
  | [] => (s, [])
  | (e, req) :: rest =>
      let (s1, r) := handle e s req in
      let (s2, rs) := run s1 rest in
      (s2, r :: rs)
  end.

End Handlers.
End Flat.

(** ** The flat-file version on a disk where writing can fail

    [fs.writeFileSync] throws when the file cannot be written.  Inside
    [readJson] the exception is caught; in [writeJson] it is not, no handler
    catches it either, and Express answers the request itself. *)

Module FlatFs.

(** How a call of [fs.writeFileSync] on a file ends.  It opens the file for
    writing, which empties it, and then writes the text.  [Refused]: the file
    cannot be opened (no permission, a directory in its place, a read-only
    file system); the call throws and the file is as it was.  [Torn]: the
    file was opened and the text could not be written to the end (disk full,
    input/output error); the call throws and the file is there without
    holding JSON. *)
Inductive writing : Type :=
| Written
| Refused
| Torn.

(** How writing ends on each of the two files while a request is handled. *)
Record disk := {
  usersWrite : writing;
  msgWrite : writing
}.

(** The file after the call, and whether the call returned or threw. *)
Inductive result (A : Type) : Type :=
| Done (after : Flat.file A)
| Threw (after : Flat.file A).
Arguments Done {A} after.
Arguments Threw {A} after.

(** [fs.writeFileSync(file, JSON.stringify(obj, null, 2))] *)
Definition writeFileSync {A : Type} (w : writing) (f : Flat.file A) (obj : A)
  : result A :=
  match w with
  | Written => Done (Flat.Content obj)
  | Refused => Threw f
  | Torn => Threw Flat.Unreadable
  end.

(** [readJson]: the data and the file afterwards.  The write that creates a
    missing file is inside the [try]: when it throws the fallback is returned
    all the same. *)
Definition readJson {A : Type} (w : writing) (f : Flat.file A) (fallback : A)
  : A * Flat.file A :=
  match f with
  | Flat.Missing =>
      match writeFileSync w Flat.Missing fallback with
      | Done created => (fallback, created)
      | Threw remains => (fallback, remains)
      end
  | Flat.Unreadable => (fallback, Flat.Unreadable)
  | Flat.Content data => (data, Flat.Content data)
  end.

(** [writeJson] *)
Definition writeJson {A : Type} (w : writing) (f : Flat.file A) (obj : A) : result A :=
  writeFileSync w f obj.

Section Handlers.
Context {js : JsCoercions}.

Definition register (d : disk) (e : env) (s : Flat.state)
    (username publicKeyPem : value) : Flat.state * response :=
  if negb (truthy username) || negb (truthy publicKeyPem) then
    (s, {| status := 400; json := BError "username and publicKeyPem required" |})
  else
    let (users, usersFile) := readJson (usersWrite d) (Flat.USERS_FILE s) [] in
    let token := randomToken (randomBytes16 e) in
    match toPropertyKey username with
    | None =>
        ({| Flat.USERS_FILE := usersFile; Flat.MSG_FILE := Flat.MSG_FILE s |},
         Flat.uncaught)
    | Some key =>
        let users :=
          Flat.setProperty users key
            {| Flat.publicKeyPem := publicKeyPem; Flat.token := token;
               Flat.createdAt := now e |} in
        match writeJson (usersWrite d) usersFile users with
        | Threw remains =>
            ({| Flat.USERS_FILE := remains; Flat.MSG_FILE := Flat.MSG_FILE s |},
             Flat.uncaught)
        | Done written =>
            ({| Flat.USERS_FILE := written; Flat.MSG_FILE := Flat.MSG_FILE s |},
             {| status := 200; json := BToken token |})
        end
    end.

Definition publicKey (d : disk) (e : env) (s : Flat.state) (username : string)
  : Flat.state * response :=
  let (users, usersFile) := readJson (usersWrite d) (Flat.USERS_FILE s) [] in
  let s := {| Flat.USERS_FILE := usersFile; Flat.MSG_FILE := Flat.MSG_FILE s |} in
  let u := Flat.getProperty users username in
  if Flat.isUndefined u then (s, {| status := 404; json := BError "user not found" |})
  else (s, {| status := 200; json := BPublicKey (Flat.publicKeyPemOf u) |}).

Definition send (d : disk) (e : env) (s : Flat.state)
    (from to ciphertext encryptedKey iv : value) (apiKey : option string)
  : Flat.state * response :=
  if negb (truthy from) || negb (truthy to) || negb (truthy ciphertext)
     || negb (truthy encryptedKey) || negb (truthy iv) then
    (s, {| status := 400; json := BError "missing fields" |})
  else
    let (users, usersFile) := readJson (usersWrite d) (Flat.USERS_FILE s) [] in
    let s1 := {| Flat.USERS_FILE := usersFile; Flat.MSG_FILE := Flat.MSG_FILE s |} in
    match toPropertyKey from with
    | None => (s1, Flat.uncaught)
    | Some key =>
        let user := Flat.getProperty users key in
        if Flat.isUndefined user then
          (s1, {| status := 400; json := BError "unknown sender" |})
        else if invalidApiKey apiKey (Flat.tokenOf user) then
          (s1, {| status := 401; json := BError "invalid api key" |})
        else
          let (messages, msgFile) := readJson (msgWrite d) (Flat.MSG_FILE s) [] in
          let messages :=
            messages ++ [ {| Http.from := from; Http.to := to;
                             Http.ciphertext := ciphertext;
                             Http.encryptedKey := encryptedKey;
                             Http.iv := iv; Http.timestamp := now e |} ] in
          match writeJson (msgWrite d) msgFile messages with
          | Threw remains =>
              ({| Flat.USERS_FILE := usersFile; Flat.MSG_FILE := remains |},
               Flat.uncaught)
          | Done written =>
              ({| Flat.USERS_FILE := usersFile; Flat.MSG_FILE := written |},
               {| status := 200; json := BOk |})
          end
    end.

Definition messages (d : disk) (e : env) (s : Flat.state) (username : string)
    (apiKey : option string) : Flat.state * response :=
  let (users, usersFile) := readJson (usersWrite d) (Flat.USERS_FILE s) [] in
  let s1 := {| Flat.USERS_FILE := usersFile; Flat.MSG_FILE := Flat.MSG_FILE s |} in
  let user := Flat.getProperty users username in
  if Flat.isUndefined user then
    (s1, {| status := 404; json := BError "unknown user" |})
  else if invalidApiKey apiKey (Flat.tokenOf user) then
    (s1, {| status := 401; json := BError "invalid api key" |})
  else
    let (all, msgFile) := readJson (msgWrite d) (Flat.MSG_FILE s) [] in
    ({| Flat.USERS_FILE := usersFile; Flat.MSG_FILE := msgFile |},
     {| status := 200;
        json := BMessages
                  (filter (fun m => strictEqualsString (Http.to m) username) all) |}).

Definition users (d : disk) (e : env) (s : Flat.state) : Flat.state * response :=
  let (users, usersFile) := readJson (usersWrite d) (Flat.USERS_FILE s) [] in
  ({| Flat.USERS_FILE := usersFile; Flat.MSG_FILE := Flat.MSG_FILE s |},
   {| status := 200; json := BUsers (Flat.Object_keys users) |}).

Definition handle (d : disk) (e : env) (s : Flat.state) (req : request)
  : Flat.state * response :=
  match req with
  | Register username publicKeyPem => register d e s username publicKeyPem
  | PublicKey username => publicKey d e s username
  | Send from to ciphertext encryptedKey iv apiKey =>
      send d e s from to ciphertext encryptedKey iv apiKey
  | Messages username apiKey => messages d e s username apiKey
  | Users => users d e s
  end.

End Handlers.
End FlatFs.

(** ** Vocabulary of the statements *)

Definition quiet (t : Z) (r : N) : env :=
  {| now := t; randomBytes16 := r; firstOpFails := false; secondOpFails := false |}.

(** A store of each kind in which alice is registered. *)
Definition aliceDoc : Mongo.userDoc :=
  {| Mongo.username := "alice"; Mongo.publicKeyPem := "PEM_A";
     Mongo.token := randomToken 1; Mongo.createdAt := 1 |}.

Definition mongoAlice : Mongo.state :=
  {| Mongo.users := [aliceDoc]; Mongo.messages := [] |}.

Definition aliceRecord : Flat.userRecord :=
  {| Flat.publicKeyPem := JStr "PEM_A"; Flat.token := randomToken 1;
     Flat.createdAt := 1 |}.

Definition flatAlice : Flat.state :=
  {| Flat.USERS_FILE := Flat.Content [("alice", aliceRecord)];
     Flat.MSG_FILE := Flat.Missing |}.

(** The two answers to a body with a missing field. *)
Definition rejectedRegister : response :=
  {| status := 400; json := BError "username and publicKeyPem required" |}.

Definition rejectedSend : response :=
  {| status := 400; json := BError "missing fields" |}.

(** The same stores with one message for alice and one for bob. *)
Definition mongoMailbox : Mongo.state :=
  {| Mongo.users := [aliceDoc];
     Mongo.messages :=
       [ {| Mongo.from := "alice"; Mongo.to := "bob"; Mongo.ciphertext := "c1";
            Mongo.encryptedKey := "k1"; Mongo.iv := "i1"; Mongo.timestamp := 2 |};
         {| Mongo.from := "alice"; Mongo.to := "alice"; Mongo.ciphertext := "c2";
            Mongo.encryptedKey := "k2"; Mongo.iv := "i2"; Mongo.timestamp := 3 |} ] |}.

Definition flatMailbox : Flat.state :=
  {| Flat.USERS_FILE := Flat.Content [("alice", aliceRecord)];
     Flat.MSG_FILE := Flat.Content (map Mongo.toJson (Mongo.messages mongoMailbox)) |}.

(** The readings of [Date.now()] along a trace, and traces along which the
    clock never goes back. *)
Definition clock (trace : list (env * request)) : list Z :=
  map (fun step => now (fst step)) trace.

Definition clockNonDecreasing (trace : list (env * request)) : Prop :=
  StronglySorted Z.le (clock trace).

(** Timestamps in ascending order, none later than [t]. *)
Definition upTo (t : Z) (stamps : list Z) : Prop :=
  StronglySorted Z.le stamps /\ Forall (fun x => x <= t) stamps.


(** The requests whose body passes the check for missing fields, so that the
    handler goes on to the store. *)
Definition passesValidation (req : request) : bool :=
  match req with
  | Register username publicKeyPem => truthy username && truthy publicKeyPem
  | Send from to ciphertext encryptedKey iv _ =>
      truthy from && truthy to && truthy ciphertext && truthy encryptedKey
      && truthy iv
  | _ => true
  end.

(** A file that cannot be read, replaced by one that holds the fallback. *)
Definition recover {A : Type} (f : Flat.file A) (fallback : A) : Flat.file A :=
  match f with
  | Flat.Unreadable => Flat.Content fallback
  | _ => f
  end.

Definition recovered (s : Flat.state) : Flat.state :=
  {| Flat.USERS_FILE := recover (Flat.USERS_FILE s) [];
     Flat.MSG_FILE := recover (Flat.MSG_FILE s) [] |}.

(** Both files unreadable. *)
Definition flatBroken : Flat.state :=
  {| Flat.USERS_FILE := Flat.Unreadable; Flat.MSG_FILE := Flat.Unreadable |}.

(** Alice registers and then writes to herself twice. *)
Definition aliceRegisters : list (env * request) :=
  [ (quiet 1 1, Register (JStr "alice") (JStr "PEM_A")) ].

Definition aliceWrites (text : string) : request :=
  Send (JStr "alice") (JStr "alice") (JStr text) (JStr "k") (JStr "i")
       (Some (randomToken 1)).

Definition aliceNote (text : string) (t : Z) : Http.message :=
  {| Http.from := JStr "alice"; Http.to := JStr "alice"; Http.ciphertext := JStr text;
     Http.encryptedKey := JStr "k"; Http.iv := JStr "i"; Http.timestamp := t |}.

(** *** The requests on which the two servers are compared *)

(** A body field that is a string or is falsy. *)
Definition plainValue (v : value) : bool :=
  match v with
  | JStr _ => true
  | _ => negb (truthy v)
  end.

(** A name that is no property of [Object.prototype]. *)
Definition ordinary (name : string) : bool :=
  negb (existsb (String.eqb name) Flat.objectPrototype).

(** A name that is no array index. *)
Definition noIndex (name : string) : bool :=
  match Flat.arrayIndex name with
  | None => true
  | Some _ => false
  end.

Definition nameOf (v : value) (p : string -> bool) : bool :=
  match v with
  | JStr name => p name
  | _ => true
  end.

Definition plainRequest (req : request) : bool :=
  match req with
  | Register username publicKeyPem =>
      plainValue username && plainValue publicKeyPem
      && nameOf username (fun name => ordinary name && noIndex name)
  | PublicKey username => ordinary username
  | Send from to ciphertext encryptedKey iv _ =>
      plainValue from && plainValue to && plainValue ciphertext
      && plainValue encryptedKey && plainValue iv && nameOf from ordinary
  | Messages username _ => ordinary username
  | Users => true
  end.

(** The store does not fail during the request. *)
Definition noFault (e : env) : Prop :=
  firstOpFails e = false /\ secondOpFails e = false.

(** The name a request registers, when its body passes validation. *)
Definition registers (req : request) : list string :=
  match req with
  | Register (JStr name) publicKeyPem =>
      if truthy (JStr name) && truthy publicKeyPem then [name] else []
  | _ => []
  end.

Definition registrations (trace : list (env * request)) : list string :=
  flat_map (fun step => registers (snd step)) trace.

(** A user document as a property of the object in [users.json]. *)
Definition asProperty (d : Mongo.userDoc) : string * Flat.userRecord :=
  (Mongo.username d,
   {| Flat.publicKeyPem := JStr (Mongo.publicKeyPem d);
      Flat.token := Mongo.token d;
      Flat.createdAt := Mongo.createdAt d |}).

(** The two stores hold the same users and the same messages. *)
Definition sameContent (m : Mongo.state) (f : Flat.state) : Prop :=
  Flat.registry f = map asProperty (Mongo.users m)
  /\ Flat.stored f = map Mongo.toJson (Mongo.messages m)
  /\ Forall (fun d => noIndex (Mongo.username d) = true) (Mongo.users m).

(** Traces on which the servers differ. *)
Definition registerTwice : list (env * request) :=
  [ (quiet 1 1, Register (JStr "alice") (JStr "K1"));
    (quiet 2 2, Register (JStr "alice") (JStr "K2"));
    (quiet 3 0, Messages "alice" (Some (randomToken 1))) ].

Definition sendFromToString : list (env * request) :=
  [ (quiet 1 0, Send (JStr "toString") (JStr "bob") (JStr "c") (JStr "k") (JStr "i")
                     None) ].

Definition registerNumerals : list (env * request) :=
  [ (quiet 1 1, Register (JStr "10") (JStr "K1"));
    (quiet 2 2, Register (JStr "9") (JStr "K2"));
    (quiet 3 0, Users) ].

Definition clockGoesBack : list (env * request) :=
  [ (quiet 5 1, Register (JStr "alice") (JStr "K1"));
    (quiet 6 0, aliceWrites "first");
    (quiet 4 0, aliceWrites "second");
    (quiet 7 0, Messages "alice" (Some (randomToken 1))) ].

(** Alice and bob register, alice writes to bob, bob fetches with his token
    and with a wrong one, somebody fetches for carol and lists the users. *)
Definition scenario : list (env * request) :=
  [ (quiet 1 1, Register (JStr "alice") (JStr "PEM_A"));
    (quiet 2 2, Register (JStr "bob") (JStr "PEM_B"));
    (quiet 3 0, Send (JStr "alice") (JStr "bob") (JStr "c") (JStr "k") (JStr "i")
                     (Some (randomToken 1)));
    (quiet 4 0, Messages "bob" (Some (randomToken 2)));
    (quiet 5 0, Messages "bob" (Some "x"));
    (quiet 6 0, Messages "carol" None);
    (quiet 7 0, Users) ].

(** ** Vocabulary of the further properties *)

(** Alice writes to bob, with the given header. *)
Definition aliceWritesWith (apiKey : option string) : request :=
  Send (JStr "alice") (JStr "bob") (JStr "c") (JStr "k") (JStr "i") apiKey.

(** The body that goes with status 200 on each route. *)
Definition answers (req : request) (b : body) : Prop :=
  match req, b with
  | Register _ _, BToken _ => True
  | PublicKey _, BPublicKey _ => True
  | Send _ _ _ _ _ _, BOk => True
  | Messages _ _, BMessages _ => True
  | Users, BUsers _ => True
  | _, _ => False
  end.

(** The error answers of each route of [server.js], status and message. *)
Definition mongoErrors (req : request) : list (Z * string) :=
  match req with
  | Register _ _ =>
      [ (400, "username and publicKeyPem required"); (500, "internal error") ]
  | PublicKey _ => [ (404, "user not found"); (500, "internal error") ]
  | Send _ _ _ _ _ _ =>
      [ (400, "missing fields"); (400, "unknown sender"); (401, "invalid api key");
        (500, "internal error") ]
  | Messages _ _ =>
      [ (404, "unknown user"); (401, "invalid api key"); (500, "internal error") ]
  | Users => [ (500, "internal error") ]
  end.

(** The error answers the flat-file handlers write themselves. *)
Definition flatErrors (req : request) : list (Z * string) :=
  match req with
  | Register _ _ => [ (400, "username and publicKeyPem required") ]
  | PublicKey _ => [ (404, "user not found") ]
  | Send _ _ _ _ _ _ =>
      [ (400, "missing fields"); (400, "unknown sender"); (401, "invalid api key") ]
  | Messages _ _ => [ (404, "unknown user"); (401, "invalid api key") ]
  | Users => []
  end.

(** The value a request uses as a key of the object [users]. *)
Definition keyOf (req : request) : option value :=
  match req with
  | Register username _ => Some username
  | Send from _ _ _ _ _ => Some from
  | _ => None
  end.

Definition isRegister (req : request) : bool :=
  match req with
  | Register _ _ => true
  | _ => false
  end.

Definition isSend (req : request) : bool :=
  match req with
  | Send _ _ _ _ _ _ => true
  | _ => false
  end.

(** Two keys that are array indices, the first not above the second. *)
Definition indexLe (a b : string) : Prop :=
  match Flat.arrayIndex a, Flat.arrayIndex b with
  | Some i, Some j => (i <= j)%N
  | _, _ => False
  end.

(** A token as the server issues it: 32 characters out of [0-9a-f]. *)
Definition isHex (c : ascii) : bool :=
  existsb (Ascii.eqb c) (list_ascii_of_string "0123456789abcdef").

Fixpoint allHex (s : string) : bool :=
  match s with
  | EmptyString => true
  | String c rest => isHex c && allHex rest
  end.

Definition issuedToken (t : string) : Prop :=
  String.length t = 32%nat /\ allHex t = true.

(** Reading a string of hex digits back as a number. *)
Definition hexValue (c : ascii) : N :=
  let n := N_of_ascii c in
  if (n <? 58)%N then (n - 48)%N else (n - 87)%N.

Fixpoint fromHex (s : string) (acc : N) : N :=
  match s with
  | EmptyString => acc
  | String c rest => fromHex rest (16 * acc + hexValue c)%N
  end.

(** The requests that only read: key lookup, fetch and listing. *)
Definition isRead (req : request) : bool :=
  match req with
  | PublicKey _ | Messages _ _ | Users => true
  | _ => false
  end.

(** The state of the flat-file server as the handlers see it: two files that
    hold what [readJson] gives. *)
Definition asRead (s : Flat.state) : Flat.state :=
  {| Flat.USERS_FILE := Flat.Content (Flat.registry s);
     Flat.MSG_FILE := Flat.Content (Flat.stored s) |}.

(** *** Disks *)

(** A disk that takes every write, one on which neither file can be opened
    for writing, and one that is full. *)
Definition writable : FlatFs.disk :=
  {| FlatFs.usersWrite := FlatFs.Written; FlatFs.msgWrite := FlatFs.Written |}.

Definition readOnly : FlatFs.disk :=
  {| FlatFs.usersWrite := FlatFs.Refused; FlatFs.msgWrite := FlatFs.Refused |}.

Definition full : FlatFs.disk :=
  {| FlatFs.usersWrite := FlatFs.Torn; FlatFs.msgWrite := FlatFs.Torn |}.

Definition throws (w : FlatFs.writing) : bool :=
  match w with
  | FlatFs.Written => false
  | _ => true
  end.

(** Whether [writeJson] throws in the handler of the request, if the handler
    gets that far: it writes [users.json] for a registration and
    [messages.json] for a send; the other handlers call it nowhere. *)
Definition writeFails (d : FlatFs.disk) (req : request) : bool :=
  match req with
  | Register _ _ => throws (FlatFs.usersWrite d)
  | Send _ _ _ _ _ _ => throws (FlatFs.msgWrite d)
  | _ => false
  end.

(** No write on the disk ends with a torn file. *)
Definition tearsNothing (d : FlatFs.disk) : Prop :=
  FlatFs.usersWrite d <> FlatFs.Torn /\ FlatFs.msgWrite d <> FlatFs.Torn.

(** What a write that threw leaves of the file, and of the two files when it
    was the [writeJson] of the request. *)
Definition leftBy {A : Type} (w : FlatFs.writing) (f : Flat.file A) : Flat.file A :=
  match w with
  | FlatFs.Torn => Flat.Unreadable
  | _ => f
  end.

Definition afterThrow (d : FlatFs.disk) (req : request) (s : Flat.state)
  : Flat.state :=
  match req with
  | Register _ _ =>
      {| Flat.USERS_FILE := leftBy (FlatFs.usersWrite d) (Flat.USERS_FILE s);
         Flat.MSG_FILE := Flat.MSG_FILE s |}
  | Send _ _ _ _ _ _ =>
      {| Flat.USERS_FILE := Flat.USERS_FILE s;
         Flat.MSG_FILE := leftBy (FlatFs.msgWrite d) (Flat.MSG_FILE s) |}
  | _ => s
  end.

(** * Properties *)

(** ** Values, credentials and tokens *)

Lemma truthy_false_iff (v : value) :
  truthy v = false <->
  v = JUndefined \/ v = JNull \/ v = JStr "" \/ v = JNum 0 \/ v = JBool false.
Proof.
  split.
  - destruct v as [| |b|n|s| |]; simpl; intros H; try discriminate; auto.
    + destruct b; [discriminate | auto 6].
    + apply negb_false_iff, Z.eqb_eq in H. subst. auto 6.
    + apply negb_false_iff, String.eqb_eq in H. subst. auto 6.
  - intros [H|[H|[H|[H|H]]]]; subst; reflexivity.
Qed.

Lemma truthy_string (s : string) : truthy (JStr s) = true <-> s <> "".
Proof.
  simpl. rewrite negb_true_iff. apply String.eqb_neq.
Qed.

Lemma invalidApiKey_false_iff (apiKey : option string) (t : string) :
  invalidApiKey apiKey (Some t) = false <-> apiKey = Some t /\ t <> "".
Proof.
  unfold invalidApiKey, falsyString, strictNotEqual.
  destruct apiKey as [k|]; simpl.
  - rewrite orb_false_iff, negb_false_iff, String.eqb_eq, String.eqb_neq.
    split.
    + intros [Hk Heq]. subst. auto.
    + intros [Heq Ht]. inversion Heq. subst. auto.
  - split; [discriminate | intros [H _]; discriminate].
Qed.

Lemma invalidApiKey_inherited (apiKey : option string) :
  invalidApiKey apiKey None = true.
Proof.
  destruct apiKey as [k|]; [|reflexivity].
  unfold invalidApiKey. simpl. apply orb_true_r.
Qed.

Lemma invalidApiKey_mismatch (apiKey : option string) (t : string) :
  apiKey <> Some t -> invalidApiKey apiKey (Some t) = true.
Proof.
  intros Hne. destruct (invalidApiKey apiKey (Some t)) eqn:E; [reflexivity|].
  apply invalidApiKey_false_iff in E. destruct E. contradiction.
Qed.

Lemma invalidApiKey_match (t : string) :
  t <> "" -> invalidApiKey (Some t) (Some t) = false.
Proof.
  intros Ht. apply invalidApiKey_false_iff. auto.
Qed.

Lemma toHex_length (n : nat) : forall r acc,
  String.length (toHex n r acc) = (n + String.length acc)%nat.
Proof.
  induction n as [|n IH]; intros r acc; simpl; [reflexivity|].
  rewrite IH. simpl. lia.
Qed.

(** A token has 32 characters. *)
Lemma randomToken_length (r : N) : String.length (randomToken r) = 32%nat.
Proof.
  unfold randomToken. rewrite toHex_length. reflexivity.
Qed.

Lemma randomToken_not_empty (r : N) : randomToken r <> "".
Proof.
  intros H. pose proof (randomToken_length r) as L. rewrite H in L. discriminate.
Qed.

Lemma randomToken_eqb_empty (r : N) : (randomToken r =? "")%string = false.
Proof.
  apply String.eqb_neq, randomToken_not_empty.
Qed.

(** ** The send and fetch handlers, case by case *)

Section HandlerCases.
Context {casts : MongooseCasts} {js : JsCoercions}.

Lemma Mongo_findOne_string (name : string) (us : list Mongo.userDoc) :
  Mongo.findOne false (JStr name) us = Some (Mongo.lookup us name).
Proof.
  unfold Mongo.findOne. rewrite castFilter_string. reflexivity.
Qed.

Lemma Mongo_send_unknown_sender e s from to c k iv apiKey :
  truthy (JStr from) = true -> truthy to = true -> truthy c = true ->
  truthy k = true -> truthy iv = true ->
  firstOpFails e = false ->
  Mongo.lookup (Mongo.users s) from = None ->
  Mongo.handle e s (Send (JStr from) to c k iv apiKey)
  = (s, {| status := 400; json := BError "unknown sender" |}).
Proof.
  intros Hf Ht Hc Hk Hi H1 Hl.
  unfold Mongo.handle, Mongo.tryHandler, Mongo.trySend.
  rewrite Hf, Ht, Hc, Hk, Hi, H1, Mongo_findOne_string, Hl. reflexivity.
Qed.

Lemma Mongo_send_unauthorized e s user from to c k iv apiKey :
  truthy (JStr from) = true -> truthy to = true -> truthy c = true ->
  truthy k = true -> truthy iv = true ->
  firstOpFails e = false ->
  Mongo.lookup (Mongo.users s) from = Some user ->
  apiKey <> Some (Mongo.token user) ->
  Mongo.handle e s (Send (JStr from) to c k iv apiKey)
  = (s, {| status := 401; json := BError "invalid api key" |}).
Proof.
  intros Hf Ht Hc Hk Hi H1 Hl Hne.
  unfold Mongo.handle, Mongo.tryHandler, Mongo.trySend.
  rewrite Hf, Ht, Hc, Hk, Hi, H1, Mongo_findOne_string, Hl.
  simpl. rewrite (invalidApiKey_mismatch _ _ Hne). reflexivity.
Qed.

Lemma Mongo_send_authorized_status e s user from to c k iv :
  truthy (JStr from) = true -> truthy to = true -> truthy c = true ->
  truthy k = true -> truthy iv = true ->
  firstOpFails e = false ->
  Mongo.lookup (Mongo.users s) from = Some user ->
  Mongo.token user <> "" ->
  status (snd (Mongo.handle e s (Send (JStr from) to c k iv (Some (Mongo.token user)))))
  <> 401.
Proof.
  intros Hf Ht Hc Hk Hi H1 Hl Hne.
  unfold Mongo.handle, Mongo.tryHandler, Mongo.trySend.
  rewrite Hf, Ht, Hc, Hk, Hi, H1, Mongo_findOne_string, Hl.
  simpl. rewrite (invalidApiKey_match _ Hne).
  destruct (Mongo.saveMessage _ _ _ _ _ _ _ _); simpl; discriminate.
Qed.

Lemma Mongo_saveMessage_strings t from to c k iv ms :
  from <> "" -> to <> "" -> c <> "" -> k <> "" -> iv <> "" ->
  Mongo.saveMessage false t (JStr from) (JStr to) (JStr c) (JStr k) (JStr iv) ms
  = Some (ms ++ [ {| Mongo.from := from; Mongo.to := to; Mongo.ciphertext := c;
                     Mongo.encryptedKey := k; Mongo.iv := iv;
                     Mongo.timestamp := t |} ]).
Proof.
  intros Hf Ht Hc Hk Hi. unfold Mongo.saveMessage.
  rewrite !castString_string.
  apply String.eqb_neq in Hf, Ht, Hc, Hk, Hi.
  rewrite Hf, Ht, Hc, Hk, Hi. reflexivity.
Qed.

Lemma Mongo_send_ok e s user from to c k iv :
  from <> "" -> to <> "" -> c <> "" -> k <> "" -> iv <> "" ->
  firstOpFails e = false -> secondOpFails e = false ->
  Mongo.lookup (Mongo.users s) from = Some user ->
  Mongo.token user <> "" ->
  Mongo.handle e s (Send (JStr from) (JStr to) (JStr c) (JStr k) (JStr iv)
                         (Some (Mongo.token user)))
  = ({| Mongo.users := Mongo.users s;
        Mongo.messages :=
          Mongo.messages s
          ++ [ {| Mongo.from := from; Mongo.to := to; Mongo.ciphertext := c;
                  Mongo.encryptedKey := k; Mongo.iv := iv;
                  Mongo.timestamp := now e |} ] |},
     {| status := 200; json := BOk |}).
Proof.
  intros Hf Ht Hc Hk Hi H1 H2 Hl Hne.
  unfold Mongo.handle, Mongo.tryHandler, Mongo.trySend.
  rewrite H1, H2, Mongo_findOne_string, Hl.
  rewrite (Mongo_saveMessage_strings _ _ _ _ _ _ _ Hf Ht Hc Hk Hi).
  apply truthy_string in Hf, Ht, Hc, Hk, Hi.
  rewrite Hf, Ht, Hc, Hk, Hi. simpl.
  rewrite (invalidApiKey_match _ Hne). reflexivity.
Qed.

Lemma Mongo_messages_unauthorized e s user name apiKey :
  firstOpFails e = false ->
  Mongo.lookup (Mongo.users s) name = Some user ->
  apiKey <> Some (Mongo.token user) ->
  Mongo.handle e s (Messages name apiKey)
  = (s, {| status := 401; json := BError "invalid api key" |}).
Proof.
  intros H1 Hl Hne.
  unfold Mongo.handle, Mongo.tryHandler, Mongo.tryMessages.
  rewrite H1, Mongo_findOne_string, Hl, (invalidApiKey_mismatch _ _ Hne).
  reflexivity.
Qed.

Lemma Mongo_messages_authorized_status e s user name :
  firstOpFails e = false ->
  Mongo.lookup (Mongo.users s) name = Some user ->
  Mongo.token user <> "" ->
  status (snd (Mongo.handle e s (Messages name (Some (Mongo.token user))))) <> 401.
Proof.
  intros H1 Hl Hne.
  unfold Mongo.handle, Mongo.tryHandler, Mongo.tryMessages.
  rewrite H1, Mongo_findOne_string, Hl, (invalidApiKey_match _ Hne).
  destruct (Mongo.findMessages _ _ _); simpl; discriminate.
Qed.

(** A user with an own record exists only in a file that holds data. *)
Lemma Flat_registry_content s name u :
  Flat.ownProperty (Flat.registry s) name = Some u ->
  Flat.readJson (Flat.USERS_FILE s) [] = (Flat.registry s, Flat.USERS_FILE s).
Proof.
  unfold Flat.registry. destruct (Flat.USERS_FILE s); simpl; intros H;
    try discriminate; reflexivity.
Qed.

Lemma Flat_state_eta (s : Flat.state) :
  {| Flat.USERS_FILE := Flat.USERS_FILE s; Flat.MSG_FILE := Flat.MSG_FILE s |} = s.
Proof.
  destruct s; reflexivity.
Qed.

Lemma Flat_getProperty_own o name u :
  Flat.ownProperty o name = Some u -> Flat.getProperty o name = Flat.Own u.
Proof.
  intros H. unfold Flat.getProperty. rewrite H. reflexivity.
Qed.

Lemma Flat_send_unauthorized e s u from to c k iv apiKey :
  truthy (JStr from) = true -> truthy to = true -> truthy c = true ->
  truthy k = true -> truthy iv = true ->
  Flat.ownProperty (Flat.registry s) from = Some u ->
  apiKey <> Some (Flat.token u) ->
  Flat.handle e s (Send (JStr from) to c k iv apiKey)
  = (s, {| status := 401; json := BError "invalid api key" |}).
Proof.
  intros Hf Ht Hc Hk Hi Hl Hne.
  unfold Flat.handle, Flat.send.
  rewrite Hf, Ht, Hc, Hk, Hi, (Flat_registry_content _ _ _ Hl),
    toPropertyKey_string, (Flat_getProperty_own _ _ _ Hl).
  simpl. rewrite (invalidApiKey_mismatch _ _ Hne), Flat_state_eta. reflexivity.
Qed.

Lemma Flat_send_ok e s u from to c k iv :
  truthy (JStr from) = true -> truthy to = true -> truthy c = true ->
  truthy k = true -> truthy iv = true ->
  Flat.ownProperty (Flat.registry s) from = Some u ->
  Flat.token u <> "" ->
  Flat.handle e s (Send (JStr from) to c k iv (Some (Flat.token u)))
  = ({| Flat.USERS_FILE := Flat.USERS_FILE s;
        Flat.MSG_FILE :=
          Flat.Content
            (Flat.stored s
             ++ [ {| Http.from := JStr from; Http.to := to; Http.ciphertext := c;
                     Http.encryptedKey := k; Http.iv := iv;
                     Http.timestamp := now e |} ]) |},
     {| status := 200; json := BOk |}).
Proof.
  intros Hf Ht Hc Hk Hi Hl Hne.
  unfold Flat.handle, Flat.send.
  rewrite Hf, Ht, Hc, Hk, Hi, (Flat_registry_content _ _ _ Hl),
    toPropertyKey_string, (Flat_getProperty_own _ _ _ Hl).
  simpl. rewrite (invalidApiKey_match _ Hne).
  unfold Flat.stored. destruct (Flat.readJson (Flat.MSG_FILE s) []). reflexivity.
Qed.

Lemma Flat_messages_unauthorized e s u name apiKey :
  Flat.ownProperty (Flat.registry s) name = Some u ->
  apiKey <> Some (Flat.token u) ->
  Flat.handle e s (Messages name apiKey)
  = (s, {| status := 401; json := BError "invalid api key" |}).
Proof.
  intros Hl Hne.
  unfold Flat.handle, Flat.messages.
  rewrite (Flat_registry_content _ _ _ Hl), (Flat_getProperty_own _ _ _ Hl).
  simpl. rewrite (invalidApiKey_mismatch _ _ Hne), Flat_state_eta. reflexivity.
Qed.

Lemma Flat_messages_ok e s u name :
  Flat.ownProperty (Flat.registry s) name = Some u ->
  Flat.token u <> "" ->
  snd (Flat.handle e s (Messages name (Some (Flat.token u))))
  = {| status := 200;
       json := BMessages
                 (filter (fun m => strictEqualsString (Http.to m) name)
                         (Flat.stored s)) |}.
Proof.
  intros Hl Hne.
  unfold Flat.handle, Flat.messages.
  rewrite (Flat_registry_content _ _ _ Hl), (Flat_getProperty_own _ _ _ Hl).
  simpl. rewrite (invalidApiKey_match _ Hne).
  unfold Flat.stored. destruct (Flat.readJson (Flat.MSG_FILE s) []). reflexivity.
Qed.

End HandlerCases.

(** ** The credential check *)

Section AuthGate.
Context {casts : MongooseCasts} {js : JsCoercions}.

(** C3.  For a registered user whose stored token is [T], a send with all
    fields present, or a fetch, is answered 401 and leaves the store as it
    was whenever the [x-api-key] header is absent or differs from [T]; the
    answer is another one than 401 exactly when the header is [T].  Stated
    for both servers, while the user lookup does not fail. *)
Theorem auth_gate :
  (forall e s user from to c k iv apiKey,
      truthy (JStr from) = true -> truthy to = true -> truthy c = true ->
      truthy k = true -> truthy iv = true ->
      firstOpFails e = false ->
      Mongo.lookup (Mongo.users s) from = Some user ->
      Mongo.token user <> "" ->
      (apiKey <> Some (Mongo.token user) ->
       Mongo.handle e s (Send (JStr from) to c k iv apiKey)
       = (s, {| status := 401; json := BError "invalid api key" |}))
      /\ (status (snd (Mongo.handle e s (Send (JStr from) to c k iv apiKey))) <> 401
          <-> apiKey = Some (Mongo.token user)))
  /\ (forall e s user name apiKey,
      firstOpFails e = false ->
      Mongo.lookup (Mongo.users s) name = Some user ->
      Mongo.token user <> "" ->
      (apiKey <> Some (Mongo.token user) ->
       Mongo.handle e s (Messages name apiKey)
       = (s, {| status := 401; json := BError "invalid api key" |}))
      /\ (status (snd (Mongo.handle e s (Messages name apiKey))) <> 401
          <-> apiKey = Some (Mongo.token user)))
  /\ (forall e s u from to c k iv apiKey,
      truthy (JStr from) = true -> truthy to = true -> truthy c = true ->
      truthy k = true -> truthy iv = true ->
      Flat.ownProperty (Flat.registry s) from = Some u ->
      Flat.token u <> "" ->
      (apiKey <> Some (Flat.token u) ->
       Flat.handle e s (Send (JStr from) to c k iv apiKey)
       = (s, {| status := 401; json := BError "invalid api key" |}))
      /\ (status (snd (Flat.handle e s (Send (JStr from) to c k iv apiKey))) <> 401
          <-> apiKey = Some (Flat.token u)))
  /\ (forall e s u name apiKey,
      Flat.ownProperty (Flat.registry s) name = Some u ->
      Flat.token u <> "" ->
      (apiKey <> Some (Flat.token u) ->
       Flat.handle e s (Messages name apiKey)
       = (s, {| status := 401; json := BError "invalid api key" |}))
      /\ (status (snd (Flat.handle e s (Messages name apiKey))) <> 401
          <-> apiKey = Some (Flat.token u))).
Proof.
  assert (dec : forall (a : option string) t, a = Some t \/ a <> Some t).
  { intros [x|] t; [|right; discriminate].
    destruct (string_dec x t); [left; congruence | right; congruence]. }
  split; [|split; [|split]].
  - intros e s user f t c k i apiKey Hf Ht Hc Hk Hi H1 Hl Htok.
    pose proof (Mongo_send_unauthorized e s user f t c k i apiKey
                  Hf Ht Hc Hk Hi H1 Hl) as U.
    split; [exact U|]. split.
    + intros Hs. destruct (dec apiKey (Mongo.token user)) as [E|E]; [exact E|].
      exfalso. apply Hs. rewrite (U E). reflexivity.
    + intros ->. eapply Mongo_send_authorized_status; eauto.
  - intros e s user name apiKey H1 Hl Htok.
    pose proof (Mongo_messages_unauthorized e s user name apiKey H1 Hl) as U.
    split; [exact U|]. split.
    + intros Hs. destruct (dec apiKey (Mongo.token user)) as [E|E]; [exact E|].
      exfalso. apply Hs. rewrite (U E). reflexivity.
    + intros ->. eapply Mongo_messages_authorized_status; eauto.
  - intros e s u f t c k i apiKey Hf Ht Hc Hk Hi Hl Htok.
    pose proof (Flat_send_unauthorized e s u f t c k i apiKey
                  Hf Ht Hc Hk Hi Hl) as U.
    split; [exact U|]. split.
    + intros Hs. destruct (dec apiKey (Flat.token u)) as [E|E]; [exact E|].
      exfalso. apply Hs. rewrite (U E). reflexivity.
    + intros ->. rewrite (Flat_send_ok e s u f t c k i); auto. discriminate.
  - intros e s u name apiKey Hl Htok.
    pose proof (Flat_messages_unauthorized e s u name apiKey Hl) as U.
    split; [exact U|]. split.
    + intros Hs. destruct (dec apiKey (Flat.token u)) as [E|E]; [exact E|].
      exfalso. apply Hs. rewrite (U E). reflexivity.
    + intros ->. rewrite (Flat_messages_ok e s u name); auto. discriminate.
Qed.

End AuthGate.

(** The empty header is refused for alice in both stores, and each store is
    left as it was. *)
Lemma auth_gate_witness :
  Mongo.handle (quiet 5 0) mongoAlice
    (Send (JStr "alice") (JStr "bob") (JStr "c") (JStr "k") (JStr "i") (Some ""))
  = (mongoAlice, {| status := 401; json := BError "invalid api key" |})
  /\ Mongo.handle (quiet 5 0) mongoAlice (Messages "alice" None)
     = (mongoAlice, {| status := 401; json := BError "invalid api key" |})
  /\ Flat.handle (quiet 5 0) flatAlice
       (Send (JStr "alice") (JStr "bob") (JStr "c") (JStr "k") (JStr "i") (Some ""))
     = (flatAlice, {| status := 401; json := BError "invalid api key" |})
  /\ Flat.handle (quiet 5 0) flatAlice (Messages "alice" (Some "x"))
     = (flatAlice, {| status := 401; json := BError "invalid api key" |}).
Proof.
  destruct (@auth_gate scalarCasts scalarKeys) as (MS & MF & FS & FF).
  split; [|split; [|split]].
  - apply (MS (quiet 5 0) mongoAlice aliceDoc "alice"); try reflexivity;
      vm_compute; discriminate.
  - apply (MF (quiet 5 0) mongoAlice aliceDoc "alice"); try reflexivity;
      vm_compute; discriminate.
  - apply (FS (quiet 5 0) flatAlice aliceRecord "alice"); try reflexivity;
      vm_compute; discriminate.
  - apply (FF (quiet 5 0) flatAlice aliceRecord "alice"); try reflexivity;
      vm_compute; discriminate.
Defined.

(** ** Senders and recipients *)

Section Senders.
Context {casts : MongooseCasts} {js : JsCoercions}.

Lemma existsb_eqb_In (name : string) (l : list string) :
  existsb (String.eqb name) l = true <-> In name l.
Proof.
  rewrite existsb_exists. split.
  - intros (x & Hx & E). apply String.eqb_eq in E. now subst.
  - intros H. exists name. split; [exact H | apply String.eqb_refl].
Qed.

Lemma objectPrototype_truthy (name : string) :
  In name Flat.objectPrototype -> truthy (JStr name) = true.
Proof.
  unfold Flat.objectPrototype. simpl.
  intros H. repeat (destruct H as [H|H]; [subst; reflexivity|]). contradiction.
Qed.

Lemma Flat_getProperty_inherited o name :
  Flat.ownProperty o name = None -> In name Flat.objectPrototype ->
  Flat.getProperty o name = Flat.Inherited.
Proof.
  intros Ho Hin. unfold Flat.getProperty. rewrite Ho.
  apply existsb_eqb_In in Hin. rewrite Hin. reflexivity.
Qed.

Lemma Flat_getProperty_absent o name :
  Flat.ownProperty o name = None -> ~ In name Flat.objectPrototype ->
  Flat.getProperty o name = Flat.Absent.
Proof.
  intros Ho Hin. unfold Flat.getProperty. rewrite Ho.
  destruct (existsb (String.eqb name) Flat.objectPrototype) eqn:E; [|reflexivity].
  apply existsb_eqb_In in E. contradiction.
Qed.

(** An unknown sender whose name is no property of [Object.prototype] is
    answered 400 by the flat-file server, whatever the header, and no message
    is added. *)
Lemma Flat_send_unknown_sender e s name t c k i apiKey :
  truthy (JStr name) = true -> truthy t = true -> truthy c = true ->
  truthy k = true -> truthy i = true ->
  Flat.ownProperty (Flat.registry s) name = None ->
  ~ In name Flat.objectPrototype ->
  snd (Flat.handle e s (Send (JStr name) t c k i apiKey))
  = {| status := 400; json := BError "unknown sender" |}
  /\ Flat.MSG_FILE (fst (Flat.handle e s (Send (JStr name) t c k i apiKey)))
     = Flat.MSG_FILE s
  /\ Flat.registry (fst (Flat.handle e s (Send (JStr name) t c k i apiKey)))
     = Flat.registry s.
Proof.
  intros Hf Ht Hc Hk Hi Ho Hin.
  unfold Flat.handle, Flat.send, Flat.registry in *.
  rewrite Hf, Ht, Hc, Hk, Hi, toPropertyKey_string. simpl.
  destruct (Flat.readJson (Flat.USERS_FILE s) []) as [us uf] eqn:R.
  simpl in Ho. rewrite (Flat_getProperty_absent _ _ Ho Hin). simpl.
  repeat split.
  destruct (Flat.USERS_FILE s); simpl in R; inversion R; reflexivity.
Qed.

(** C4, on the flat-file server.  A send whose [from] is the name of a
    property of [Object.prototype], and is no registered user, is answered 401
    and not 400: [users[from]] finds the inherited property, so the
    unknown-sender check passes and the credential check refuses every
    header. *)
Theorem flat_send_inherited_sender e s name to' c k iv' apiKey :
  In name Flat.objectPrototype ->
  Flat.ownProperty (Flat.registry s) name = None ->
  truthy to' = true -> truthy c = true -> truthy k = true -> truthy iv' = true ->
  snd (Flat.handle e s (Send (JStr name) to' c k iv' apiKey))
  = {| status := 401; json := BError "invalid api key" |}.
Proof.
  intros Hin Ho Ht Hc Hk Hi.
  unfold Flat.handle, Flat.send, Flat.registry in *.
  rewrite (objectPrototype_truthy _ Hin), Ht, Hc, Hk, Hi, toPropertyKey_string.
  simpl.
  destruct (Flat.readJson (Flat.USERS_FILE s) []) as [us uf].
  simpl in Ho. rewrite (Flat_getProperty_inherited _ _ Ho Hin). simpl.
  rewrite invalidApiKey_inherited. reflexivity.
Qed.

(** C9.  A send with five non-empty fields, a registered sender and the
    sender's token in the header is answered [{ok: true}] and the message is
    added to the store; nothing is asked of the recipient [to], which may name
    no user at all.  Stated for both servers, for the MongoDB one while the
    store does not fail. *)
Theorem recipient_not_validated :
  (forall e s user f t c k i,
      f <> "" -> t <> "" -> c <> "" -> k <> "" -> i <> "" ->
      firstOpFails e = false -> secondOpFails e = false ->
      Mongo.lookup (Mongo.users s) f = Some user ->
      Mongo.token user <> "" ->
      Mongo.handle e s (Send (JStr f) (JStr t) (JStr c) (JStr k) (JStr i)
                             (Some (Mongo.token user)))
      = ({| Mongo.users := Mongo.users s;
            Mongo.messages :=
              Mongo.messages s
              ++ [ {| Mongo.from := f; Mongo.to := t; Mongo.ciphertext := c;
                      Mongo.encryptedKey := k; Mongo.iv := i;
                      Mongo.timestamp := now e |} ] |},
         {| status := 200; json := BOk |}))
  /\ (forall e s u f t c k i,
      f <> "" -> t <> "" -> c <> "" -> k <> "" -> i <> "" ->
      Flat.ownProperty (Flat.registry s) f = Some u ->
      Flat.token u <> "" ->
      Flat.handle e s (Send (JStr f) (JStr t) (JStr c) (JStr k) (JStr i)
                            (Some (Flat.token u)))
      = ({| Flat.USERS_FILE := Flat.USERS_FILE s;
            Flat.MSG_FILE :=
              Flat.Content
                (Flat.stored s
                 ++ [ {| Http.from := JStr f; Http.to := JStr t;
                         Http.ciphertext := JStr c; Http.encryptedKey := JStr k;
                         Http.iv := JStr i; Http.timestamp := now e |} ]) |},
         {| status := 200; json := BOk |})).
Proof.
  split.
  - intros. now apply Mongo_send_ok.
  - intros e s u f t c k i Hf Ht Hc Hk Hi Ho Htok.
    apply Flat_send_ok; auto; apply truthy_string; assumption.
Qed.

End Senders.

(** On an empty flat-file store a send from [toString] is answered 401. *)
Lemma flat_send_inherited_sender_witness :
  snd (Flat.handle (quiet 1 0) Flat.empty
         (Send (JStr "toString") (JStr "bob") (JStr "c") (JStr "k") (JStr "i")
               (Some "anything")))
  = {| status := 401; json := BError "invalid api key" |}.
Proof.
  apply (@flat_send_inherited_sender scalarKeys); try reflexivity.
  vm_compute. tauto.
Defined.

(** Alice sends to [nobody], who is not registered, in both stores. *)
Lemma recipient_not_validated_witness :
  (Mongo.lookup (Mongo.users mongoAlice) "nobody" = None
   /\ snd (Mongo.handle (quiet 7 0) mongoAlice
             (Send (JStr "alice") (JStr "nobody") (JStr "c") (JStr "k") (JStr "i")
                   (Some (Mongo.token aliceDoc))))
      = {| status := 200; json := BOk |})
  /\ (Flat.getProperty (Flat.registry flatAlice) "nobody" = Flat.Absent
      /\ snd (Flat.handle (quiet 7 0) flatAlice
                (Send (JStr "alice") (JStr "nobody") (JStr "c") (JStr "k") (JStr "i")
                      (Some (Flat.token aliceRecord))))
         = {| status := 200; json := BOk |}).
Proof.
  destruct (@recipient_not_validated scalarCasts scalarKeys) as [M F].
  split; (split; [reflexivity|]).
  - rewrite (M (quiet 7 0) mongoAlice aliceDoc "alice" "nobody" "c" "k" "i");
      try reflexivity; vm_compute; discriminate.
  - rewrite (F (quiet 7 0) flatAlice aliceRecord "alice" "nobody" "c" "k" "i");
      try reflexivity; vm_compute; discriminate.
Defined.

(** ** Validation of the body *)

Section Validation.
Context {casts : MongooseCasts} {js : JsCoercions}.

Lemma two_present (a b : value) :
  negb (truthy a) || negb (truthy b) = true <-> truthy a = false \/ truthy b = false.
Proof.
  destruct (truthy a), (truthy b); simpl; intuition discriminate.
Qed.

Lemma five_present (a b c d e : value) :
  negb (truthy a) || negb (truthy b) || negb (truthy c) || negb (truthy d)
  || negb (truthy e) = true
  <-> truthy a = false \/ truthy b = false \/ truthy c = false
      \/ truthy d = false \/ truthy e = false.
Proof.
  destruct (truthy a), (truthy b), (truthy c), (truthy d), (truthy e); simpl;
    intuition discriminate.
Qed.

Lemma Mongo_register_rejected e s u k :
  snd (Mongo.handle e s (Register u k)) = rejectedRegister
  <-> truthy u = false \/ truthy k = false.
Proof.
  rewrite <- two_present.
  unfold Mongo.handle, Mongo.tryHandler, Mongo.tryRegister.
  destruct (negb (truthy u) || negb (truthy k)); simpl.
  - split; reflexivity.
  - split; [|discriminate].
    destruct (Mongo.findOne _ _ _) as [[ex|]|]; simpl; try discriminate.
    destruct (Mongo.saveUser _ _ _ _ _ _); simpl; discriminate.
Qed.

Lemma Mongo_send_rejected e s f t c k i apiKey :
  snd (Mongo.handle e s (Send f t c k i apiKey)) = rejectedSend
  <-> truthy f = false \/ truthy t = false \/ truthy c = false
      \/ truthy k = false \/ truthy i = false.
Proof.
  rewrite <- five_present.
  unfold Mongo.handle, Mongo.tryHandler, Mongo.trySend.
  destruct (negb (truthy f) || negb (truthy t) || negb (truthy c)
            || negb (truthy k) || negb (truthy i)); simpl.
  - split; reflexivity.
  - split; [|discriminate].
    destruct (Mongo.findOne _ _ _) as [[user|]|]; simpl; try discriminate.
    destruct (invalidApiKey _ _); simpl; try discriminate.
    destruct (Mongo.saveMessage _ _ _ _ _ _ _ _); simpl; discriminate.
Qed.

Lemma Flat_register_rejected e s u k :
  snd (Flat.handle e s (Register u k)) = rejectedRegister
  <-> truthy u = false \/ truthy k = false.
Proof.
  rewrite <- two_present.
  unfold Flat.handle, Flat.register.
  destruct (negb (truthy u) || negb (truthy k)); simpl.
  - split; reflexivity.
  - split; [|discriminate].
    destruct (Flat.readJson _ _). destruct (toPropertyKey u); simpl; discriminate.
Qed.

Lemma Flat_send_rejected e s f t c k i apiKey :
  snd (Flat.handle e s (Send f t c k i apiKey)) = rejectedSend
  <-> truthy f = false \/ truthy t = false \/ truthy c = false
      \/ truthy k = false \/ truthy i = false.
Proof.
  rewrite <- five_present.
  unfold Flat.handle, Flat.send.
  destruct (negb (truthy f) || negb (truthy t) || negb (truthy c)
            || negb (truthy k) || negb (truthy i)); simpl.
  - split; reflexivity.
  - split; [|discriminate].
    destruct (Flat.readJson (Flat.USERS_FILE s) []).
    destruct (toPropertyKey f); simpl; try discriminate.
    destruct (Flat.isUndefined _); simpl; try discriminate.
    destruct (invalidApiKey _ _); simpl; try discriminate.
    destruct (Flat.readJson (Flat.MSG_FILE s) []). simpl. discriminate.
Qed.

Lemma Flat_register_string e s u k :
  truthy (JStr u) = true -> truthy k = true ->
  Flat.handle e s (Register (JStr u) k)
  = ({| Flat.USERS_FILE :=
          Flat.Content
            (Flat.setProperty (Flat.registry s) u
               {| Flat.publicKeyPem := k;
                  Flat.token := randomToken (randomBytes16 e);
                  Flat.createdAt := now e |});
        Flat.MSG_FILE := Flat.MSG_FILE s |},
     {| status := 200; json := BToken (randomToken (randomBytes16 e)) |}).
Proof.
  intros Hu Hk. unfold Flat.handle, Flat.register, Flat.registry.
  rewrite Hu, Hk, toPropertyKey_string.
  destruct (Flat.readJson (Flat.USERS_FILE s) []). reflexivity.
Qed.

(** C10.  A field counts as missing exactly when its value is falsy, that is
    absent, [null], the empty string, [0] or [false]; register and send answer
    their missing-field 400 exactly when some field is falsy, on both servers.
    A truthy value that is no string passes: the flat-file server registers
    alice with the number 5 as her key and hands it back, and stores a message
    whose ciphertext is an object. *)
Theorem validation_is_truthiness :
  (forall v, truthy v = false <->
             v = JUndefined \/ v = JNull \/ v = JStr "" \/ v = JNum 0
             \/ v = JBool false)
  /\ (forall e s u k,
         snd (Mongo.handle e s (Register u k)) = rejectedRegister
         <-> truthy u = false \/ truthy k = false)
  /\ (forall e s f t c k i apiKey,
         snd (Mongo.handle e s (Send f t c k i apiKey)) = rejectedSend
         <-> truthy f = false \/ truthy t = false \/ truthy c = false
             \/ truthy k = false \/ truthy i = false)
  /\ (forall e s u k,
         snd (Flat.handle e s (Register u k)) = rejectedRegister
         <-> truthy u = false \/ truthy k = false)
  /\ (forall e s f t c k i apiKey,
         snd (Flat.handle e s (Send f t c k i apiKey)) = rejectedSend
         <-> truthy f = false \/ truthy t = false \/ truthy c = false
             \/ truthy k = false \/ truthy i = false)
  /\ (forall e,
         let (s1, r1) := Flat.handle e Flat.empty (Register (JStr "alice") (JNum 5)) in
         r1 = {| status := 200; json := BToken (randomToken (randomBytes16 e)) |}
         /\ snd (Flat.handle e s1 (PublicKey "alice"))
            = {| status := 200; json := BPublicKey (JNum 5) |}
         /\ Flat.handle e s1
              (Send (JStr "alice") (JStr "bob") (JObj []) (JStr "k") (JStr "i")
                    (Some (randomToken (randomBytes16 e))))
            = ({| Flat.USERS_FILE := Flat.USERS_FILE s1;
                  Flat.MSG_FILE :=
                    Flat.Content
                      [ {| Http.from := JStr "alice"; Http.to := JStr "bob";
                           Http.ciphertext := JObj []; Http.encryptedKey := JStr "k";
                           Http.iv := JStr "i"; Http.timestamp := now e |} ] |},
               {| status := 200; json := BOk |})).
Proof.
  split; [exact truthy_false_iff|].
  split; [exact Mongo_register_rejected|].
  split; [exact Mongo_send_rejected|].
  split; [exact Flat_register_rejected|].
  split; [exact Flat_send_rejected|].
  intros e.
  rewrite (Flat_register_string e Flat.empty "alice" (JNum 5) eq_refl eq_refl).
  split; [reflexivity|]. split; [reflexivity|].
  set (u := {| Flat.publicKeyPem := JNum 5;
               Flat.token := randomToken (randomBytes16 e);
               Flat.createdAt := now e |}).
  change (randomToken (randomBytes16 e)) with (Flat.token u).
  rewrite (Flat_send_ok e _ u "alice" (JStr "bob") (JObj []) (JStr "k") (JStr "i"));
    try reflexivity.
  apply randomToken_not_empty.
Qed.

End Validation.

(** ** Registration *)

Section Registration.
Context {casts : MongooseCasts} {js : JsCoercions}.

Lemma Flat_ownProperty_replaceOwn o key u u0 :
  Flat.ownProperty o key = Some u0 ->
  Flat.ownProperty (Flat.replaceOwn o key u) key = Some u.
Proof.
  induction o as [|[k v] o IH]; simpl; [discriminate|].
  destruct (k =? key)%string eqn:E; simpl; rewrite E; auto.
Qed.

Lemma Flat_ownProperty_last o key u :
  Flat.ownProperty o key = None ->
  Flat.ownProperty (o ++ [(key, u)]) key = Some u.
Proof.
  induction o as [|[k v] o IH]; simpl.
  - rewrite String.eqb_refl. reflexivity.
  - destruct (k =? key)%string; [discriminate | exact IH].
Qed.

(** After [users[key] = u], [users[key]] is [u], unless the key is
    [__proto__]. *)
Lemma Flat_ownProperty_setProperty o key u :
  key <> "__proto__" ->
  Flat.ownProperty (Flat.setProperty o key u) key = Some u.
Proof.
  intros Hk. unfold Flat.setProperty.
  destruct (Flat.ownProperty o key) eqn:E.
  - eapply Flat_ownProperty_replaceOwn; eauto.
  - apply String.eqb_neq in Hk. rewrite Hk. now apply Flat_ownProperty_last.
Qed.

Lemma Mongo_lookup_existsb us name :
  Mongo.lookup us name = None ->
  existsb (fun d => (Mongo.username d =? name)%string) us = false.
Proof.
  unfold Mongo.lookup. induction us as [|d us IH]; simpl; [reflexivity|].
  rewrite (String.eqb_sym (Mongo.username d) name).
  destruct (name =? Mongo.username d)%string; [discriminate | exact IH].
Qed.

Lemma Mongo_lookup_last us name d :
  Mongo.lookup us name = None -> Mongo.username d = name ->
  Mongo.lookup (us ++ [d]) name = Some d.
Proof.
  unfold Mongo.lookup. intros Hn Hd. induction us as [|x us IH]; simpl in *.
  - rewrite Hd, String.eqb_refl. reflexivity.
  - destruct (name =? Mongo.username x)%string; [discriminate | auto].
Qed.

Lemma Mongo_register_existing e s existing name k :
  truthy (JStr name) = true -> truthy k = true ->
  firstOpFails e = false ->
  Mongo.lookup (Mongo.users s) name = Some existing ->
  Mongo.handle e s (Register (JStr name) k)
  = (s, {| status := 200; json := BToken (Mongo.token existing) |}).
Proof.
  intros Hn Hk H1 Hl. unfold Mongo.handle, Mongo.tryHandler, Mongo.tryRegister.
  rewrite Hn, Hk, H1, Mongo_findOne_string, Hl. reflexivity.
Qed.

Lemma Mongo_register_new e s name k :
  name <> "" -> k <> "" ->
  firstOpFails e = false -> secondOpFails e = false ->
  Mongo.lookup (Mongo.users s) name = None ->
  Mongo.handle e s (Register (JStr name) (JStr k))
  = ({| Mongo.users :=
          Mongo.users s
          ++ [ {| Mongo.username := name; Mongo.publicKeyPem := k;
                  Mongo.token := randomToken (randomBytes16 e);
                  Mongo.createdAt := now e |} ];
        Mongo.messages := Mongo.messages s |},
     {| status := 200; json := BToken (randomToken (randomBytes16 e)) |}).
Proof.
  intros Hn Hk H1 H2 Hl.
  unfold Mongo.handle, Mongo.tryHandler, Mongo.tryRegister, Mongo.saveUser.
  rewrite H1, H2, Mongo_findOne_string, Hl, !castString_string,
    (Mongo_lookup_existsb _ _ Hl), randomToken_eqb_empty.
  pose proof Hn as Tn. pose proof Hk as Tk.
  apply truthy_string in Tn, Tk. rewrite Tn, Tk.
  apply String.eqb_neq in Hn, Hk. rewrite Hn, Hk. reflexivity.
Qed.

(** How many documents carry the name. *)
Lemma Mongo_count_unique us name d :
  Mongo.lookup us name = None -> Mongo.username d = name ->
  List.length (filter (fun x => (name =? Mongo.username x)%string) (us ++ [d])) = 1%nat.
Proof.
  intros Hn Hd. rewrite filter_app, length_app. simpl.
  rewrite Hd, String.eqb_refl. simpl.
  assert (filter (fun x => (name =? Mongo.username x)%string) us = []) as ->;
    [|reflexivity].
  unfold Mongo.lookup in Hn. induction us as [|x us IH]; simpl in *; [reflexivity|].
  destruct (name =? Mongo.username x)%string; [discriminate | auto].
Qed.

(** On the MongoDB server a second registration of a name returns the token of
    the first, changes nothing, and one document carries the name. *)
Lemma Mongo_register_idempotent e1 e2 s name k1 k2 :
  name <> "" -> k1 <> "" -> k2 <> "" ->
  firstOpFails e1 = false -> secondOpFails e1 = false ->
  firstOpFails e2 = false ->
  Mongo.lookup (Mongo.users s) name = None ->
  let first := Mongo.handle e1 s (Register (JStr name) (JStr k1)) in
  let second := Mongo.handle e2 (fst first) (Register (JStr name) (JStr k2)) in
  snd first = {| status := 200; json := BToken (randomToken (randomBytes16 e1)) |}
  /\ snd second = snd first
  /\ fst second = fst first
  /\ List.length (filter (fun x => (name =? Mongo.username x)%string)
                         (Mongo.users (fst second))) = 1%nat.
Proof.
  intros Hn Hk1 Hk2 F1 F2 F3 Hl first second. subst first second.
  rewrite (Mongo_register_new e1 s name k1 Hn Hk1 F1 F2 Hl). cbn [fst snd].
  set (d := {| Mongo.username := name; Mongo.publicKeyPem := k1;
               Mongo.token := randomToken (randomBytes16 e1);
               Mongo.createdAt := now e1 |}).
  rewrite (Mongo_register_existing e2 _ d name (JStr k2)).
  - cbn [fst snd Mongo.users]. repeat split. now apply Mongo_count_unique.
  - now apply truthy_string.
  - now apply truthy_string.
  - exact F3.
  - cbn [Mongo.users]. now apply Mongo_lookup_last.
Qed.

(** C1, on the flat-file server.  Registering a name twice returns two
    tokens, the second drawn afresh, and the second registration overwrites
    the stored record: the handler never looks whether the name is taken. *)
Theorem flat_register_rotates_token e1 e2 s name k1 k2 :
  truthy (JStr name) = true -> truthy k1 = true -> truthy k2 = true ->
  name <> "__proto__" ->
  randomToken (randomBytes16 e1) <> randomToken (randomBytes16 e2) ->
  let first := Flat.handle e1 s (Register (JStr name) k1) in
  let second := Flat.handle e2 (fst first) (Register (JStr name) k2) in
  snd first = {| status := 200; json := BToken (randomToken (randomBytes16 e1)) |}
  /\ snd second = {| status := 200; json := BToken (randomToken (randomBytes16 e2)) |}
  /\ snd second <> snd first
  /\ Flat.tokenOf (Flat.getProperty (Flat.registry (fst first)) name)
     = Some (randomToken (randomBytes16 e1))
  /\ Flat.tokenOf (Flat.getProperty (Flat.registry (fst second)) name)
     = Some (randomToken (randomBytes16 e2))
  /\ fst second <> fst first.
Proof.
  intros Hn Hk1 Hk2 Hp Hr first second. subst first second.
  rewrite (Flat_register_string e1 s name k1 Hn Hk1). cbn [fst snd].
  rewrite (Flat_register_string e2 _ name k2 Hn Hk2). cbn [fst snd].
  unfold Flat.registry at 1 3 4. cbn [Flat.USERS_FILE Flat.readJson fst].
  assert (T1 : forall o u, Flat.tokenOf (Flat.getProperty (Flat.setProperty o name u) name)
                           = Some (Flat.token u)).
  { intros o u. unfold Flat.getProperty.
    rewrite (Flat_ownProperty_setProperty o name u Hp). reflexivity. }
  split; [reflexivity|]. split; [reflexivity|].
  split; [intros E; inversion E; congruence|].
  split; [apply T1|]. split; [apply T1|].
  intros E. inversion E as [E'].
  apply (f_equal (fun o => Flat.tokenOf (Flat.getProperty o name))) in E'.
  rewrite !T1 in E'. cbn [Flat.token] in E'. congruence.
Qed.

End Registration.

(** Alice registers twice on an empty flat-file store. *)
Lemma flat_register_rotates_token_witness :
  let first := Flat.handle (quiet 1 1) Flat.empty (Register (JStr "alice") (JStr "K1")) in
  let second := Flat.handle (quiet 2 2) (fst first) (Register (JStr "alice") (JStr "K2")) in
  snd first = {| status := 200; json := BToken "00000000000000000000000000000001" |}
  /\ snd second = {| status := 200; json := BToken "00000000000000000000000000000002" |}.
Proof.
  destruct (@flat_register_rotates_token scalarKeys (quiet 1 1) (quiet 2 2)
              Flat.empty "alice" (JStr "K1") (JStr "K2"))
    as (A & B & _); try reflexivity; try (vm_compute; discriminate).
  split; [exact A | exact B].
Defined.

(** ** What a fetch returns *)

Section Fetch.
Context {casts : MongooseCasts} {js : JsCoercions}.




Lemma Mongo_messages_200 e s name apiKey :
  status (snd (Mongo.handle e s (Messages name apiKey))) = 200 ->
  Mongo.handle e s (Messages name apiKey)
  = (s, {| status := 200;
           json := BMessages
                     (map Mongo.toJson
                        (Mongo.sortByTimestamp
                           (filter (fun m => (Mongo.to m =? name)%string)
                                   (Mongo.messages s)))) |}).
Proof.
  unfold Mongo.handle, Mongo.tryHandler, Mongo.tryMessages, Mongo.findMessages.
  destruct (Mongo.findOne _ _ _) as [[user|]|]; simpl; try discriminate.
  destruct (invalidApiKey _ _); simpl; try discriminate.
  destruct (secondOpFails e); simpl; [discriminate | reflexivity].
Qed.




End Fetch.


(** ** The stored messages only grow *)

Section Growth.
Context {casts : MongooseCasts} {js : JsCoercions}.

Lemma Mongo_saveMessage_extends fails t f r c k i ms ms' :
  Mongo.saveMessage fails t f r c k i ms = Some ms' ->
  exists d, ms' = ms ++ [d] /\ Mongo.timestamp d = t.
Proof.
  unfold Mongo.saveMessage. destruct fails; [discriminate|].
  destruct (castString f), (castString r), (castString c), (castString k),
    (castString i); try discriminate.
  match goal with |- context [if ?b then _ else _] => destruct b end;
    [discriminate|].
  intros E. inversion E. eexists. split; reflexivity.
Qed.

(** A request leaves the messages as they are or adds one at the end, stamped
    with the clock of the request. *)
Lemma Mongo_handle_extends e s req :
  Mongo.messages (fst (Mongo.handle e s req)) = Mongo.messages s
  \/ exists d, Mongo.messages (fst (Mongo.handle e s req)) = Mongo.messages s ++ [d]
               /\ Mongo.timestamp d = now e.
Proof.
  unfold Mongo.handle, Mongo.tryHandler.
  destruct req as [u k|u|f r c k i a|u a|]; simpl.
  - unfold Mongo.tryRegister.
    destruct (negb (truthy u) || negb (truthy k)); simpl; auto.
    destruct (Mongo.findOne _ _ _) as [[ex|]|]; simpl; auto.
    destruct (Mongo.saveUser _ _ _ _ _ _); simpl; auto.
  - unfold Mongo.tryPublicKey.
    destruct (Mongo.findOne _ _ _) as [[ex|]|]; simpl; auto.
  - unfold Mongo.trySend.
    destruct (negb (truthy f) || negb (truthy r) || negb (truthy c)
              || negb (truthy k) || negb (truthy i)); simpl; auto.
    destruct (Mongo.findOne _ _ _) as [[user|]|]; simpl; auto.
    destruct (invalidApiKey _ _); simpl; auto.
    destruct (Mongo.saveMessage _ _ _ _ _ _ _ _) as [ms'|] eqn:E; simpl; auto.
    right. now apply Mongo_saveMessage_extends in E.
  - unfold Mongo.tryMessages.
    destruct (Mongo.findOne _ _ _) as [[user|]|]; simpl; auto.
    destruct (invalidApiKey _ _); simpl; auto.
    destruct (Mongo.findMessages _ _ _); simpl; auto.
  - unfold Mongo.tryUsers. destruct (firstOpFails e); simpl; auto.
Qed.


Lemma Mongo_run_cons e req trace s :
  Mongo.run s ((e, req) :: trace)
  = (fst (Mongo.run (fst (Mongo.handle e s req)) trace),
     snd (Mongo.handle e s req)
     :: snd (Mongo.run (fst (Mongo.handle e s req)) trace)).
Proof.
  simpl. destruct (Mongo.handle e s req) as [s1 r]. cbn [fst snd].
  destruct (Mongo.run s1 trace). reflexivity.
Qed.

Lemma Flat_run_cons e req trace s :
  Flat.run s ((e, req) :: trace)
  = (fst (Flat.run (fst (Flat.handle e s req)) trace),
     snd (Flat.handle e s req)
     :: snd (Flat.run (fst (Flat.handle e s req)) trace)).
Proof.
  simpl. destruct (Flat.handle e s req) as [s1 r]. cbn [fst snd].
  destruct (Flat.run s1 trace). reflexivity.
Qed.

Lemma Mongo_run_app trace1 : forall s trace2,
  fst (Mongo.run s (trace1 ++ trace2))
  = fst (Mongo.run (fst (Mongo.run s trace1)) trace2).
Proof.
  induction trace1 as [|[e req] trace1 IH]; intros s trace2; [reflexivity|].
  rewrite <- app_comm_cons, !Mongo_run_cons. cbn [fst]. apply IH.
Qed.

Lemma Flat_run_app trace1 : forall s trace2,
  fst (Flat.run s (trace1 ++ trace2))
  = fst (Flat.run (fst (Flat.run s trace1)) trace2).
Proof.
  induction trace1 as [|[e req] trace1 IH]; intros s trace2; [reflexivity|].
  rewrite <- app_comm_cons, !Flat_run_cons. cbn [fst]. apply IH.
Qed.





End Growth.

(** ** The payload comes back as it was sent *)

Section RoundTrip.
Context {casts : MongooseCasts} {js : JsCoercions}.


End RoundTrip.


(** ** When the store fails *)

Section Failure.
Context {casts : MongooseCasts} {js : JsCoercions}.

(** Every 500 of the MongoDB server is the one of the [catch] block, and the
    store is as before. *)
Lemma Mongo_500_is_internal_error e s req :
  status (snd (Mongo.handle e s req)) = 500 ->
  Mongo.handle e s req = (s, internalError).
Proof.
  unfold Mongo.handle, Mongo.tryHandler.
  destruct req as [u k|u|f r c k i a|u a|]; simpl.
  - unfold Mongo.tryRegister.
    destruct (negb (truthy u) || negb (truthy k)); simpl; try discriminate.
    destruct (Mongo.findOne _ _ _) as [[ex|]|]; simpl; try discriminate; auto.
    destruct (Mongo.saveUser _ _ _ _ _ _); simpl; try discriminate; auto.
  - unfold Mongo.tryPublicKey.
    destruct (Mongo.findOne _ _ _) as [[ex|]|]; simpl; try discriminate; auto.
  - unfold Mongo.trySend.
    destruct (negb (truthy f) || negb (truthy r) || negb (truthy c)
              || negb (truthy k) || negb (truthy i)); simpl; try discriminate.
    destruct (Mongo.findOne _ _ _) as [[user|]|]; simpl; try discriminate; auto.
    destruct (invalidApiKey _ _); simpl; try discriminate.
    destruct (Mongo.saveMessage _ _ _ _ _ _ _ _); simpl; try discriminate; auto.
  - unfold Mongo.tryMessages.
    destruct (Mongo.findOne _ _ _) as [[user|]|]; simpl; try discriminate; auto.
    destruct (invalidApiKey _ _); simpl; try discriminate.
    destruct (Mongo.findMessages _ _ _); simpl; try discriminate; auto.
  - unfold Mongo.tryUsers. destruct (firstOpFails e); simpl; try discriminate; auto.
Qed.

Lemma Mongo_first_operation_fails e s req :
  firstOpFails e = true -> passesValidation req = true ->
  Mongo.handle e s req = (s, internalError).
Proof.
  intros F V. unfold Mongo.handle, Mongo.tryHandler.
  destruct req as [u k|u|f r c k i a|u a|]; simpl in *.
  - unfold Mongo.tryRegister, Mongo.findOne.
    apply andb_prop in V. destruct V as [-> ->]. simpl. rewrite F. reflexivity.
  - unfold Mongo.tryPublicKey, Mongo.findOne. rewrite F. reflexivity.
  - unfold Mongo.trySend, Mongo.findOne.
    repeat (apply andb_prop in V; destruct V as [V ->]). rewrite V. simpl.
    rewrite F. reflexivity.
  - unfold Mongo.tryMessages, Mongo.findOne. rewrite F. reflexivity.
  - unfold Mongo.tryUsers. rewrite F. reflexivity.
Qed.

Lemma Mongo_second_operation_fails e s :
  firstOpFails e = false -> secondOpFails e = true ->
  (forall name k,
      truthy (JStr name) = true -> truthy k = true ->
      Mongo.lookup (Mongo.users s) name = None ->
      Mongo.handle e s (Register (JStr name) k) = (s, internalError))
  /\ (forall user f r c k i,
      truthy (JStr f) = true -> truthy r = true -> truthy c = true ->
      truthy k = true -> truthy i = true ->
      Mongo.lookup (Mongo.users s) f = Some user -> Mongo.token user <> "" ->
      Mongo.handle e s (Send (JStr f) r c k i (Some (Mongo.token user)))
      = (s, internalError))
  /\ (forall user name,
      Mongo.lookup (Mongo.users s) name = Some user -> Mongo.token user <> "" ->
      Mongo.handle e s (Messages name (Some (Mongo.token user)))
      = (s, internalError)).
Proof.
  intros F1 F2. unfold Mongo.handle, Mongo.tryHandler. split; [|split].
  - intros name k Hn Hk Hl.
    unfold Mongo.tryRegister, Mongo.saveUser.
    rewrite Hn, Hk, F1, F2, Mongo_findOne_string, Hl. reflexivity.
  - intros user f r c k i Hf Hr Hc Hk Hi Hl Ht.
    unfold Mongo.trySend, Mongo.saveMessage.
    rewrite Hf, Hr, Hc, Hk, Hi, F1, F2, Mongo_findOne_string, Hl. simpl.
    rewrite (invalidApiKey_match _ Ht). reflexivity.
  - intros user name Hl Ht.
    unfold Mongo.tryMessages, Mongo.findMessages.
    rewrite F1, F2, Mongo_findOne_string, Hl, (invalidApiKey_match _ Ht).
    reflexivity.
Qed.

Lemma readJson_recover {A : Type} (f : Flat.file A) (fallback : A) :
  fst (Flat.readJson (recover f fallback) fallback)
  = fst (Flat.readJson f fallback).
Proof.
  destruct f; reflexivity.
Qed.

(** The flat-file server answers as if an unreadable file held the
    fallback. *)
Lemma Flat_answers_from_fallback e s req :
  snd (Flat.handle e s req) = snd (Flat.handle e (recovered s) req).
Proof.
  unfold Flat.handle, recovered.
  destruct req as [u k|u|f r c k i a|u a|]; simpl.
  - unfold Flat.register. simpl.
    destruct (negb (truthy u) || negb (truthy k)); [reflexivity|].
    destruct (Flat.USERS_FILE s); simpl;
      destruct (toPropertyKey u); reflexivity.
  - unfold Flat.publicKey. simpl.
    destruct (Flat.USERS_FILE s); simpl;
      match goal with |- context [Flat.isUndefined ?p] =>
        destruct (Flat.isUndefined p) end; reflexivity.
  - unfold Flat.send. simpl.
    destruct (negb (truthy f) || negb (truthy r) || negb (truthy c)
              || negb (truthy k) || negb (truthy i)); [reflexivity|].
    destruct (Flat.USERS_FILE s); simpl;
      (destruct (toPropertyKey f) as [key|]; [|reflexivity]);
      match goal with |- context [Flat.isUndefined ?p] =>
        destruct (Flat.isUndefined p) end; try reflexivity;
      match goal with |- context [invalidApiKey ?x ?y] =>
        destruct (invalidApiKey x y) end; try reflexivity;
      destruct (Flat.MSG_FILE s); reflexivity.
  - unfold Flat.messages. simpl.
    destruct (Flat.USERS_FILE s); simpl;
      match goal with |- context [Flat.isUndefined ?p] =>
        destruct (Flat.isUndefined p) end; try reflexivity;
      match goal with |- context [invalidApiKey ?x ?y] =>
        destruct (invalidApiKey x y) end; try reflexivity;
      destruct (Flat.MSG_FILE s); reflexivity.
  - unfold Flat.users. simpl. destruct (Flat.USERS_FILE s); reflexivity.
Qed.

(** *** The flat-file server on a disk where writing can fail *)

(** On a disk that takes every write the server is the one of [Flat]. *)
Lemma FlatFs_readJson_writable {A : Type} (f : Flat.file A) (fallback : A) :
  FlatFs.readJson FlatFs.Written f fallback = Flat.readJson f fallback.
Proof.
  destruct f; reflexivity.
Qed.

Lemma FlatFs_writable e s req :
  FlatFs.handle writable e s req = Flat.handle e s req.
Proof.
  unfold FlatFs.handle, Flat.handle.
  destruct req as [u k|u|f r c k i a|u a|];
    unfold FlatFs.register, FlatFs.publicKey, FlatFs.send, FlatFs.messages,
           FlatFs.users, Flat.register, Flat.publicKey, Flat.send, Flat.messages,
           Flat.users;
    cbn [writable FlatFs.usersWrite FlatFs.msgWrite];
    rewrite ?FlatFs_readJson_writable.
  - destruct (negb (truthy u) || negb (truthy k)); [reflexivity|].
    destruct (Flat.readJson (Flat.USERS_FILE s) []).
    destruct (toPropertyKey u); reflexivity.
  - reflexivity.
  - destruct (negb (truthy f) || negb (truthy r) || negb (truthy c)
              || negb (truthy k) || negb (truthy i)); [reflexivity|].
    destruct (Flat.readJson (Flat.USERS_FILE s) []).
    destruct (toPropertyKey f) as [key|]; [|reflexivity].
    destruct (Flat.isUndefined _); [reflexivity|].
    destruct (invalidApiKey _ _); [reflexivity|].
    destruct (Flat.readJson (Flat.MSG_FILE s) []). reflexivity.
  - reflexivity.
  - reflexivity.
Qed.

(** The answers of the server on any disk, from those on a disk that takes
    every write.  A registration or a send that would be answered 200 and
    whose [writeJson] throws is answered by Express, and the file is as it
    was or torn.  Every other request is answered the same, and the handlers
    read the same from the files afterwards. *)
Lemma FlatFs_handle_cases d e s req :
  if writeFails d req && (status (snd (Flat.handle e s req)) =? 200)
  then FlatFs.handle d e s req = (afterThrow d req s, Flat.uncaught)
  else snd (FlatFs.handle d e s req) = snd (Flat.handle e s req)
       /\ asRead (fst (FlatFs.handle d e s req)) = asRead (fst (Flat.handle e s req)).
Proof.
  destruct d as [uw mw]. destruct s as [uf mf].
  unfold FlatFs.handle, Flat.handle, writeFails, afterThrow, asRead,
         Flat.registry, Flat.stored.
  destruct req as [u k|u|f r c k i a|u a|];
    unfold FlatFs.register, FlatFs.publicKey, FlatFs.send, FlatFs.messages,
           FlatFs.users, Flat.register, Flat.publicKey, Flat.send, Flat.messages,
           Flat.users;
    cbn [FlatFs.usersWrite FlatFs.msgWrite Flat.USERS_FILE Flat.MSG_FILE].
  - destruct (negb (truthy u) || negb (truthy k)).
    { rewrite andb_false_r. auto. }
    destruct uw, uf; cbn -[Flat.setProperty randomToken];
      destruct (toPropertyKey u); cbn -[Flat.setProperty randomToken]; auto.
  - rewrite andb_false_l.
    destruct uw, uf; cbn;
      match goal with |- context [Flat.isUndefined ?p] =>
        destruct (Flat.isUndefined p) end; cbn; auto.
  - destruct (negb (truthy f) || negb (truthy r) || negb (truthy c)
              || negb (truthy k) || negb (truthy i)).
    { rewrite andb_false_r. auto. }
    destruct (toPropertyKey f) as [key|].
    2:{ destruct uw, uf; cbn; rewrite ?andb_false_r; auto. }
    assert (G : Flat.getProperty [] key = Flat.Absent
                \/ Flat.getProperty [] key = Flat.Inherited).
    { unfold Flat.getProperty. cbn [Flat.ownProperty].
      destruct (existsb _ _); auto. }
    destruct uf as [| |data].
    + destruct uw;
        cbn [FlatFs.readJson FlatFs.writeFileSync Flat.readJson];
        destruct G as [G|G]; rewrite G; cbn [Flat.isUndefined Flat.tokenOf];
        rewrite ?invalidApiKey_inherited; cbn; rewrite ?andb_false_r; auto.
    + destruct uw;
        cbn [FlatFs.readJson FlatFs.writeFileSync Flat.readJson];
        destruct G as [G|G]; rewrite G; cbn [Flat.isUndefined Flat.tokenOf];
        rewrite ?invalidApiKey_inherited; cbn; rewrite ?andb_false_r; auto.
    + cbn [FlatFs.readJson Flat.readJson].
      destruct (Flat.isUndefined _).
      { cbn. rewrite andb_false_r. auto. }
      destruct (invalidApiKey _ _).
      { cbn. rewrite andb_false_r. auto. }
      destruct mw, mf; cbn; auto.
  - rewrite andb_false_l.
    destruct uw, uf; cbn;
      match goal with |- context [Flat.isUndefined ?p] =>
        destruct (Flat.isUndefined p) end; cbn; auto;
      match goal with |- context [invalidApiKey ?x ?y] =>
        destruct (invalidApiKey x y) end; cbn; auto;
      destruct mw, mf; cbn; auto.
  - rewrite andb_false_l. destruct uw, uf; cbn; auto.
Qed.

(** A write that throws changes no answer but those that would have been
    200. *)
Lemma FlatFs_same_answer d e s req :
  writeFails d req = false \/ status (snd (Flat.handle e s req)) <> 200 ->
  snd (FlatFs.handle d e s req) = snd (Flat.handle e s req).
Proof.
  intros H. pose proof (FlatFs_handle_cases d e s req) as C.
  destruct (writeFails d req); cbn [andb] in C.
  - destruct H as [H|H]; [discriminate|].
    apply Z.eqb_neq in H. rewrite H in C. apply C.
  - apply C.
Qed.

Lemma FlatFs_write_throws d e s req :
  writeFails d req = true -> status (snd (Flat.handle e s req)) = 200 ->
  FlatFs.handle d e s req = (afterThrow d req s, Flat.uncaught).
Proof.
  intros W St. pose proof (FlatFs_handle_cases d e s req) as C.
  rewrite W, St in C. exact C.
Qed.

(** On any disk the server answers as if an unreadable file held the
    fallback. *)
Lemma FlatFs_answers_from_fallback d e s req :
  snd (FlatFs.handle d e s req) = snd (FlatFs.handle d e (recovered s) req).
Proof.
  pose proof (FlatFs_handle_cases d e s req) as C1.
  pose proof (FlatFs_handle_cases d e (recovered s) req) as C2.
  pose proof (Flat_answers_from_fallback e s req) as F.
  rewrite <- F in C2.
  destruct (writeFails d req && (status (snd (Flat.handle e s req)) =? 200)).
  - rewrite C1, C2. reflexivity.
  - destruct C1 as [-> _]. destruct C2 as [-> _]. reflexivity.
Qed.

(** A registration that passes validation when [writeJson] throws: Express
    answers 500; [users.json] is as before when the write was refused, and
    holds no JSON any more when it was torn. *)
Lemma FlatFs_register_throws d e s name k :
  throws (FlatFs.usersWrite d) = true ->
  truthy (JStr name) = true -> truthy k = true ->
  FlatFs.handle d e s (Register (JStr name) k)
  = ({| Flat.USERS_FILE := leftBy (FlatFs.usersWrite d) (Flat.USERS_FILE s);
        Flat.MSG_FILE := Flat.MSG_FILE s |}, Flat.uncaught).
Proof.
  intros D Hn Hk.
  apply (FlatFs_write_throws d e s (Register (JStr name) k) D).
  rewrite (Flat_register_string e s name k Hn Hk). reflexivity.
Qed.

(** The same for a send that got past the credential check. *)
Lemma FlatFs_send_throws d e s user f r c k i :
  throws (FlatFs.msgWrite d) = true ->
  truthy (JStr f) = true -> truthy r = true -> truthy c = true ->
  truthy k = true -> truthy i = true ->
  Flat.ownProperty (Flat.registry s) f = Some user -> Flat.token user <> "" ->
  FlatFs.handle d e s (Send (JStr f) r c k i (Some (Flat.token user)))
  = ({| Flat.USERS_FILE := Flat.USERS_FILE s;
        Flat.MSG_FILE := leftBy (FlatFs.msgWrite d) (Flat.MSG_FILE s) |},
     Flat.uncaught).
Proof.
  intros D Hf Hr Hc Hk Hi Own Ht.
  apply (FlatFs_write_throws d e s
           (Send (JStr f) r c k i (Some (Flat.token user))) D).
  cbn [Flat.handle]. unfold Flat.send.
  rewrite Hf, Hr, Hc, Hk, Hi, toPropertyKey_string. cbn [negb orb].
  unfold Flat.registry in Own.
  destruct (Flat.readJson (Flat.USERS_FILE s) []) as [us uf']. cbn [fst] in Own.
  unfold Flat.getProperty. rewrite Own. cbn [Flat.isUndefined Flat.tokenOf].
  rewrite (invalidApiKey_match _ Ht).
  destruct (Flat.readJson (Flat.MSG_FILE s) []). reflexivity.
Qed.

(** C8, as the code has it.  On the MongoDB server a request whose store
    operation fails is answered 500 with [{error: 'internal error'}] and the
    store is left as it was: so for a failure of the first operation of any
    request that passes validation, for a failure of the second operation of
    a registration, a send or a fetch that got that far, and every 500 is
    this answer.  The flat-file server answers no failure that way.  A file
    that cannot be read or parsed is read as the fallback, and every request
    is answered as if the file held the fallback.  A write that fails inside
    [readJson] is caught: the answer is the one of a disk that takes the
    write.  A write that fails in [writeJson] is caught nowhere: the
    registration or the send that would have been answered 200 is answered
    by Express with its own 500, which is no [{error: ...}]; the file is as
    before when the write was refused and unreadable when it was torn; the
    other file is as before. *)
Theorem store_failure_responses :
  (forall e s req,
      status (snd (Mongo.handle e s req)) = 500 ->
      Mongo.handle e s req = (s, internalError))
  /\ (forall e s req,
      firstOpFails e = true -> passesValidation req = true ->
      Mongo.handle e s req = (s, internalError))
  /\ (forall e s,
      firstOpFails e = false -> secondOpFails e = true ->
      (forall name k,
          truthy (JStr name) = true -> truthy k = true ->
          Mongo.lookup (Mongo.users s) name = None ->
          Mongo.handle e s (Register (JStr name) k) = (s, internalError))
      /\ (forall user f r c k i,
          truthy (JStr f) = true -> truthy r = true -> truthy c = true ->
          truthy k = true -> truthy i = true ->
          Mongo.lookup (Mongo.users s) f = Some user -> Mongo.token user <> "" ->
          Mongo.handle e s (Send (JStr f) r c k i (Some (Mongo.token user)))
          = (s, internalError))
      /\ (forall user name,
          Mongo.lookup (Mongo.users s) name = Some user -> Mongo.token user <> "" ->
          Mongo.handle e s (Messages name (Some (Mongo.token user)))
          = (s, internalError)))
  /\ (forall (A : Type) (w : FlatFs.writing) (fallback : A),
      FlatFs.readJson w Flat.Unreadable fallback = (fallback, Flat.Unreadable))
  /\ (forall d e s req,
      snd (FlatFs.handle d e s req) = snd (FlatFs.handle d e (recovered s) req))
  /\ (forall d e s req,
      writeFails d req = false
      \/ status (snd (FlatFs.handle writable e s req)) <> 200 ->
      snd (FlatFs.handle d e s req) = snd (FlatFs.handle writable e s req))
  /\ (forall d e s req,
      writeFails d req = true ->
      status (snd (FlatFs.handle writable e s req)) = 200 ->
      FlatFs.handle d e s req = (afterThrow d req s, Flat.uncaught))
  /\ (forall d e s name k,
      FlatFs.usersWrite d = FlatFs.Refused ->
      truthy (JStr name) = true -> truthy k = true ->
      FlatFs.handle d e s (Register (JStr name) k) = (s, Flat.uncaught))
  /\ (forall d e s name k,
      FlatFs.usersWrite d = FlatFs.Torn ->
      truthy (JStr name) = true -> truthy k = true ->
      FlatFs.handle d e s (Register (JStr name) k)
      = ({| Flat.USERS_FILE := Flat.Unreadable; Flat.MSG_FILE := Flat.MSG_FILE s |},
         Flat.uncaught))
  /\ (forall d e s user f r c k i,
      throws (FlatFs.msgWrite d) = true ->
      truthy (JStr f) = true -> truthy r = true -> truthy c = true ->
      truthy k = true -> truthy i = true ->
      Flat.ownProperty (Flat.registry s) f = Some user -> Flat.token user <> "" ->
      FlatFs.handle d e s (Send (JStr f) r c k i (Some (Flat.token user)))
      = ({| Flat.USERS_FILE := Flat.USERS_FILE s;
            Flat.MSG_FILE := leftBy (FlatFs.msgWrite d) (Flat.MSG_FILE s) |},
         Flat.uncaught))
  /\ (forall message, json Flat.uncaught <> BError message).
Proof.
  split; [exact Mongo_500_is_internal_error|].
  split; [exact Mongo_first_operation_fails|].
  split; [exact Mongo_second_operation_fails|].
  split; [reflexivity|].
  split; [exact FlatFs_answers_from_fallback|].
  split.
  { intros d e s req H. rewrite FlatFs_writable in *.
    now apply FlatFs_same_answer. }
  split.
  { intros d e s req R St. rewrite FlatFs_writable in St.
    now apply FlatFs_write_throws. }
  split.
  { intros d e s name k D Hn Hk.
    rewrite (FlatFs_register_throws d e s name k); auto.
    - rewrite D. cbn [leftBy]. now rewrite Flat_state_eta.
    - now rewrite D. }
  split.
  { intros d e s name k D Hn Hk.
    rewrite (FlatFs_register_throws d e s name k); auto.
    - now rewrite D.
    - now rewrite D. }
  split; [exact FlatFs_send_throws|].
  intros message. discriminate.
Qed.

End Failure.

(** With both files unreadable the flat-file server lists no users and
    registers alice, status 200 each time; no request is answered 500 for an
    unreadable file.  When [users.json] cannot be written, bob's registration
    is answered 500, but by Express: the body is no [{error: ...}]. *)
Lemma flat_unreadable_store_answers_200 :
  snd (Flat.handle (quiet 1 1) flatBroken Users)
  = {| status := 200; json := BUsers [] |}
  /\ status (snd (Flat.handle (quiet 1 1) flatBroken
                    (Register (JStr "alice") (JStr "PEM_A")))) = 200
  /\ ~ (forall e s req,
          Flat.USERS_FILE s = Flat.Unreadable -> passesValidation req = true ->
          status (snd (Flat.handle e s req)) = 500)
  /\ snd (FlatFs.handle readOnly (quiet 2 2) flatAlice
            (Register (JStr "bob") (JStr "PEM_B")))
     = {| status := 500; json := BUncaught |}
  /\ ~ (forall d e s req,
          writeFails d req = true -> passesValidation req = true ->
          exists message,
            json (snd (FlatFs.handle d e s req)) = BError message).
Proof.
  split; [reflexivity|]. split; [reflexivity|]. split; [|split].
  - intros H. specialize (H (quiet 1 1) flatBroken Users eq_refl eq_refl).
    discriminate H.
  - reflexivity.
  - intros H.
    destruct (H readOnly (quiet 2 2) flatAlice
                (Register (JStr "bob") (JStr "PEM_B")) eq_refl eq_refl)
      as [message E].
    discriminate E.
Qed.

(** The database is down while alice, registered, asks for the users, sends
    and fetches; [users.json] cannot be opened for writing when bob registers
    with the flat-file server; the disk is full when alice sends; and a
    listing on a disk without files that takes no write. *)
Lemma store_failure_responses_witness :
  Mongo.handle {| now := 4; randomBytes16 := 0; firstOpFails := true;
                  secondOpFails := false |} mongoAlice Users
  = (mongoAlice, internalError)
  /\ Mongo.handle {| now := 4; randomBytes16 := 0; firstOpFails := false;
                     secondOpFails := true |} mongoAlice
       (Messages "alice" (Some (Mongo.token aliceDoc)))
     = (mongoAlice, internalError)
  /\ FlatFs.handle readOnly (quiet 2 2) flatAlice
       (Register (JStr "bob") (JStr "PEM_B"))
     = (flatAlice, Flat.uncaught)
  /\ FlatFs.handle full (quiet 2 2) flatAlice (aliceWrites "first")
     = ({| Flat.USERS_FILE := Flat.USERS_FILE flatAlice;
           Flat.MSG_FILE := Flat.Unreadable |}, Flat.uncaught)
  /\ snd (FlatFs.handle readOnly (quiet 2 2) Flat.empty Users)
     = snd (FlatFs.handle writable (quiet 2 2) Flat.empty Users).
Proof.
  destruct (@store_failure_responses scalarCasts scalarKeys)
    as (_ & First & Second & _ & _ & Same & Thrown & Reg & _ & _).
  split; [|split; [|split; [|split]]].
  - apply First; reflexivity.
  - destruct (Second {| now := 4; randomBytes16 := 0; firstOpFails := false;
                        secondOpFails := true |} mongoAlice eq_refl eq_refl)
      as (_ & _ & Fetch).
    apply (Fetch aliceDoc "alice"); [reflexivity|].
    vm_compute. discriminate.
  - apply Reg; reflexivity.
  - apply (Thrown full (quiet 2 2) flatAlice (aliceWrites "first")); reflexivity.
  - apply Same. left. reflexivity.
Defined.

(** ** The order of a fetch *)

Section Ordering.
Context {casts : MongooseCasts} {js : JsCoercions}.

Lemma upTo_nil t : upTo t [].
Proof.
  split; constructor.
Qed.

Lemma upTo_later t t' l : upTo t l -> t <= t' -> upTo t' l.
Proof.
  intros [S B] Hle. split; [exact S|].
  eapply Forall_impl; [|exact B]. simpl. intros. lia.
Qed.

Lemma upTo_snoc t t' l : upTo t l -> t <= t' -> upTo t' (l ++ [t']).
Proof.
  intros [S B] Hle. split.
  - induction S as [|x l S IH F]; simpl.
    + repeat constructor.
    + inversion B as [|? ? Hx B']; subst. cbv beta in Hx.
      constructor; [now apply IH|].
      apply Forall_app. split; [exact F|]. constructor; [lia | constructor].
  - apply Forall_app. split.
    + eapply Forall_impl; [|exact B]. simpl. intros. lia.
    + constructor; [lia | constructor].
Qed.

Lemma Mongo_handle_upTo t e s req :
  upTo t (map Mongo.timestamp (Mongo.messages s)) -> t <= now e ->
  upTo (now e) (map Mongo.timestamp (Mongo.messages (fst (Mongo.handle e s req)))).
Proof.
  intros U Hle.
  destruct (Mongo_handle_extends e s req) as [E|(d & E & Hd)]; rewrite E.
  - eapply upTo_later; eauto.
  - rewrite map_app. simpl. rewrite Hd. eapply upTo_snoc; eauto.
Qed.




Lemma clock_lower_bound trace :
  clockNonDecreasing trace ->
  exists t, Forall (fun x => t <= x) (clock trace).
Proof.
  destruct trace as [|[e req] trace]; intros C.
  - exists 0. constructor.
  - exists (now e). inversion C; subst. constructor; [simpl; lia | assumption].
Qed.



Lemma sorted_filter {A : Type} (stamp : A -> Z) (p : A -> bool) (l : list A) :
  StronglySorted Z.le (map stamp l) ->
  StronglySorted Z.le (map stamp (filter p l)).
Proof.
  induction l as [|x l IH]; simpl; intros S; [constructor|].
  inversion S as [|? ? S' F]; subst.
  destruct (p x); simpl; [|now apply IH].
  constructor; [now apply IH|].
  rewrite Forall_forall in *. intros y Hy. apply F.
  apply in_map_iff in Hy. destruct Hy as (z & <- & Hz).
  apply filter_In in Hz. apply in_map. tauto.
Qed.

Lemma insertByTimestamp_In m l x :
  In x (Mongo.insertByTimestamp m l) <-> x = m \/ In x l.
Proof.
  induction l as [|y l IH]; simpl.
  - intuition congruence.
  - destruct (Mongo.timestamp m <=? Mongo.timestamp y); simpl;
      [intuition congruence|].
    rewrite IH. intuition congruence.
Qed.

Lemma insertByTimestamp_sorted m l :
  StronglySorted (fun a b => Mongo.timestamp a <= Mongo.timestamp b) l ->
  StronglySorted (fun a b => Mongo.timestamp a <= Mongo.timestamp b)
                 (Mongo.insertByTimestamp m l).
Proof.
  induction 1 as [|y l S IH F]; simpl.
  - repeat constructor.
  - destruct (Mongo.timestamp m <=? Mongo.timestamp y) eqn:E.
    + apply Z.leb_le in E. constructor; [now constructor|].
      constructor; [exact E|].
      eapply Forall_impl; [|exact F]. simpl. intros a Ha. lia.
    + apply Z.leb_gt in E. constructor; [exact IH|].
      rewrite Forall_forall in *. intros x Hx.
      apply insertByTimestamp_In in Hx. destruct Hx as [->|Hx].
      * lia.
      * now apply F.
Qed.

Lemma sortByTimestamp_ascending l :
  StronglySorted (fun a b => Mongo.timestamp a <= Mongo.timestamp b)
                 (Mongo.sortByTimestamp l).
Proof.
  induction l as [|m l IH]; simpl; [constructor|].
  now apply insertByTimestamp_sorted.
Qed.

Lemma sorted_map_timestamps l :
  StronglySorted (fun a b => Mongo.timestamp a <= Mongo.timestamp b) l ->
  StronglySorted Z.le (map Http.timestamp (map Mongo.toJson l)).
Proof.
  induction 1 as [|m l S IH F]; simpl; [constructor|].
  constructor; [exact IH|].
  rewrite Forall_forall in *. intros t Ht.
  rewrite map_map in Ht. apply in_map_iff in Ht. destruct Ht as (x & <- & Hx).
  simpl. now apply F.
Qed.

(** *** The sort keeps the order of arrival where the timestamps allow *)







(** Sorting documents that are in ascending order changes nothing. *)
Lemma sortByTimestamp_sorted l :
  StronglySorted Z.le (map Mongo.timestamp l) -> Mongo.sortByTimestamp l = l.
Proof.
  induction l as [|x l IH]; simpl; intros S; [reflexivity|].
  inversion S as [|? ? S' F]; subst. rewrite (IH S').
  destruct l as [|y l]; simpl; [reflexivity|].
  inversion F; subst.
  destruct (Mongo.timestamp x <=? Mongo.timestamp y) eqn:E; [reflexivity|].
  apply Z.leb_gt in E. lia.
Qed.





End Ordering.

Section FetchOrder.
Context {casts : MongooseCasts} {js : JsCoercions}.



End FetchOrder.

Ltac sorted_clock :=
  unfold clockNonDecreasing, clock; simpl;
  repeat first [ apply SSorted_nil | apply SSorted_cons | apply Forall_nil
               | apply Forall_cons; [lia|] ].




(** ** The two servers side by side *)

(** The two servers do not always answer alike: alice registers twice and
    fetches with her first token.  The MongoDB server kept that token and
    answers 200; the flat-file server replaced it and answers 401. *)
Lemma backends_diverge :
  map status (snd (Mongo.run Mongo.empty registerTwice)) = [200; 200; 200]
  /\ map status (snd (Flat.run Flat.empty registerTwice)) = [200; 200; 401]
  /\ map status (snd (Mongo.run Mongo.empty registerTwice))
     <> map status (snd (Flat.run Flat.empty registerTwice)).
Proof.
  split; [reflexivity|]. split; [reflexivity|]. vm_compute. discriminate.
Qed.

(** Further traces on which the answers differ: a sender named like a
    property of [Object.prototype], user names that are array indices, a clock
    that goes back, and a store that fails. *)
Lemma diverge_on_inherited_name :
  map status (snd (Mongo.run Mongo.empty sendFromToString)) = [400]
  /\ map status (snd (Flat.run Flat.empty sendFromToString)) = [401].
Proof.
  split; reflexivity.
Qed.

Lemma diverge_on_array_index :
  nth 2 (snd (Mongo.run Mongo.empty registerNumerals)) internalError
  = {| status := 200; json := BUsers ["10"; "9"] |}
  /\ nth 2 (snd (Flat.run Flat.empty registerNumerals)) internalError
     = {| status := 200; json := BUsers ["9"; "10"] |}.
Proof.
  split; reflexivity.
Qed.

Lemma diverge_when_clock_goes_back :
  nth 3 (snd (Mongo.run Mongo.empty clockGoesBack)) internalError
  = {| status := 200;
       json := BMessages [aliceNote "second" 4; aliceNote "first" 6] |}
  /\ nth 3 (snd (Flat.run Flat.empty clockGoesBack)) internalError
     = {| status := 200;
          json := BMessages [aliceNote "first" 6; aliceNote "second" 4] |}.
Proof.
  split; reflexivity.
Qed.

Lemma diverge_on_store_failure :
  let down := {| now := 1; randomBytes16 := 0; firstOpFails := true;
                 secondOpFails := false |} in
  snd (Mongo.handle down Mongo.empty Users) = internalError
  /\ snd (Flat.handle down Flat.empty Users) = {| status := 200; json := BUsers [] |}.
Proof.
  split; reflexivity.
Qed.

Section Agreement.
Context {casts : MongooseCasts} {js : JsCoercions}.

Lemma plainValue_truthy v :
  plainValue v = true -> truthy v = true -> exists s, v = JStr s /\ s <> "".
Proof.
  destruct v; simpl; intros P T; try discriminate;
    try (rewrite T in P; discriminate).
  eexists. split; [reflexivity|]. now apply truthy_string.
Qed.

Lemma ordinary_not_inherited name :
  ordinary name = true -> ~ In name Flat.objectPrototype.
Proof.
  unfold ordinary. rewrite negb_true_iff. intros E H.
  apply existsb_eqb_In in H. congruence.
Qed.

Lemma ordinary_not_proto name :
  ordinary name = true -> (name =? "__proto__")%string = false.
Proof.
  intros O. apply String.eqb_neq. intros ->. discriminate O.
Qed.

Lemma ownProperty_asProperty us name :
  Flat.ownProperty (map asProperty us) name
  = option_map (fun d => snd (asProperty d)) (Mongo.lookup us name).
Proof.
  unfold Mongo.lookup. induction us as [|d us IH]; simpl; [reflexivity|].
  rewrite (String.eqb_sym (Mongo.username d) name).
  destruct (name =? Mongo.username d)%string; [reflexivity | exact IH].
Qed.

Lemma getProperty_asProperty us name :
  ordinary name = true ->
  Flat.getProperty (map asProperty us) name
  = match Mongo.lookup us name with
    | Some d => Flat.Own (snd (asProperty d))
    | None => Flat.Absent
    end.
Proof.
  intros O. unfold Flat.getProperty. rewrite ownProperty_asProperty.
  destruct (Mongo.lookup us name); cbn [option_map]; [reflexivity|].
  unfold ordinary in O. apply negb_true_iff in O. rewrite O. reflexivity.
Qed.

Lemma setProperty_asProperty us d :
  ordinary (Mongo.username d) = true ->
  Mongo.lookup us (Mongo.username d) = None ->
  Flat.setProperty (map asProperty us) (Mongo.username d) (snd (asProperty d))
  = map asProperty (us ++ [d]).
Proof.
  intros O L. unfold Flat.setProperty.
  rewrite ownProperty_asProperty, L, (ordinary_not_proto _ O), map_app.
  reflexivity.
Qed.

Lemma indexKeys_plain keys :
  Forall (fun k => noIndex k = true) keys -> Flat.indexKeys keys = [].
Proof.
  unfold Flat.indexKeys, noIndex.
  induction 1 as [|k keys Hk _ IH]; simpl; [reflexivity|].
  rewrite IH. destruct (Flat.arrayIndex k); [discriminate | reflexivity].
Qed.

Lemma filter_plain keys :
  Forall (fun k => noIndex k = true) keys ->
  filter (fun k => match Flat.arrayIndex k with None => true | Some _ => false end)
         keys = keys.
Proof.
  unfold noIndex. induction 1 as [|k keys Hk _ IH]; simpl; [reflexivity|].
  rewrite Hk, IH. reflexivity.
Qed.

(** Without array indices among the keys, [Object.keys] is the insertion
    order. *)
Lemma Object_keys_plain us :
  Forall (fun d => noIndex (Mongo.username d) = true) us ->
  Flat.Object_keys (map asProperty us) = map Mongo.username us.
Proof.
  intros H. unfold Flat.Object_keys.
  assert (K : map fst (map asProperty us) = map Mongo.username us).
  { rewrite map_map. reflexivity. }
  rewrite K.
  assert (P : Forall (fun k => noIndex k = true) (map Mongo.username us)).
  { apply Forall_map. exact H. }
  rewrite (indexKeys_plain _ P), (filter_plain _ P). reflexivity.
Qed.

Lemma filter_toJson name ms :
  filter (fun m => strictEqualsString (Http.to m) name) (map Mongo.toJson ms)
  = map Mongo.toJson (filter (fun m => (Mongo.to m =? name)%string) ms).
Proof.
  induction ms as [|m ms IH]; simpl; [reflexivity|].
  destruct (Mongo.to m =? name)%string; simpl; now rewrite IH.
Qed.

Lemma readJson_stable {A : Type} (f f' : Flat.file A) (fallback x : A) :
  Flat.readJson f fallback = (x, f') -> fst (Flat.readJson f' fallback) = x.
Proof.
  destruct f; simpl; intros E; inversion E; reflexivity.
Qed.

Lemma Mongo_lookup_other us d name :
  Mongo.lookup us name = None -> Mongo.username d <> name ->
  Mongo.lookup (us ++ [d]) name = None.
Proof.
  unfold Mongo.lookup. intros L N. induction us as [|x us IH]; simpl in *.
  - apply not_eq_sym, String.eqb_neq in N. rewrite N. reflexivity.
  - destruct (name =? Mongo.username x)%string; [discriminate | auto].
Qed.

End Agreement.

Section Simulation.
Context {casts : MongooseCasts} {js : JsCoercions}.

Lemma sameContent_views m f f' :
  Flat.registry f' = Flat.registry f -> Flat.stored f' = Flat.stored f ->
  sameContent m f -> sameContent m f'.
Proof.
  unfold sameContent. intros -> ->. auto.
Qed.

Lemma touched_users f us uf :
  Flat.readJson (Flat.USERS_FILE f) [] = (us, uf) ->
  us = Flat.registry f
  /\ Flat.registry {| Flat.USERS_FILE := uf; Flat.MSG_FILE := Flat.MSG_FILE f |}
     = Flat.registry f
  /\ Flat.stored {| Flat.USERS_FILE := uf; Flat.MSG_FILE := Flat.MSG_FILE f |}
     = Flat.stored f.
Proof.
  intros E. unfold Flat.registry, Flat.stored. cbn [Flat.USERS_FILE Flat.MSG_FILE].
  rewrite (readJson_stable _ _ _ _ E), E. auto.
Qed.

Lemma agree_register e m f u k :
  sameContent m f -> noFault e -> plainRequest (Register u k) = true ->
  (forall name, In name (registers (Register u k)) ->
                Mongo.lookup (Mongo.users m) name = None) ->
  snd (Mongo.handle e m (Register u k)) = snd (Flat.handle e f (Register u k))
  /\ sameContent (fst (Mongo.handle e m (Register u k)))
                 (fst (Flat.handle e f (Register u k))).
Proof.
  intros SC [F1 F2] P L. simpl in P.
  apply andb_prop in P. destruct P as [P Pn].
  apply andb_prop in P. destruct P as [Pu Pk].
  destruct (truthy u && truthy k) eqn:V.
  - apply andb_prop in V. destruct V as [Tu Tk].
    destruct (plainValue_truthy u Pu Tu) as (name & -> & Hn).
    destruct (plainValue_truthy k Pk Tk) as (key & -> & Hk).
    simpl in Pn. apply andb_prop in Pn. destruct Pn as [On In'].
    assert (Lk : Mongo.lookup (Mongo.users m) name = None).
    { apply L. cbn [registers]. rewrite Tu, Tk. now left. }
    rewrite (Mongo_register_new e m name key Hn Hk F1 F2 Lk).
    rewrite (Flat_register_string e f name (JStr key) Tu Tk). cbn [fst snd].
    split; [reflexivity|].
    destruct SC as (R & S & I). unfold sameContent.
    cbn [Mongo.users Mongo.messages]. unfold Flat.registry at 1, Flat.stored at 1.
    cbn [Flat.USERS_FILE Flat.MSG_FILE Flat.readJson fst].
    set (d := {| Mongo.username := name; Mongo.publicKeyPem := key;
                 Mongo.token := randomToken (randomBytes16 e);
                 Mongo.createdAt := now e |}).
    split; [|split].
    + rewrite R. apply (setProperty_asProperty (Mongo.users m) d On Lk).
    + exact S.
    + apply Forall_app. split; [exact I|]. constructor; [exact In' | constructor].
  - assert (N : negb (truthy u) || negb (truthy k) = true).
    { destruct (truthy u), (truthy k); try reflexivity; discriminate. }
    unfold Mongo.handle, Mongo.tryHandler, Mongo.tryRegister, Flat.handle,
      Flat.register.
    rewrite N. cbn [fst snd]. split; [reflexivity | exact SC].
Qed.

Lemma agree_publicKey e m f name :
  sameContent m f -> noFault e -> plainRequest (PublicKey name) = true ->
  snd (Mongo.handle e m (PublicKey name)) = snd (Flat.handle e f (PublicKey name))
  /\ sameContent (fst (Mongo.handle e m (PublicKey name)))
                 (fst (Flat.handle e f (PublicKey name))).
Proof.
  intros SC [F1 F2] P. simpl in P.
  unfold Mongo.handle, Mongo.tryHandler, Mongo.tryPublicKey, Flat.handle,
    Flat.publicKey.
  rewrite F1, Mongo_findOne_string.
  destruct (Flat.readJson (Flat.USERS_FILE f) []) as [us uf] eqn:E.
  destruct (touched_users f us uf E) as (-> & Rk & Sk).
  pose proof SC as (R & _). rewrite R, (getProperty_asProperty _ _ P).
  destruct (Mongo.lookup (Mongo.users m) name); cbn;
    (split; [reflexivity | now apply (sameContent_views m f)]).
Qed.

Lemma agree_users e m f :
  sameContent m f -> noFault e ->
  snd (Mongo.handle e m Users) = snd (Flat.handle e f Users)
  /\ sameContent (fst (Mongo.handle e m Users)) (fst (Flat.handle e f Users)).
Proof.
  intros SC [F1 F2].
  unfold Mongo.handle, Mongo.tryHandler, Mongo.tryUsers, Flat.handle, Flat.users.
  rewrite F1.
  destruct (Flat.readJson (Flat.USERS_FILE f) []) as [us uf] eqn:E.
  destruct (touched_users f us uf E) as (-> & Rk & Sk).
  pose proof SC as (R & _ & I). rewrite R, (Object_keys_plain _ I). cbn [fst snd].
  split; [reflexivity | now apply (sameContent_views m f)].
Qed.

Lemma agree_messages e m f name apiKey :
  sameContent m f -> noFault e -> plainRequest (Messages name apiKey) = true ->
  StronglySorted Z.le (map Mongo.timestamp (Mongo.messages m)) ->
  snd (Mongo.handle e m (Messages name apiKey))
  = snd (Flat.handle e f (Messages name apiKey))
  /\ sameContent (fst (Mongo.handle e m (Messages name apiKey)))
                 (fst (Flat.handle e f (Messages name apiKey))).
Proof.
  intros SC [F1 F2] P Sorted. simpl in P.
  unfold Mongo.handle, Mongo.tryHandler, Mongo.tryMessages, Mongo.findMessages,
    Flat.handle, Flat.messages.
  rewrite F1, F2, Mongo_findOne_string.
  destruct (Flat.readJson (Flat.USERS_FILE f) []) as [us uf] eqn:E.
  destruct (touched_users f us uf E) as (-> & Rk & Sk).
  pose proof SC as (R & S & _). rewrite R, (getProperty_asProperty _ _ P).
  destruct (Mongo.lookup (Mongo.users m) name) as [d|]; cbn;
    [|split; [reflexivity | now apply (sameContent_views m f)]].
  destruct (invalidApiKey apiKey (Some (Mongo.token d))); cbn;
    [split; [reflexivity | now apply (sameContent_views m f)]|].
  destruct (Flat.readJson (Flat.MSG_FILE f) []) as [ms mf] eqn:E2. cbn [fst snd].
  assert (Hms : ms = Flat.stored f) by (unfold Flat.stored; now rewrite E2).
  split.
  - rewrite Hms, S, filter_toJson, sortByTimestamp_sorted;
      [reflexivity | now apply sorted_filter].
  - apply (sameContent_views m f); [| |exact SC].
    + unfold Flat.registry. cbn [Flat.USERS_FILE].
      now rewrite (readJson_stable _ _ _ _ E).
    + unfold Flat.stored. cbn [Flat.MSG_FILE].
      now rewrite (readJson_stable _ _ _ _ E2), E2.
Qed.

End Simulation.

Section SimulationSend.
Context {casts : MongooseCasts} {js : JsCoercions}.

Lemma agree_send e m f sender r c k i apiKey :
  sameContent m f -> noFault e ->
  plainRequest (Send sender r c k i apiKey) = true ->
  snd (Mongo.handle e m (Send sender r c k i apiKey))
  = snd (Flat.handle e f (Send sender r c k i apiKey))
  /\ sameContent (fst (Mongo.handle e m (Send sender r c k i apiKey)))
                 (fst (Flat.handle e f (Send sender r c k i apiKey))).
Proof.
  intros SC [F1 F2] P. simpl in P.
  repeat (apply andb_prop in P; let Q := fresh "Q" in destruct P as [P Q]).
  destruct (negb (truthy sender) || negb (truthy r) || negb (truthy c)
            || negb (truthy k) || negb (truthy i)) eqn:V.
  - unfold Mongo.handle, Mongo.tryHandler, Mongo.trySend, Flat.handle, Flat.send.
    rewrite V. cbn [fst snd]. split; [reflexivity | exact SC].
  - repeat (apply orb_false_iff in V; let T := fresh "T" in destruct V as [V T]).
    apply negb_false_iff in V, T, T0, T1, T2.
    destruct (plainValue_truthy sender P V) as (name & -> & Hn).
    destruct (plainValue_truthy r Q3 T2) as (rn & -> & Hr).
    destruct (plainValue_truthy c Q2 T1) as (cn & -> & Hc).
    destruct (plainValue_truthy k Q1 T0) as (kn & -> & Hk).
    destruct (plainValue_truthy i Q0 T) as (inn & -> & Hi).
    simpl in Q.
    destruct (Mongo.lookup (Mongo.users m) name) as [d|] eqn:L.
    + assert (Own : Flat.ownProperty (Flat.registry f) name
                    = Some (snd (asProperty d))).
      { destruct SC as (R & _). rewrite R, ownProperty_asProperty, L. reflexivity. }
      destruct (invalidApiKey apiKey (Some (Mongo.token d))) eqn:A.
      * unfold Mongo.handle, Mongo.tryHandler, Mongo.trySend, Flat.handle, Flat.send.
        rewrite V, T2, T1, T0, T, F1, Mongo_findOne_string, L,
          (Flat_registry_content _ _ _ Own), toPropertyKey_string,
          (Flat_getProperty_own _ _ _ Own).
        cbn. rewrite A. cbn. rewrite Flat_state_eta.
        split; [reflexivity | exact SC].
      * apply invalidApiKey_false_iff in A. destruct A as [-> Ht].
        rewrite (Mongo_send_ok e m d name rn cn kn inn Hn Hr Hc Hk Hi F1 F2 L Ht).
        change (Mongo.token d) with (Flat.token (snd (asProperty d))).
        rewrite (Flat_send_ok e f _ name _ _ _ _ V T2 T1 T0 T Own Ht).
        cbn [fst snd]. split; [reflexivity|].
        destruct SC as (R & S & I). unfold sameContent.
        cbn [Mongo.users Mongo.messages]. split; [|split].
        -- unfold Flat.registry in *. exact R.
        -- unfold Flat.stored at 1. cbn [Flat.MSG_FILE Flat.readJson fst].
           rewrite S, map_app. reflexivity.
        -- exact I.
    + rewrite (Mongo_send_unknown_sender e m name _ _ _ _ apiKey V T2 T1 T0 T F1 L).
      assert (NoOwn : Flat.ownProperty (Flat.registry f) name = None).
      { destruct SC as (R & _). rewrite R, ownProperty_asProperty, L. reflexivity. }
      destruct (Flat_send_unknown_sender e f name _ _ _ _ apiKey V T2 T1 T0 T NoOwn
                  (ordinary_not_inherited _ Q)) as (Resp & Msg & Reg).
      rewrite Resp. cbn [fst snd]. split; [reflexivity|].
      apply (sameContent_views m f); [exact Reg | | exact SC].
      unfold Flat.stored. now rewrite Msg.
Qed.

Lemma Mongo_users_kept e m req :
  (forall u k, req <> Register u k) ->
  Mongo.users (fst (Mongo.handle e m req)) = Mongo.users m.
Proof.
  intros N. unfold Mongo.handle, Mongo.tryHandler.
  destruct req as [u k|u|sender r c k i a|u a|]; simpl.
  - exfalso. now apply (N u k).
  - unfold Mongo.tryPublicKey.
    destruct (Mongo.findOne _ _ _) as [[ex|]|]; reflexivity.
  - unfold Mongo.trySend.
    destruct (negb (truthy sender) || negb (truthy r) || negb (truthy c)
              || negb (truthy k) || negb (truthy i)); simpl; auto.
    destruct (Mongo.findOne _ _ _) as [[user|]|]; simpl; auto.
    destruct (invalidApiKey _ _); simpl; auto.
    destruct (Mongo.saveMessage _ _ _ _ _ _ _ _); reflexivity.
  - unfold Mongo.tryMessages.
    destruct (Mongo.findOne _ _ _) as [[user|]|]; simpl; auto.
    destruct (invalidApiKey _ _); simpl; auto.
    destruct (Mongo.findMessages _ _ _); reflexivity.
  - unfold Mongo.tryUsers. destruct (firstOpFails e); reflexivity.
Qed.

(** A name that is not registered stays so through a request that does not
    register it. *)
Lemma Mongo_lookup_kept e m req name :
  plainRequest req = true ->
  Mongo.lookup (Mongo.users m) name = None -> ~ In name (registers req) ->
  Mongo.lookup (Mongo.users (fst (Mongo.handle e m req))) name = None.
Proof.
  intros P L N.
  destruct req as [u k|u|sender r c k i a|u a|];
    try (rewrite Mongo_users_kept; [exact L | intros ? ?; discriminate]).
  unfold Mongo.handle, Mongo.tryHandler, Mongo.tryRegister.
  destruct (negb (truthy u) || negb (truthy k)) eqn:V; [exact L|].
  apply orb_false_iff in V. destruct V as [Tu Tk].
  apply negb_false_iff in Tu, Tk.
  simpl in P. apply andb_prop in P. destruct P as [P _].
  apply andb_prop in P. destruct P as [Pu _].
  destruct (plainValue_truthy u Pu Tu) as (n & -> & Hn).
  destruct (Mongo.findOne _ _ _) as [[ex|]|]; simpl; try exact L.
  unfold Mongo.saveUser. destruct (secondOpFails e); simpl; try exact L.
  rewrite castString_string. destruct (castString k) as [key|]; simpl; try exact L.
  match goal with |- context [if ?b then _ else _] => destruct b end;
    simpl; try exact L.
  match goal with |- context [if ?b then _ else _] => destruct b end;
    simpl; try exact L.
  apply Mongo_lookup_other; [exact L|]. cbn [Mongo.username].
  intros ->. apply N. cbn [registers]. rewrite Tu, Tk. now left.
Qed.

(** One request, handled by both servers in the same environment. *)
Lemma agree_step e m f req :
  sameContent m f -> noFault e -> plainRequest req = true ->
  StronglySorted Z.le (map Mongo.timestamp (Mongo.messages m)) ->
  (forall name, In name (registers req) ->
                Mongo.lookup (Mongo.users m) name = None) ->
  snd (Mongo.handle e m req) = snd (Flat.handle e f req)
  /\ sameContent (fst (Mongo.handle e m req)) (fst (Flat.handle e f req)).
Proof.
  intros SC F P S L.
  destruct req as [u k|u|sender r c k i a|u a|].
  - now apply agree_register.
  - now apply agree_publicKey.
  - now apply agree_send.
  - now apply agree_messages.
  - now apply agree_users.
Qed.

Lemma agree_run trace : forall m f t,
  sameContent m f ->
  upTo t (map Mongo.timestamp (Mongo.messages m)) ->
  Forall (fun x => t <= x) (clock trace) -> clockNonDecreasing trace ->
  Forall (fun step => noFault (fst step) /\ plainRequest (snd step) = true) trace ->
  NoDup (registrations trace) ->
  (forall name, In name (registrations trace) ->
                Mongo.lookup (Mongo.users m) name = None) ->
  snd (Mongo.run m trace) = snd (Flat.run f trace).
Proof.
  induction trace as [|[e req] trace IH]; intros m f t SC U B C OK ND Fresh;
    [reflexivity|].
  rewrite Mongo_run_cons, Flat_run_cons. cbn [snd].
  inversion B as [|? ? Ble B']; subst. inversion C as [|? ? C' Cle]; subst.
  inversion OK as [|? ? [NF PR] OK']; subst. cbn [fst snd] in *.
  unfold registrations in ND, Fresh. cbn [flat_map snd] in ND, Fresh.
  fold (registrations trace) in ND, Fresh.
  destruct (agree_step e m f req SC NF PR (proj1 U)) as [Resp SC'].
  { intros name Hin. apply Fresh, in_or_app. now left. }
  rewrite Resp. f_equal.
  apply (IH _ _ (now e)); auto.
  - now apply (Mongo_handle_upTo t).
  - now apply NoDup_app_remove_l in ND.
  - intros name Hin. apply Mongo_lookup_kept; auto.
    + apply Fresh, in_or_app. now right.
    + intros Hreg. revert Hin. clear - ND Hreg.
      induction (registers req) as [|x l IHl]; [contradiction|].
      simpl in ND. inversion ND as [|? ? Hx ND']; subst.
      destruct Hreg as [->|Hreg]; [|now apply IHl].
      intros Hin. apply Hx, in_or_app. now right.
Qed.

(** C2, as the code has it.  Started empty and given the same clock readings
    and random bytes, the two servers give the same answers to every sequence
    of requests in which each body field is a string or falsy, no sender,
    user name or path name is the name of a property of [Object.prototype], no
    registered name is an array index, no name is registered twice, the store
    does not fail and the clock never goes back.  The same answers are the
    same status and the same body, a message of a fetch being compared on the
    six fields of [Http.message]: the [_id] that only the MongoDB server sends
    with each message is the one difference that remains. *)
Theorem backends_agree trace :
  Forall (fun step => noFault (fst step) /\ plainRequest (snd step) = true) trace ->
  NoDup (registrations trace) ->
  clockNonDecreasing trace ->
  snd (Mongo.run Mongo.empty trace) = snd (Flat.run Flat.empty trace).
Proof.
  intros OK ND C. destruct (clock_lower_bound trace C) as [t B].
  apply (agree_run trace Mongo.empty Flat.empty t); auto.
  - repeat split. constructor.
  - apply upTo_nil.
Qed.

End SimulationSend.

(** The scenario is answered alike by both servers. *)
Lemma backends_agree_witness :
  snd (Mongo.run Mongo.empty scenario) = snd (Flat.run Flat.empty scenario)
  /\ map status (snd (Flat.run Flat.empty scenario))
     = [200; 200; 200; 200; 401; 404; 200].
Proof.
  split; [|reflexivity].
  apply (@backends_agree scalarCasts scalarKeys).
  - repeat (constructor; [split; [split; reflexivity | reflexivity]|]).
    constructor.
  - vm_compute.
    constructor; [intros [H|[]]; discriminate H|].
    constructor; [intros []|]. constructor.
  - sorted_clock.
Defined.

(** ** Every stored token was issued by the server *)

Section Tokens.
Context {casts : MongooseCasts} {js : JsCoercions}.

Lemma Mongo_saveUser_extends fails t u k tok us us' :
  Mongo.saveUser fails t u k tok us = Some us' ->
  exists d, us' = us ++ [d] /\ Mongo.token d = tok.
Proof.
  unfold Mongo.saveUser. destruct fails; [discriminate|].
  destruct (castString u), (castString k); try discriminate.
  match goal with |- context [if ?b then _ else _] => destruct b end;
    [discriminate|].
  match goal with |- context [if ?b then _ else _] => destruct b end;
    [discriminate|].
  intros E. inversion E. eexists. split; reflexivity.
Qed.

Lemma Mongo_handle_tokens e s req :
  Forall (fun d => Mongo.token d <> "") (Mongo.users s) ->
  Forall (fun d => Mongo.token d <> "") (Mongo.users (fst (Mongo.handle e s req))).
Proof.
  intros H.
  destruct req as [u k|u|sender r c k i a|u a|];
    try (rewrite Mongo_users_kept; [exact H | intros ? ?; discriminate]).
  unfold Mongo.handle, Mongo.tryHandler, Mongo.tryRegister.
  destruct (negb (truthy u) || negb (truthy k)); [exact H|].
  destruct (Mongo.findOne _ _ _) as [[ex|]|]; simpl; try exact H.
  destruct (Mongo.saveUser _ _ _ _ _ _) as [us'|] eqn:E; simpl; try exact H.
  apply Mongo_saveUser_extends in E. destruct E as (d & -> & Hd).
  apply Forall_app. split; [exact H|].
  constructor; [|constructor]. rewrite Hd. apply randomToken_not_empty.
Qed.

(** In every state the MongoDB server reaches from the empty one, no stored
    token is empty. *)
Lemma Mongo_tokens_issued trace :
  Forall (fun d => Mongo.token d <> "")
         (Mongo.users (fst (Mongo.run Mongo.empty trace))).
Proof.
  assert (G : forall s, Forall (fun d => Mongo.token d <> "") (Mongo.users s) ->
                        Forall (fun d => Mongo.token d <> "")
                               (Mongo.users (fst (Mongo.run s trace)))).
  { induction trace as [|[e req] trace IH]; intros s H; [exact H|].
    rewrite Mongo_run_cons. cbn [fst]. apply IH, Mongo_handle_tokens, H. }
  apply G. constructor.
Qed.

Lemma Flat_setProperty_tokens o key u :
  Forall (fun p => Flat.token (snd p) <> "") o -> Flat.token u <> "" ->
  Forall (fun p => Flat.token (snd p) <> "") (Flat.setProperty o key u).
Proof.
  intros H Hu. unfold Flat.setProperty.
  destruct (Flat.ownProperty o key).
  - induction H as [|[k' v] o Hv Ho IH]; simpl; [constructor|].
    destruct (k' =? key)%string; constructor; simpl; auto.
  - destruct (key =? "__proto__")%string; [exact H|].
    apply Forall_app. split; [exact H | constructor; [exact Hu | constructor]].
Qed.

Lemma Flat_handle_tokens e s req :
  Forall (fun p => Flat.token (snd p) <> "") (Flat.registry s) ->
  Forall (fun p => Flat.token (snd p) <> "")
         (Flat.registry (fst (Flat.handle e s req))).
Proof.
  intros H. unfold Flat.handle.
  destruct req as [u k|u|sender r c k i a|u a|]; simpl.
  - unfold Flat.register.
    destruct (negb (truthy u) || negb (truthy k)); [exact H|].
    destruct (Flat.readJson (Flat.USERS_FILE s) []) as [us uf] eqn:E.
    destruct (touched_users s us uf E) as (-> & Rk & _).
    destruct (toPropertyKey u); cbn [fst]; [|now rewrite Rk].
    unfold Flat.registry at 1. cbn [Flat.USERS_FILE Flat.writeJson Flat.readJson fst].
    apply Flat_setProperty_tokens; [exact H | exact (randomToken_not_empty _)].
  - unfold Flat.publicKey.
    destruct (Flat.readJson (Flat.USERS_FILE s) []) as [us uf] eqn:E.
    destruct (touched_users s us uf E) as (-> & Rk & _).
    destruct (Flat.isUndefined _); cbn [fst]; now rewrite Rk.
  - unfold Flat.send.
    destruct (negb (truthy sender) || negb (truthy r) || negb (truthy c)
              || negb (truthy k) || negb (truthy i)); [exact H|].
    destruct (Flat.readJson (Flat.USERS_FILE s) []) as [us uf] eqn:E.
    destruct (touched_users s us uf E) as (-> & Rk & _).
    destruct (toPropertyKey sender); cbn [fst]; [|now rewrite Rk].
    destruct (Flat.isUndefined _); cbn [fst]; [now rewrite Rk|].
    destruct (invalidApiKey _ _); cbn [fst]; [now rewrite Rk|].
    destruct (Flat.readJson (Flat.MSG_FILE s) []). cbn [fst].
    unfold Flat.registry in *. cbn [Flat.USERS_FILE].
    now rewrite (readJson_stable _ _ _ _ E).
  - unfold Flat.messages.
    destruct (Flat.readJson (Flat.USERS_FILE s) []) as [us uf] eqn:E.
    destruct (touched_users s us uf E) as (-> & Rk & _).
    destruct (Flat.isUndefined _); cbn [fst]; [now rewrite Rk|].
    destruct (invalidApiKey _ _); cbn [fst]; [now rewrite Rk|].
    destruct (Flat.readJson (Flat.MSG_FILE s) []). cbn [fst].
    unfold Flat.registry in *. cbn [Flat.USERS_FILE].
    now rewrite (readJson_stable _ _ _ _ E).
  - unfold Flat.users.
    destruct (Flat.readJson (Flat.USERS_FILE s) []) as [us uf] eqn:E.
    destruct (touched_users s us uf E) as (-> & Rk & _).
    cbn [fst]. now rewrite Rk.
Qed.

(** The same for the flat-file server. *)
Lemma Flat_tokens_issued trace :
  Forall (fun p => Flat.token (snd p) <> "")
         (Flat.registry (fst (Flat.run Flat.empty trace))).
Proof.
  assert (G : forall s, Forall (fun p => Flat.token (snd p) <> "") (Flat.registry s) ->
                        Forall (fun p => Flat.token (snd p) <> "")
                               (Flat.registry (fst (Flat.run s trace)))).
  { induction trace as [|[e req] trace IH]; intros s H; [exact H|].
    rewrite Flat_run_cons. cbn [fst]. apply IH, Flat_handle_tokens, H. }
  apply G. constructor.
Qed.

End Tokens.

(** * Further properties of the two servers *)

(** ** What a request changes *)

Section Changes.
Context {casts : MongooseCasts} {js : JsCoercions}.

Lemma Mongo_existsb_lookup us name :
  existsb (fun d => (Mongo.username d =? name)%string) us = false ->
  Mongo.lookup us name = None.
Proof.
  unfold Mongo.lookup. induction us as [|d us IH]; simpl; [reflexivity|].
  rewrite (String.eqb_sym (Mongo.username d) name).
  destruct (name =? Mongo.username d)%string; [discriminate | exact IH].
Qed.

Lemma Mongo_saveUser_new fails t u k tok us us' :
  Mongo.saveUser fails t u k tok us = Some us' ->
  exists d, us' = us ++ [d] /\ Mongo.token d = tok /\ Mongo.createdAt d = t
            /\ Mongo.lookup us (Mongo.username d) = None.
Proof.
  unfold Mongo.saveUser. destruct fails; [discriminate|].
  destruct (castString u), (castString k); try discriminate.
  match goal with |- context [if ?b then _ else _] => destruct b end;
    [discriminate|].
  match goal with |- context [if ?b then _ else _] => destruct b eqn:E end;
    [discriminate|].
  intros H. inversion H. eexists. repeat split.
  now apply Mongo_existsb_lookup.
Qed.

(** A request of the MongoDB server leaves the state as it is, or it is a
    registration answered 200 that adds one user under a name not yet there,
    or a send answered 200 that adds one message. *)
Lemma Mongo_handle_change e s req :
  fst (Mongo.handle e s req) = s
  \/ (status (snd (Mongo.handle e s req)) = 200
      /\ exists u k d,
           req = Register u k
           /\ fst (Mongo.handle e s req)
              = {| Mongo.users := Mongo.users s ++ [d];
                   Mongo.messages := Mongo.messages s |}
           /\ Mongo.token d = randomToken (randomBytes16 e)
           /\ Mongo.lookup (Mongo.users s) (Mongo.username d) = None)
  \/ (status (snd (Mongo.handle e s req)) = 200
      /\ exists sender r c k i a d,
           req = Send sender r c k i a
           /\ fst (Mongo.handle e s req)
              = {| Mongo.users := Mongo.users s;
                   Mongo.messages := Mongo.messages s ++ [d] |}
           /\ Mongo.timestamp d = now e).
Proof.
  unfold Mongo.handle, Mongo.tryHandler.
  destruct req as [u k|u|sender r c k i a|u a|]; simpl.
  - unfold Mongo.tryRegister.
    destruct (negb (truthy u) || negb (truthy k)); simpl; auto.
    destruct (Mongo.findOne _ _ _) as [[ex|]|]; simpl; auto.
    destruct (Mongo.saveUser _ _ _ _ _ _) as [us'|] eqn:E; simpl; auto.
    apply Mongo_saveUser_new in E. destruct E as (d & -> & Ht & _ & Hl).
    right. left. split; [reflexivity|]. exists u, k, d. auto.
  - unfold Mongo.tryPublicKey.
    destruct (Mongo.findOne _ _ _) as [[ex|]|]; simpl; auto.
  - unfold Mongo.trySend.
    destruct (negb (truthy sender) || negb (truthy r) || negb (truthy c)
              || negb (truthy k) || negb (truthy i)); simpl; auto.
    destruct (Mongo.findOne _ _ _) as [[user|]|]; simpl; auto.
    destruct (invalidApiKey _ _); simpl; auto.
    destruct (Mongo.saveMessage _ _ _ _ _ _ _ _) as [ms'|] eqn:E; simpl; auto.
    apply Mongo_saveMessage_extends in E. destruct E as (d & -> & Hd).
    right. right. split; [reflexivity|]. exists sender, r, c, k, i, a, d. auto.
  - unfold Mongo.tryMessages.
    destruct (Mongo.findOne _ _ _) as [[user|]|]; simpl; auto.
    destruct (invalidApiKey _ _); simpl; auto.
    destruct (Mongo.findMessages _ _ _); simpl; auto.
  - unfold Mongo.tryUsers. destruct (firstOpFails e); simpl; auto.
Qed.

Lemma Flat_registry_of uf mf :
  Flat.registry {| Flat.USERS_FILE := Flat.Content uf; Flat.MSG_FILE := mf |} = uf.
Proof.
  reflexivity.
Qed.

(** The same for the flat-file server, on what [readJson] gives for the two
    files. *)
Lemma Flat_handle_change e s req :
  (Flat.registry (fst (Flat.handle e s req)) = Flat.registry s
   /\ Flat.stored (fst (Flat.handle e s req)) = Flat.stored s)
  \/ (status (snd (Flat.handle e s req)) = 200
      /\ exists u k key,
           req = Register u k /\ toPropertyKey u = Some key
           /\ Flat.registry (fst (Flat.handle e s req))
              = Flat.setProperty (Flat.registry s) key
                  {| Flat.publicKeyPem := k;
                     Flat.token := randomToken (randomBytes16 e);
                     Flat.createdAt := now e |}
           /\ Flat.stored (fst (Flat.handle e s req)) = Flat.stored s)
  \/ (status (snd (Flat.handle e s req)) = 200
      /\ exists sender r c k i a,
           req = Send sender r c k i a
           /\ Flat.registry (fst (Flat.handle e s req)) = Flat.registry s
           /\ Flat.stored (fst (Flat.handle e s req))
              = Flat.stored s
                ++ [ {| Http.from := sender; Http.to := r; Http.ciphertext := c;
                        Http.encryptedKey := k; Http.iv := i;
                        Http.timestamp := now e |} ]).
Proof.
  unfold Flat.handle.
  destruct req as [u k|u|sender r c k i a|u a|]; simpl.
  - unfold Flat.register.
    destruct (negb (truthy u) || negb (truthy k)); [auto|].
    destruct (Flat.readJson (Flat.USERS_FILE s) []) as [us uf] eqn:E.
    destruct (touched_users s us uf E) as (-> & Rk & Sk).
    destruct (toPropertyKey u) as [key|] eqn:K; cbn [fst snd]; [|auto].
    right. left. split; [reflexivity|]. exists u, k, key.
    repeat split; assumption.
  - unfold Flat.publicKey.
    destruct (Flat.readJson (Flat.USERS_FILE s) []) as [us uf] eqn:E.
    destruct (touched_users s us uf E) as (-> & Rk & Sk).
    destruct (Flat.isUndefined _); cbn [fst]; auto.
  - unfold Flat.send.
    destruct (negb (truthy sender) || negb (truthy r) || negb (truthy c)
              || negb (truthy k) || negb (truthy i)); [auto|].
    destruct (Flat.readJson (Flat.USERS_FILE s) []) as [us uf] eqn:E.
    destruct (touched_users s us uf E) as (-> & Rk & Sk).
    destruct (toPropertyKey sender); cbn [fst snd]; [|auto].
    destruct (Flat.isUndefined _); cbn [fst snd]; [auto|].
    destruct (invalidApiKey _ _); cbn [fst snd]; [auto|].
    destruct (Flat.readJson (Flat.MSG_FILE s) []) as [ms mf] eqn:E2. cbn [fst snd].
    right. right. split; [reflexivity|]. exists sender, r, c, k, i, a.
    split; [reflexivity|]. split.
    + unfold Flat.registry in *. cbn [Flat.USERS_FILE].
      now rewrite (readJson_stable _ _ _ _ E).
    + unfold Flat.stored. cbn [Flat.MSG_FILE Flat.writeJson Flat.readJson fst].
      now rewrite E2.
  - unfold Flat.messages.
    destruct (Flat.readJson (Flat.USERS_FILE s) []) as [us uf] eqn:E.
    destruct (touched_users s us uf E) as (-> & Rk & Sk).
    destruct (Flat.isUndefined _); cbn [fst]; [auto|].
    destruct (invalidApiKey _ _); cbn [fst]; [auto|].
    destruct (Flat.readJson (Flat.MSG_FILE s) []) as [ms mf] eqn:E2. cbn [fst].
    left. split.
    + unfold Flat.registry in *. cbn [Flat.USERS_FILE].
      now rewrite (readJson_stable _ _ _ _ E).
    + unfold Flat.stored. cbn [Flat.MSG_FILE].
      now rewrite (readJson_stable _ _ _ _ E2), E2.
  - unfold Flat.users.
    destruct (Flat.readJson (Flat.USERS_FILE s) []) as [us uf] eqn:E.
    destruct (touched_users s us uf E) as (-> & Rk & Sk). cbn [fst]. auto.
Qed.

End Changes.

Section Users.
Context {casts : MongooseCasts} {js : JsCoercions}.

Lemma Mongo_lookup_none_notin us name :
  Mongo.lookup us name = None -> ~ In name (map Mongo.username us).
Proof.
  unfold Mongo.lookup. induction us as [|d us IH]; simpl; [tauto|].
  destruct (name =? Mongo.username d)%string eqn:E; [discriminate|].
  apply String.eqb_neq in E. intros L [H|H]; [congruence | now apply IH].
Qed.

Lemma Mongo_lookup_some_in us name d :
  Mongo.lookup us name = Some d -> In d us /\ Mongo.username d = name.
Proof.
  unfold Mongo.lookup. intros H. apply find_some in H.
  destruct H as [Hin E]. apply String.eqb_eq in E. auto.
Qed.

Lemma Mongo_lookup_in_some us name :
  In name (map Mongo.username us) -> exists d, Mongo.lookup us name = Some d.
Proof.
  intros H. destruct (Mongo.lookup us name) eqn:E; [eauto|].
  now apply Mongo_lookup_none_notin in E.
Qed.

Lemma Mongo_lookup_app us extra name d :
  Mongo.lookup us name = Some d -> Mongo.lookup (us ++ extra) name = Some d.
Proof.
  unfold Mongo.lookup. induction us as [|x us IH]; simpl; [discriminate|].
  destruct (name =? Mongo.username x)%string; auto.
Qed.

Lemma NoDup_snoc {A : Type} (l : list A) (x : A) :
  NoDup l -> ~ In x l -> NoDup (l ++ [x]).
Proof.
  intros N H. induction N as [|y l Hy N IH]; simpl.
  - constructor; [tauto | constructor].
  - constructor.
    + rewrite in_app_iff. simpl. intros [H1|[H1|[]]]; [tauto|].
      apply H. left. congruence.
    + apply IH. intros H1. apply H. now right.
Qed.

Lemma Mongo_handle_unique e s req :
  NoDup (map Mongo.username (Mongo.users s)) ->
  NoDup (map Mongo.username (Mongo.users (fst (Mongo.handle e s req)))).
Proof.
  intros N.
  destruct (Mongo_handle_change e s req)
    as [->|[(_ & u & k & d & _ & -> & _ & L)|(_ & ? & ? & ? & ? & ? & ? & d & _ & -> & _)]];
    cbn [Mongo.users]; auto.
  rewrite map_app. apply NoDup_snoc; [exact N|].
  now apply Mongo_lookup_none_notin.
Qed.

Lemma Mongo_handle_lookup_some e s req name d :
  Mongo.lookup (Mongo.users s) name = Some d ->
  Mongo.lookup (Mongo.users (fst (Mongo.handle e s req))) name = Some d.
Proof.
  intros L.
  destruct (Mongo_handle_change e s req)
    as [->|[(_ & u & k & d' & _ & -> & _)|(_ & ? & ? & ? & ? & ? & ? & d' & _ & -> & _)]];
    cbn [Mongo.users]; auto.
  now apply Mongo_lookup_app.
Qed.

Lemma Mongo_run_lookup_some trace : forall s name d,
  Mongo.lookup (Mongo.users s) name = Some d ->
  Mongo.lookup (Mongo.users (fst (Mongo.run s trace))) name = Some d.
Proof.
  induction trace as [|[e req] trace IH]; intros s name d L; [exact L|].
  rewrite Mongo_run_cons. cbn [fst]. now apply IH, Mongo_handle_lookup_some.
Qed.

Lemma Mongo_run_unique trace : forall s,
  NoDup (map Mongo.username (Mongo.users s)) ->
  NoDup (map Mongo.username (Mongo.users (fst (Mongo.run s trace)))).
Proof.
  induction trace as [|[e req] trace IH]; intros s N; [exact N|].
  rewrite Mongo_run_cons. cbn [fst]. now apply IH, Mongo_handle_unique.
Qed.

(** X1.  The MongoDB server never holds two users of one name: whatever the
    requests, their fields, the store failures and the casts of Mongoose, a
    collection without duplicate names stays so. *)
Theorem Mongo_usernames_unique trace s :
  NoDup (map Mongo.username (Mongo.users s)) ->
  NoDup (map Mongo.username (Mongo.users (fst (Mongo.run s trace)))).
Proof.
  revert s. induction trace as [|[e req] trace IH]; intros s N; [exact N|].
  rewrite Mongo_run_cons. cbn [fst]. apply IH.
  destruct (Mongo_handle_change e s req)
    as [->|[(_ & u & k & d & _ & -> & _ & L)|(_ & ? & ? & ? & ? & ? & ? & d & _ & -> & _)]];
    cbn [Mongo.users]; auto.
  rewrite map_app. apply NoDup_snoc; [exact N|].
  now apply Mongo_lookup_none_notin.
Qed.

(** X2.  On the MongoDB server a stored user is never changed or removed: the
    document found under a name is found under it, with the same key, token
    and creation time, after any further requests. *)
Theorem Mongo_user_never_changes trace s name d :
  Mongo.lookup (Mongo.users s) name = Some d ->
  Mongo.lookup (Mongo.users (fst (Mongo.run s trace))) name = Some d.
Proof.
  revert s. induction trace as [|[e req] trace IH]; intros s L; [exact L|].
  rewrite Mongo_run_cons. cbn [fst]. apply IH.
  destruct (Mongo_handle_change e s req)
    as [->|[(_ & u & k & d' & _ & -> & _)|(_ & ? & ? & ? & ? & ? & ? & d' & _ & -> & _)]];
    cbn [Mongo.users]; auto.
  now apply Mongo_lookup_app.
Qed.

(** X3.  On the MongoDB server a request that is not answered 200 leaves the
    state exactly as it was; a public-key lookup, a fetch and a listing leave
    it as it was whatever the answer; a registration never touches the
    messages and a send never touches the users. *)
Theorem Mongo_request_effects e s req :
  (status (snd (Mongo.handle e s req)) <> 200 -> fst (Mongo.handle e s req) = s)
  /\ match req with
     | Register _ _ =>
         Mongo.messages (fst (Mongo.handle e s req)) = Mongo.messages s
     | Send _ _ _ _ _ _ =>
         Mongo.users (fst (Mongo.handle e s req)) = Mongo.users s
     | _ => fst (Mongo.handle e s req) = s
     end.
Proof.
  destruct (Mongo_handle_change e s req)
    as [E|[(St & u & k & d & -> & E & _)|(St & f & r & c & k & i & a & d & -> & E & _)]].
  - split; [auto|]. rewrite E. destruct req; reflexivity.
  - split; [intros H; contradiction|]. rewrite E. reflexivity.
  - split; [intros H; contradiction|]. rewrite E. reflexivity.
Qed.


End Users.

(** The scenario, run on the store that holds alice, keeps one alice with
    her token. *)
Lemma Mongo_usernames_unique_witness :
  NoDup (map Mongo.username (Mongo.users (fst (Mongo.run mongoAlice scenario)))).
Proof.
  apply (@Mongo_usernames_unique scalarCasts).
  constructor; [intros [] | constructor].
Defined.

Lemma Mongo_user_never_changes_witness :
  Mongo.lookup (Mongo.users (fst (Mongo.run mongoAlice scenario))) "alice"
  = Some aliceDoc.
Proof.
  apply (@Mongo_user_never_changes scalarCasts). reflexivity.
Defined.

(** A send with a wrong key changes nothing in either store. *)
Lemma Mongo_request_effects_witness :
  fst (Mongo.handle (quiet 5 0) mongoMailbox (aliceWritesWith (Some "guess")))
  = mongoMailbox.
Proof.
  apply (@Mongo_request_effects scalarCasts). vm_compute. discriminate.
Defined.


(** ** The answers of each route *)

Section Answers.
Context {casts : MongooseCasts} {js : JsCoercions}.

(** X5.  Every answer of the MongoDB server is either 200 with the body of
    its route, or one of the error answers of that route, a status with
    [{error: message}]: 400 or 500 for a registration, 404 or 500 for a key
    lookup, 400, 401 or 500 for a send, 404, 401 or 500 for a fetch, 500 for
    a listing. *)
Theorem Mongo_answers e s req :
  (status (snd (Mongo.handle e s req)) = 200
   /\ answers req (json (snd (Mongo.handle e s req))))
  \/ exists code message,
       In (code, message) (mongoErrors req)
       /\ snd (Mongo.handle e s req) = {| status := code; json := BError message |}.
Proof.
  unfold Mongo.handle, Mongo.tryHandler.
  destruct req as [u k|u|sender r c k i a|u a|]; simpl.
  - unfold Mongo.tryRegister.
    destruct (negb (truthy u) || negb (truthy k)); simpl.
    { right. do 2 eexists. split; [left; reflexivity | reflexivity]. }
    destruct (Mongo.findOne _ _ _) as [[ex|]|]; simpl.
    + left. split; constructor.
    + destruct (Mongo.saveUser _ _ _ _ _ _); simpl.
      * left. split; constructor.
      * right. do 2 eexists. split; [right; left; reflexivity | reflexivity].
    + right. do 2 eexists. split; [right; left; reflexivity | reflexivity].
  - unfold Mongo.tryPublicKey.
    destruct (Mongo.findOne _ _ _) as [[ex|]|]; simpl.
    + left. split; constructor.
    + right. do 2 eexists. split; [left; reflexivity | reflexivity].
    + right. do 2 eexists. split; [right; left; reflexivity | reflexivity].
  - unfold Mongo.trySend.
    destruct (negb (truthy sender) || negb (truthy r) || negb (truthy c)
              || negb (truthy k) || negb (truthy i)); simpl.
    { right. do 2 eexists. split; [left; reflexivity | reflexivity]. }
    destruct (Mongo.findOne _ _ _) as [[user|]|]; simpl.
    + destruct (invalidApiKey _ _); simpl.
      { right. do 2 eexists.
        split; [right; right; left; reflexivity | reflexivity]. }
      destruct (Mongo.saveMessage _ _ _ _ _ _ _ _); simpl.
      * left. split; constructor.
      * right. do 2 eexists.
        split; [right; right; right; left; reflexivity | reflexivity].
    + right. do 2 eexists. split; [right; left; reflexivity | reflexivity].
    + right. do 2 eexists.
      split; [right; right; right; left; reflexivity | reflexivity].
  - unfold Mongo.tryMessages.
    destruct (Mongo.findOne _ _ _) as [[user|]|]; simpl.
    + destruct (invalidApiKey _ _); simpl.
      { right. do 2 eexists. split; [right; left; reflexivity | reflexivity]. }
      destruct (Mongo.findMessages _ _ _); simpl.
      * left. split; constructor.
      * right. do 2 eexists.
        split; [right; right; left; reflexivity | reflexivity].
    + right. do 2 eexists. split; [left; reflexivity | reflexivity].
    + right. do 2 eexists. split; [right; right; left; reflexivity | reflexivity].
  - unfold Mongo.tryUsers. destruct (firstOpFails e); simpl.
    + right. do 2 eexists. split; [left; reflexivity | reflexivity].
    + left. split; constructor.
Qed.

(** The answers of the server on a disk that takes every write. *)
Lemma Flat_handle_answers e s req :
  (status (snd (Flat.handle e s req)) = 200
   /\ answers req (json (snd (Flat.handle e s req))))
  \/ (exists code message,
        In (code, message) (flatErrors req)
        /\ snd (Flat.handle e s req) = {| status := code; json := BError message |})
  \/ (snd (Flat.handle e s req) = Flat.uncaught
      /\ exists v, keyOf req = Some v /\ toPropertyKey v = None).
Proof.
  unfold Flat.handle.
  destruct req as [u k|u|sender r c k i a|u a|]; simpl.
  - unfold Flat.register.
    destruct (negb (truthy u) || negb (truthy k)); simpl.
    { right. left. do 2 eexists. split; [left; reflexivity | reflexivity]. }
    destruct (Flat.readJson (Flat.USERS_FILE s) []).
    destruct (toPropertyKey u) eqn:K; simpl.
    + left. split; constructor.
    + right. right. split; [reflexivity|]. exists u. auto.
  - unfold Flat.publicKey.
    destruct (Flat.readJson (Flat.USERS_FILE s) []).
    destruct (Flat.isUndefined _); simpl.
    + right. left. do 2 eexists. split; [left; reflexivity | reflexivity].
    + left. split; constructor.
  - unfold Flat.send.
    destruct (negb (truthy sender) || negb (truthy r) || negb (truthy c)
              || negb (truthy k) || negb (truthy i)); simpl.
    { right. left. do 2 eexists. split; [left; reflexivity | reflexivity]. }
    destruct (Flat.readJson (Flat.USERS_FILE s) []).
    destruct (toPropertyKey sender) eqn:K; simpl.
    + destruct (Flat.isUndefined _); simpl.
      { right. left. do 2 eexists.
        split; [right; left; reflexivity | reflexivity]. }
      destruct (invalidApiKey _ _); simpl.
      { right. left. do 2 eexists.
        split; [right; right; left; reflexivity | reflexivity]. }
      destruct (Flat.readJson (Flat.MSG_FILE s) []). simpl.
      left. split; constructor.
    + right. right. split; [reflexivity|]. exists sender. auto.
  - unfold Flat.messages.
    destruct (Flat.readJson (Flat.USERS_FILE s) []).
    destruct (Flat.isUndefined _); simpl.
    { right. left. do 2 eexists. split; [left; reflexivity | reflexivity]. }
    destruct (invalidApiKey _ _); simpl.
    { right. left. do 2 eexists. split; [right; left; reflexivity | reflexivity]. }
    destruct (Flat.readJson (Flat.MSG_FILE s) []). simpl.
    left. split; constructor.
  - unfold Flat.users.
    destruct (Flat.readJson (Flat.USERS_FILE s) []). simpl.
    left. split; constructor.
Qed.

(** X6.  Every answer of the flat-file server is either 200 with the body of
    its route, or one of the error answers its handlers write (400 for a
    registration, 404 for a key lookup, 400 or 401 for a send, 404 or 401 for
    a fetch; a listing has none), or the 500 of Express for a handler that
    threw.  A handler throws in two places only: where the user name of a
    registration or the sender of a send cannot be turned into a property
    key, and where [writeJson] cannot write the file.  So a request whose
    user name or sender is a string is not answered 500 while the file it
    writes can be written; and when that file cannot be written, every
    registration and every send that would have been answered 200 is
    answered 500. *)
Theorem FlatFs_answers d e s req :
  ((status (snd (FlatFs.handle d e s req)) = 200
    /\ answers req (json (snd (FlatFs.handle d e s req))))
   \/ (exists code message,
         In (code, message) (flatErrors req)
         /\ snd (FlatFs.handle d e s req)
            = {| status := code; json := BError message |})
   \/ (snd (FlatFs.handle d e s req) = Flat.uncaught
       /\ ((exists v, keyOf req = Some v /\ toPropertyKey v = None)
           \/ writeFails d req = true)))
  /\ ((forall v, keyOf req = Some v -> exists name, v = JStr name) ->
      writeFails d req = false ->
      status (snd (FlatFs.handle d e s req)) <> 500)
  /\ (writeFails d req = true ->
      status (snd (FlatFs.handle writable e s req)) = 200 ->
      snd (FlatFs.handle d e s req) = Flat.uncaught).
Proof.
  pose proof (FlatFs_handle_cases d e s req) as C.
  pose proof (Flat_handle_answers e s req) as Main.
  split; [|split].
  - destruct (writeFails d req) eqn:R; cbn [andb] in C.
    + destruct (status (snd (Flat.handle e s req)) =? 200).
      * right. right. rewrite C. auto.
      * destruct C as [-> _].
        destruct Main as [M|[M|[M1 M2]]]; auto.
    + destruct C as [-> _].
      destruct Main as [M|[M|[M1 M2]]]; auto.
  - intros Str R. rewrite R in C. cbn [andb] in C. destruct C as [-> _].
    destruct Main as [[St _]|[(code & message & Hin & E)|(E & v & Kv & Kn)]].
    + rewrite St. discriminate.
    + rewrite E. cbn [status].
      destruct req; simpl in Hin;
        repeat (destruct Hin as [Hin|Hin];
                [inversion Hin; subst; discriminate|]);
        contradiction.
    + destruct (Str v Kv) as [name ->]. rewrite toPropertyKey_string in Kn.
      discriminate.
  - intros R St. rewrite FlatFs_writable in St. rewrite R, St in C.
    rewrite C. reflexivity.
Qed.

End Answers.

(** Alice's send with a string sender is not answered 500 by the flat-file
    server while [messages.json] can be written, and her send with the right
    token is answered 500 when it cannot. *)
Lemma FlatFs_answers_witness :
  status (snd (FlatFs.handle writable (quiet 5 0) flatMailbox (aliceWritesWith None)))
  <> 500
  /\ snd (FlatFs.handle readOnly (quiet 5 0) flatMailbox
            (aliceWritesWith (Some (randomToken 1))))
     = Flat.uncaught.
Proof.
  split.
  - apply (@FlatFs_answers scalarKeys); [|reflexivity].
    intros v E. inversion E. eexists. reflexivity.
  - apply (@FlatFs_answers scalarKeys); reflexivity.
Defined.

(** ** Public keys *)

Section PublicKeys.
Context {casts : MongooseCasts} {js : JsCoercions}.

Lemma Mongo_publicKey_cases e s name :
  firstOpFails e = false ->
  Mongo.handle e s (PublicKey name)
  = (s, match Mongo.lookup (Mongo.users s) name with
        | Some d => {| status := 200;
                       json := BPublicKey (JStr (Mongo.publicKeyPem d)) |}
        | None => {| status := 404; json := BError "user not found" |}
        end).
Proof.
  intros F. unfold Mongo.handle, Mongo.tryHandler, Mongo.tryPublicKey.
  rewrite F, Mongo_findOne_string.
  destruct (Mongo.lookup (Mongo.users s) name); reflexivity.
Qed.

Lemma Flat_publicKey_cases e s name :
  snd (Flat.handle e s (PublicKey name))
  = match Flat.getProperty (Flat.registry s) name with
    | Flat.Absent => {| status := 404; json := BError "user not found" |}
    | p => {| status := 200; json := BPublicKey (Flat.publicKeyPemOf p) |}
    end.
Proof.
  unfold Flat.handle, Flat.publicKey, Flat.registry.
  destruct (Flat.readJson (Flat.USERS_FILE s) []) as [us uf]. cbn [fst].
  destruct (Flat.getProperty us name); reflexivity.
Qed.

(** X7.  While the lookup does not fail, the MongoDB server answers a
    public-key request 404 exactly when no user has the name, and otherwise
    200 with the stored key; no credential is asked and nothing changes. *)
Theorem Mongo_publicKey_found_or_404 e s name :
  firstOpFails e = false ->
  (status (snd (Mongo.handle e s (PublicKey name))) = 404
   <-> ~ In name (map Mongo.username (Mongo.users s)))
  /\ (forall d, Mongo.lookup (Mongo.users s) name = Some d ->
                snd (Mongo.handle e s (PublicKey name))
                = {| status := 200;
                     json := BPublicKey (JStr (Mongo.publicKeyPem d)) |})
  /\ fst (Mongo.handle e s (PublicKey name)) = s.
Proof.
  intros F. rewrite (Mongo_publicKey_cases e s name F). cbn [fst snd].
  split; [|split; [|reflexivity]].
  - destruct (Mongo.lookup (Mongo.users s) name) as [d|] eqn:L; cbn [status].
    + split; [discriminate|]. intros N. exfalso. apply N.
      apply Mongo_lookup_some_in in L. destruct L as [Hin <-]. now apply in_map.
    + split; [|reflexivity]. intros _. now apply Mongo_lookup_none_notin.
  - intros d ->. reflexivity.
Qed.

(** X8.  The flat-file server answers a public-key request 404 exactly when
    the name is neither a stored user nor a property of [Object.prototype].
    For a stored user it answers 200 with the stored key; for an unregistered
    name such as [toString] or [constructor] it answers 200 with an object
    that has no key in it. *)
Theorem Flat_publicKey_found_or_404 e s name :
  (status (snd (Flat.handle e s (PublicKey name))) = 404
   <-> Flat.ownProperty (Flat.registry s) name = None
       /\ ~ In name Flat.objectPrototype)
  /\ (forall u, Flat.ownProperty (Flat.registry s) name = Some u ->
                snd (Flat.handle e s (PublicKey name))
                = {| status := 200; json := BPublicKey (Flat.publicKeyPem u) |})
  /\ (Flat.ownProperty (Flat.registry s) name = None ->
      In name Flat.objectPrototype ->
      snd (Flat.handle e s (PublicKey name))
      = {| status := 200; json := BPublicKey JUndefined |}).
Proof.
  rewrite (Flat_publicKey_cases e s name).
  split; [|split].
  - unfold Flat.getProperty.
    destruct (Flat.ownProperty (Flat.registry s) name) as [u|]; cbn [status].
    + split; [discriminate | intros [H _]; discriminate].
    + destruct (existsb (String.eqb name) Flat.objectPrototype) eqn:E; cbn [status].
      * apply existsb_eqb_In in E. split; [discriminate | tauto].
      * split; [|reflexivity]. intros _. split; [reflexivity|].
        intros H. apply existsb_eqb_In in H. congruence.
  - intros u H. rewrite (Flat_getProperty_own _ _ _ H). reflexivity.
  - intros H Hin. rewrite (Flat_getProperty_inherited _ _ H Hin). reflexivity.
Qed.

Lemma Flat_registry_kept e s req :
  isRegister req = false ->
  Flat.registry (fst (Flat.handle e s req)) = Flat.registry s.
Proof.
  intros N.
  destruct (Flat_handle_change e s req)
    as [[R _]|[(_ & u & k & key & -> & _)|(_ & f & r & c & k & i & a & -> & R & _)]];
    [exact R | discriminate | exact R].
Qed.

Lemma Flat_run_registry_kept trace : forall s,
  Forall (fun step => isRegister (snd step) = false) trace ->
  Flat.registry (fst (Flat.run s trace)) = Flat.registry s.
Proof.
  induction trace as [|[e req] trace IH]; intros s H; [reflexivity|].
  inversion H as [|? ? Hreq Hrest]; subst. cbn [snd] in Hreq.
  rewrite Flat_run_cons. cbn [fst].
  rewrite (IH _ Hrest). now apply Flat_registry_kept.
Qed.

Lemma Flat_registered_own e s name k :
  truthy (JStr name) = true -> truthy k = true -> name <> "__proto__" ->
  Flat.ownProperty
    (Flat.registry (fst (Flat.handle e s (Register (JStr name) k)))) name
  = Some {| Flat.publicKeyPem := k;
            Flat.token := randomToken (randomBytes16 e);
            Flat.createdAt := now e |}.
Proof.
  intros Tn Tk Np. rewrite (Flat_register_string e s name k Tn Tk). cbn [fst].
  rewrite Flat_registry_of. now apply Flat_ownProperty_setProperty.
Qed.

(** X9.  On the MongoDB server the key a user registered with is the key
    every later lookup returns: after a registration of a new name with key
    [k], and after any further requests whatever, a public-key request for
    the name is answered 200 with [k]. *)
Theorem Mongo_publicKey_round_trip e1 s name k trace e2 :
  name <> "" -> k <> "" -> noFault e1 ->
  Mongo.lookup (Mongo.users s) name = None ->
  firstOpFails e2 = false ->
  let registered := fst (Mongo.handle e1 s (Register (JStr name) (JStr k))) in
  snd (Mongo.handle e2 (fst (Mongo.run registered trace)) (PublicKey name))
  = {| status := 200; json := BPublicKey (JStr k) |}.
Proof.
  intros Hn Hk [F1 F2] L F registered. subst registered.
  rewrite (Mongo_register_new e1 s name k Hn Hk F1 F2 L). cbn [fst].
  rewrite (Mongo_publicKey_cases _ _ _ F). cbn [snd].
  set (d := {| Mongo.username := name; Mongo.publicKeyPem := k;
               Mongo.token := randomToken (randomBytes16 e1);
               Mongo.createdAt := now e1 |}).
  rewrite (Mongo_run_lookup_some trace _ name d); [reflexivity|].
  cbn [Mongo.users]. now apply Mongo_lookup_last.
Qed.

(** X10.  On the flat-file server the key given at a registration, a string
    that is not empty, is what a public-key request returns, as long as no
    further registration comes in between, and for every name but
    [__proto__]. *)
Theorem Flat_publicKey_round_trip e1 s name pem trace e2 :
  name <> "" -> pem <> "" -> name <> "__proto__" ->
  Forall (fun step => isRegister (snd step) = false) trace ->
  let registered := fst (Flat.handle e1 s (Register (JStr name) (JStr pem))) in
  snd (Flat.handle e2 (fst (Flat.run registered trace)) (PublicKey name))
  = {| status := 200; json := BPublicKey (JStr pem) |}.
Proof.
  intros Tn Tk Np Quiet registered. subst registered.
  apply truthy_string in Tn, Tk.
  rewrite Flat_publicKey_cases, (Flat_run_registry_kept trace _ Quiet).
  rewrite (Flat_getProperty_own _ _ _
             (Flat_registered_own e1 s name (JStr pem) Tn Tk Np)).
  reflexivity.
Qed.

End PublicKeys.

Lemma Mongo_publicKey_found_or_404_witness :
  snd (Mongo.handle (quiet 5 0) mongoAlice (PublicKey "alice"))
  = {| status := 200; json := BPublicKey (JStr "PEM_A") |}.
Proof.
  destruct (@Mongo_publicKey_found_or_404 scalarCasts (quiet 5 0) mongoAlice "alice"
              eq_refl) as (_ & Found & _).
  apply (Found aliceDoc). reflexivity.
Defined.

(** Nobody registered [constructor]; the flat-file server still answers 200. *)
Lemma Flat_publicKey_found_or_404_witness :
  snd (Flat.handle (quiet 5 0) flatAlice (PublicKey "constructor"))
  = {| status := 200; json := BPublicKey JUndefined |}.
Proof.
  destruct (@Flat_publicKey_found_or_404 scalarKeys (quiet 5 0) flatAlice
              "constructor") as (_ & _ & Inherited).
  apply Inherited; [reflexivity | vm_compute; tauto].
Defined.

Lemma Mongo_publicKey_round_trip_witness :
  snd (Mongo.handle (quiet 9 0)
         (fst (Mongo.run
                 (fst (Mongo.handle (quiet 1 7) mongoAlice
                         (Register (JStr "bob") (JStr "PEM_B"))))
                 scenario))
         (PublicKey "bob"))
  = {| status := 200; json := BPublicKey (JStr "PEM_B") |}.
Proof.
  apply (@Mongo_publicKey_round_trip scalarCasts); try reflexivity;
    try discriminate.
  split; reflexivity.
Defined.

Lemma Flat_publicKey_round_trip_witness :
  snd (Flat.handle (quiet 9 0)
         (fst (Flat.run
                 (fst (Flat.handle (quiet 1 7) flatAlice
                         (Register (JStr "bob") (JStr "PEM_B"))))
                 [(quiet 2 0, Users); (quiet 3 0, aliceWritesWith None)]))
         (PublicKey "bob"))
  = {| status := 200; json := BPublicKey (JStr "PEM_B") |}.
Proof.
  apply (@Flat_publicKey_round_trip scalarKeys); try discriminate.
  repeat constructor.
Defined.

(** ** The list of users *)

Section Listing.
Context {casts : MongooseCasts} {js : JsCoercions}.

(** X11.  While the store does not fail, the listing of the MongoDB server
    in any state reached from the empty one names every stored user once, in
    the order of registration, and changes nothing. *)
Theorem Mongo_users_listing trace e :
  firstOpFails e = false ->
  let s := fst (Mongo.run Mongo.empty trace) in
  exists names,
    Mongo.handle e s Users = (s, {| status := 200; json := BUsers names |})
    /\ names = map Mongo.username (Mongo.users s)
    /\ NoDup names
    /\ (forall name, In name names
                     <-> exists d, Mongo.lookup (Mongo.users s) name = Some d).
Proof.
  intros F s. exists (map Mongo.username (Mongo.users s)).
  split; [|split; [reflexivity|split]].
  - unfold Mongo.handle, Mongo.tryHandler, Mongo.tryUsers. rewrite F. reflexivity.
  - apply Mongo_run_unique. constructor.
  - intros name. split; [apply Mongo_lookup_in_some|].
    intros [d L]. apply Mongo_lookup_some_in in L. destruct L as [Hin <-].
    now apply in_map.
Qed.

Lemma insertIndex_In i k l x :
  In x (Flat.insertIndex i k l) <-> x = (i, k) \/ In x l.
Proof.
  induction l as [|[j k'] l IH]; simpl.
  - intuition congruence.
  - destruct (i <=? j)%N; simpl; [intuition congruence|].
    rewrite IH. intuition congruence.
Qed.

Lemma insertIndex_perm i k l :
  Permutation (Flat.insertIndex i k l) ((i, k) :: l).
Proof.
  induction l as [|[j k'] l IH]; simpl; [apply Permutation_refl|].
  destruct (i <=? j)%N; [apply Permutation_refl|].
  eapply perm_trans; [apply perm_skip, IH | apply perm_swap].
Qed.

Lemma insertIndex_sorted i k l :
  StronglySorted (fun a b => (fst a <= fst b)%N) l ->
  StronglySorted (fun a b => (fst a <= fst b)%N) (Flat.insertIndex i k l).
Proof.
  induction 1 as [|[j k'] l S IH F]; simpl.
  - repeat constructor.
  - destruct (i <=? j)%N eqn:E.
    + apply N.leb_le in E. constructor; [now constructor|].
      constructor; [exact E|].
      eapply Forall_impl; [|exact F]. simpl. intros a Ha. lia.
    + apply N.leb_gt in E. constructor; [exact IH|].
      rewrite Forall_forall in *. intros x Hx.
      apply insertIndex_In in Hx. destruct Hx as [->|Hx].
      * simpl. lia.
      * now apply F.
Qed.

Lemma indexKeys_sorted keys :
  StronglySorted (fun a b => (fst a <= fst b)%N) (Flat.indexKeys keys).
Proof.
  unfold Flat.indexKeys. induction keys as [|k keys IH]; simpl; [constructor|].
  destruct (Flat.arrayIndex k); [now apply insertIndex_sorted | exact IH].
Qed.

Lemma indexKeys_index keys :
  Forall (fun p => Flat.arrayIndex (snd p) = Some (fst p)) (Flat.indexKeys keys).
Proof.
  unfold Flat.indexKeys. induction keys as [|k keys IH]; simpl; [constructor|].
  destruct (Flat.arrayIndex k) as [i|] eqn:E; [|exact IH].
  rewrite Forall_forall in *. intros x Hx.
  apply insertIndex_In in Hx. destruct Hx as [->|Hx]; [exact E | now apply IH].
Qed.

Lemma indexKeys_perm keys :
  Permutation (map snd (Flat.indexKeys keys))
    (filter (fun k => match Flat.arrayIndex k with None => false | Some _ => true end)
            keys).
Proof.
  unfold Flat.indexKeys. induction keys as [|k keys IH]; simpl; [constructor|].
  destruct (Flat.arrayIndex k) as [i|]; [|exact IH].
  eapply perm_trans; [apply Permutation_map, insertIndex_perm|].
  simpl. now apply perm_skip.
Qed.

Lemma filter_split_perm {A : Type} (p q : A -> bool) (l : list A) :
  (forall x, q x = negb (p x)) ->
  Permutation (filter p l ++ filter q l) l.
Proof.
  intros H. induction l as [|x l IH]; simpl; [constructor|].
  rewrite (H x). destruct (p x); simpl.
  - now apply perm_skip.
  - eapply perm_trans; [apply Permutation_sym, Permutation_middle|].
    now apply perm_skip.
Qed.

Lemma indexKeys_names_sorted l :
  StronglySorted (fun a b => (fst a <= fst b)%N) l ->
  Forall (fun p => Flat.arrayIndex (snd p) = Some (fst p)) l ->
  StronglySorted indexLe (map snd l).
Proof.
  induction 1 as [|[i k] l S IH F]; intros I; simpl; [constructor|].
  inversion I as [|? ? Ik Il]; subst. constructor; [now apply IH|].
  rewrite Forall_forall in *. intros y Hy.
  apply in_map_iff in Hy. destruct Hy as ([j k'] & <- & Hin).
  pose proof (Il _ Hin) as Hj. pose proof (F _ Hin) as Hle.
  unfold indexLe. simpl in *. rewrite Ik, Hj. exact Hle.
Qed.

(** X12.  The listing of the flat-file server is always answered 200 and
    names every key of the object in [users.json] once.  The keys that are
    array indices come first, in ascending numeric order; the other keys
    follow in the order in which they were inserted. *)
Theorem Flat_users_listing e s :
  exists indices others,
    snd (Flat.handle e s Users)
    = {| status := 200; json := BUsers (indices ++ others) |}
    /\ Permutation (indices ++ others) (map fst (Flat.registry s))
    /\ StronglySorted indexLe indices
    /\ others = filter (fun k => match Flat.arrayIndex k with
                                 | None => true
                                 | Some _ => false
                                 end) (map fst (Flat.registry s)).
Proof.
  exists (map snd (Flat.indexKeys (map fst (Flat.registry s)))).
  eexists. split; [|split; [|split; [|reflexivity]]].
  - unfold Flat.handle, Flat.users, Flat.registry, Flat.Object_keys.
    destruct (Flat.readJson (Flat.USERS_FILE s) []). reflexivity.
  - eapply perm_trans;
      [apply Permutation_app_tail, indexKeys_perm|].
    apply filter_split_perm. intros x. destruct (Flat.arrayIndex x); reflexivity.
  - apply indexKeys_names_sorted; [apply indexKeys_sorted | apply indexKeys_index].
Qed.

End Listing.

Lemma Mongo_users_listing_witness :
  exists names,
    Mongo.handle (quiet 9 0) (fst (Mongo.run Mongo.empty scenario)) Users
    = (fst (Mongo.run Mongo.empty scenario),
       {| status := 200; json := BUsers names |})
    /\ names = ["alice"; "bob"].
Proof.
  destruct (@Mongo_users_listing scalarCasts scenario (quiet 9 0) eq_refl)
    as (names & A & B & _).
  exists names. split; [exact A | exact B].
Defined.

(** ** The form of a token *)

Section TokenForm.
Context {casts : MongooseCasts} {js : JsCoercions}.

Lemma below_16 (P : N -> Prop) :
  (forall n, (n < 16)%nat -> P (N.of_nat n)) -> forall d, (d < 16)%N -> P d.
Proof.
  intros H d Hd. rewrite <- (N2Nat.id d). apply H. lia.
Qed.

Lemma hexDigit_isHex d : (d < 16)%N -> isHex (hexDigit d) = true.
Proof.
  revert d. apply below_16. intros n Hn.
  do 16 (destruct n as [|n]; [reflexivity|]). lia.
Qed.

Lemma hexDigit_value d : (d < 16)%N -> hexValue (hexDigit d) = d.
Proof.
  revert d. apply below_16. intros n Hn.
  do 16 (destruct n as [|n]; [reflexivity|]). lia.
Qed.

Lemma toHex_allHex n : forall r acc,
  allHex acc = true -> allHex (toHex n r acc) = true.
Proof.
  induction n as [|n IH]; intros r acc H; simpl; [exact H|].
  apply IH. simpl. rewrite H, hexDigit_isHex; [reflexivity|].
  apply N.mod_lt. discriminate.
Qed.

Lemma randomToken_issued r : issuedToken (randomToken r).
Proof.
  split; [apply randomToken_length|].
  unfold randomToken. now apply toHex_allHex.
Qed.

Lemma fromHex_toHex n : forall r acc a,
  fromHex (toHex n r acc) a = fromHex acc (a * 16 ^ N.of_nat n + r mod 16 ^ N.of_nat n)%N.
Proof.
  induction n as [|n IH]; intros r acc a.
  - simpl. rewrite N.mod_1_r. f_equal. lia.
  - cbn [toHex]. rewrite IH. cbn [fromHex]. f_equal.
    rewrite hexDigit_value by (apply N.mod_lt; discriminate).
    rewrite Nat2N.inj_succ, N.pow_succ_r', N.Div0.mod_mul_r. lia.
Qed.

Lemma Flat_setProperty_Forall (P : Flat.userRecord -> Prop) o key u :
  Forall (fun p => P (snd p)) o -> P u ->
  Forall (fun p => P (snd p)) (Flat.setProperty o key u).
Proof.
  intros H Hu. unfold Flat.setProperty.
  destruct (Flat.ownProperty o key).
  - induction H as [|[k' v] o Hv Ho IH]; simpl; [constructor|].
    destruct (k' =? key)%string; constructor; simpl; auto.
  - destruct (key =? "__proto__")%string; [exact H|].
    apply Forall_app. split; [exact H | constructor; [exact Hu | constructor]].
Qed.

Lemma Mongo_handle_issued e s req :
  Forall (fun d => issuedToken (Mongo.token d)) (Mongo.users s) ->
  Forall (fun d => issuedToken (Mongo.token d))
         (Mongo.users (fst (Mongo.handle e s req))).
Proof.
  intros H.
  destruct (Mongo_handle_change e s req)
    as [->|[(_ & u & k & d & _ & -> & T & _)|(_ & ? & ? & ? & ? & ? & ? & d & _ & -> & _)]];
    cbn [Mongo.users]; auto.
  apply Forall_app. split; [exact H|]. constructor; [|constructor].
  rewrite T. apply randomToken_issued.
Qed.

Lemma Flat_handle_issued e s req :
  Forall (fun p => issuedToken (Flat.token (snd p))) (Flat.registry s) ->
  Forall (fun p => issuedToken (Flat.token (snd p)))
         (Flat.registry (fst (Flat.handle e s req))).
Proof.
  intros H.
  destruct (Flat_handle_change e s req)
    as [[-> _]|[(_ & u & k & key & _ & _ & -> & _)|(_ & ? & ? & ? & ? & ? & ? & _ & -> & _)]];
    auto.
  apply (Flat_setProperty_Forall (fun u => issuedToken (Flat.token u)));
    [exact H | apply randomToken_issued].
Qed.

(** X13.  Every token stored by either server, in any state reached from
    the empty store by any requests, has 32 characters, each one of
    [0123456789abcdef]. *)
Theorem stored_tokens_issued trace :
  Forall (fun d => issuedToken (Mongo.token d))
         (Mongo.users (fst (Mongo.run Mongo.empty trace)))
  /\ Forall (fun p => issuedToken (Flat.token (snd p)))
            (Flat.registry (fst (Flat.run Flat.empty trace))).
Proof.
  split.
  - assert (G : forall s,
        Forall (fun d => issuedToken (Mongo.token d)) (Mongo.users s) ->
        Forall (fun d => issuedToken (Mongo.token d))
               (Mongo.users (fst (Mongo.run s trace)))).
    { induction trace as [|[e req] trace IH]; intros s H; [exact H|].
      rewrite Mongo_run_cons. cbn [fst]. apply IH, Mongo_handle_issued, H. }
    apply G. constructor.
  - assert (G : forall s,
        Forall (fun p => issuedToken (Flat.token (snd p))) (Flat.registry s) ->
        Forall (fun p => issuedToken (Flat.token (snd p)))
               (Flat.registry (fst (Flat.run s trace)))).
    { induction trace as [|[e req] trace IH]; intros s H; [exact H|].
      rewrite Flat_run_cons. cbn [fst]. apply IH, Flat_handle_issued, H. }
    apply G. constructor.
Qed.

(** X14.  A token is the hexadecimal writing of the sixteen random bytes:
    reading it back gives their value, so different random bytes give
    different tokens. *)
Theorem randomToken_injective r1 r2 :
  (r1 < 2 ^ 128)%N -> (r2 < 2 ^ 128)%N ->
  fromHex (randomToken r1) 0 = r1
  /\ (randomToken r1 = randomToken r2 -> r1 = r2).
Proof.
  intros H1 H2.
  assert (D : forall r, (r < 2 ^ 128)%N -> fromHex (randomToken r) 0 = r).
  { intros r Hr. unfold randomToken. rewrite fromHex_toHex. cbn [fromHex].
    change (16 ^ N.of_nat 32)%N with (2 ^ 128)%N.
    rewrite N.mod_small by exact Hr. lia. }
  split; [now apply D|].
  intros E. rewrite <- (D r1 H1), <- (D r2 H2), E. reflexivity.
Qed.

End TokenForm.

Lemma randomToken_injective_witness :
  fromHex (randomToken 255) 0 = 255%N
  /\ (randomToken 255 = randomToken 4096 -> 255%N = 4096%N).
Proof.
  apply randomToken_injective; reflexivity.
Defined.

(** ** What a registration gives access to *)

Section Access.
Context {casts : MongooseCasts} {js : JsCoercions}.

Lemma Mongo_messages_ok e s d name :
  noFault e -> Mongo.lookup (Mongo.users s) name = Some d ->
  Mongo.token d <> "" ->
  Mongo.handle e s (Messages name (Some (Mongo.token d)))
  = (s, {| status := 200;
           json := BMessages
                     (map Mongo.toJson
                        (Mongo.sortByTimestamp
                           (filter (fun m => (Mongo.to m =? name)%string)
                                   (Mongo.messages s)))) |}).
Proof.
  intros [F1 F2] L T.
  unfold Mongo.handle, Mongo.tryHandler, Mongo.tryMessages, Mongo.findMessages.
  rewrite F1, F2, Mongo_findOne_string, L, (invalidApiKey_match _ T). reflexivity.
Qed.

(** X15.  On the MongoDB server whoever registers a name, taken or not, is
    given a token that opens the mailbox of that name: while the store does
    not fail and no stored token is empty, a registration with two non-empty
    strings is answered 200 with a token, and a fetch for the name with this
    token returns every message stored for the name, also those sent
    before. *)
Theorem Mongo_register_opens_mailbox e1 e2 s name k :
  name <> "" -> k <> "" -> noFault e1 -> noFault e2 ->
  Forall (fun d => Mongo.token d <> "") (Mongo.users s) ->
  let first := Mongo.handle e1 s (Register (JStr name) (JStr k)) in
  exists t,
    snd first = {| status := 200; json := BToken t |}
    /\ snd (Mongo.handle e2 (fst first) (Messages name (Some t)))
       = {| status := 200;
            json := BMessages
                      (map Mongo.toJson
                         (Mongo.sortByTimestamp
                            (filter (fun m => (Mongo.to m =? name)%string)
                                    (Mongo.messages s)))) |}.
Proof.
  intros Hn Hk [F1 F2] NF Tok first. subst first.
  destruct (Mongo.lookup (Mongo.users s) name) as [d|] eqn:L.
  - rewrite (Mongo_register_existing e1 s d name (JStr k)); auto;
      try (now apply truthy_string).
    exists (Mongo.token d). cbn [fst snd]. split; [reflexivity|].
    rewrite (Mongo_messages_ok e2 s d name NF L); [reflexivity|].
    rewrite Forall_forall in Tok. apply Tok.
    now apply Mongo_lookup_some_in in L.
  - rewrite (Mongo_register_new e1 s name k Hn Hk F1 F2 L).
    exists (randomToken (randomBytes16 e1)). cbn [fst snd].
    split; [reflexivity|].
    set (d := {| Mongo.username := name; Mongo.publicKeyPem := k;
                 Mongo.token := randomToken (randomBytes16 e1);
                 Mongo.createdAt := now e1 |}).
    change (randomToken (randomBytes16 e1)) with (Mongo.token d).
    rewrite (Mongo_messages_ok e2 _ d name NF); [reflexivity | |].
    + cbn [Mongo.users]. now apply Mongo_lookup_last.
    + apply randomToken_not_empty.
Qed.

Lemma Flat_registered_stored e s name k :
  truthy (JStr name) = true -> truthy k = true ->
  Flat.stored (fst (Flat.handle e s (Register (JStr name) k))) = Flat.stored s.
Proof.
  intros Tn Tk. rewrite (Flat_register_string e s name k Tn Tk). reflexivity.
Qed.

(** X16.  On the flat-file server whoever registers a name other than
    [__proto__], taken or not, takes the name over: the registration is
    answered 200 with a new token, a fetch for the name with the new token
    returns every message stored for the name, and a fetch with any other
    header, the former token of the name included, is answered 401. *)
Theorem Flat_register_takes_over e1 e2 s name k :
  truthy (JStr name) = true -> truthy k = true -> name <> "__proto__" ->
  let first := Flat.handle e1 s (Register (JStr name) k) in
  let fresh := randomToken (randomBytes16 e1) in
  snd first = {| status := 200; json := BToken fresh |}
  /\ snd (Flat.handle e2 (fst first) (Messages name (Some fresh)))
     = {| status := 200;
          json := BMessages
                    (filter (fun m => strictEqualsString (Http.to m) name)
                            (Flat.stored s)) |}
  /\ (forall apiKey, apiKey <> Some fresh ->
        snd (Flat.handle e2 (fst first) (Messages name apiKey))
        = {| status := 401; json := BError "invalid api key" |}).
Proof.
  intros Tn Tk Np first fresh. subst first fresh.
  pose proof (Flat_registered_own e1 s name k Tn Tk Np) as Own.
  set (u := {| Flat.publicKeyPem := k;
               Flat.token := randomToken (randomBytes16 e1);
               Flat.createdAt := now e1 |}) in *.
  split; [|split].
  - rewrite (Flat_register_string e1 s name k Tn Tk). reflexivity.
  - change (randomToken (randomBytes16 e1)) with (Flat.token u).
    rewrite (Flat_messages_ok e2 _ u name Own (randomToken_not_empty _)).
    rewrite (Flat_registered_stored e1 s name k Tn Tk). reflexivity.
  - intros apiKey Ne.
    rewrite (Flat_messages_unauthorized e2 _ u name apiKey Own Ne). reflexivity.
Qed.

(** X17.  On the flat-file server a registration of the name [__proto__] is
    answered 200 with a token but stores nothing: the assignment sets the
    prototype of the object and adds no property.  The users are as before,
    a fetch for [__proto__] is answered 401 whatever the header, the new
    token included, and a key lookup is answered 200 without a key. *)
Theorem Flat_register_proto_stores_nothing e1 e2 s k apiKey :
  truthy k = true ->
  Flat.ownProperty (Flat.registry s) "__proto__" = None ->
  let first := Flat.handle e1 s (Register (JStr "__proto__") k) in
  snd first = {| status := 200; json := BToken (randomToken (randomBytes16 e1)) |}
  /\ Flat.registry (fst first) = Flat.registry s
  /\ snd (Flat.handle e2 (fst first) (Messages "__proto__" apiKey))
     = {| status := 401; json := BError "invalid api key" |}
  /\ snd (Flat.handle e2 (fst first) (PublicKey "__proto__"))
     = {| status := 200; json := BPublicKey JUndefined |}.
Proof.
  intros Tk Own first. subst first.
  rewrite (Flat_register_string e1 s "__proto__" k eq_refl Tk). cbn [fst snd].
  assert (R : Flat.registry
                {| Flat.USERS_FILE :=
                     Flat.Content
                       (Flat.setProperty (Flat.registry s) "__proto__"
                          {| Flat.publicKeyPem := k;
                             Flat.token := randomToken (randomBytes16 e1);
                             Flat.createdAt := now e1 |});
                   Flat.MSG_FILE := Flat.MSG_FILE s |} = Flat.registry s).
  { rewrite Flat_registry_of. unfold Flat.setProperty. rewrite Own. reflexivity. }
  assert (I : Flat.getProperty (Flat.registry s) "__proto__" = Flat.Inherited).
  { apply Flat_getProperty_inherited; [exact Own|]. vm_compute. tauto. }
  split; [reflexivity|]. split; [exact R|]. split.
  - unfold Flat.handle, Flat.messages.
    match goal with |- context [Flat.readJson (Flat.USERS_FILE ?st) []] =>
      destruct (Flat.readJson (Flat.USERS_FILE st) []) as [us uf] eqn:E;
      destruct (touched_users st us uf E) as (-> & _ & _)
    end.
    rewrite R, I. cbn. rewrite invalidApiKey_inherited. reflexivity.
  - rewrite Flat_publicKey_cases, R, I. reflexivity.
Qed.





End Access.

(** Somebody registers alice again on the stores that hold her mailbox. *)
Lemma Mongo_register_opens_mailbox_witness :
  exists t,
    snd (Mongo.handle (quiet 7 9) mongoMailbox (Register (JStr "alice") (JStr "X")))
    = {| status := 200; json := BToken t |}
    /\ snd (Mongo.handle (quiet 8 0)
              (fst (Mongo.handle (quiet 7 9) mongoMailbox
                      (Register (JStr "alice") (JStr "X"))))
              (Messages "alice" (Some t)))
       = {| status := 200;
            json := BMessages
                      (map Mongo.toJson
                         (Mongo.sortByTimestamp
                            (filter (fun m => (Mongo.to m =? "alice")%string)
                                    (Mongo.messages mongoMailbox)))) |}.
Proof.
  apply (@Mongo_register_opens_mailbox scalarCasts); try discriminate;
    try (split; reflexivity).
  constructor; [vm_compute; discriminate | constructor].
Defined.

Lemma Flat_register_takes_over_witness :
  snd (Flat.handle (quiet 8 0)
         (fst (Flat.handle (quiet 7 9) flatMailbox (Register (JStr "alice") (JStr "X"))))
         (Messages "alice" (Some (randomToken 9))))
  = {| status := 200;
       json := BMessages
                 (filter (fun m => strictEqualsString (Http.to m) "alice")
                         (Flat.stored flatMailbox)) |}.
Proof.
  apply (@Flat_register_takes_over scalarKeys (quiet 7 9) (quiet 8 0) flatMailbox
           "alice" (JStr "X")); try reflexivity. discriminate.
Defined.

Lemma Flat_register_proto_stores_nothing_witness :
  Flat.registry
    (fst (Flat.handle (quiet 7 9) flatAlice (Register (JStr "__proto__") (JStr "X"))))
  = Flat.registry flatAlice.
Proof.
  apply (@Flat_register_proto_stores_nothing scalarKeys (quiet 7 9) (quiet 8 0)
           flatAlice (JStr "X") None); reflexivity.
Defined.


(** ** Messages and files over time *)

Section OverTime.
Context {casts : MongooseCasts} {js : JsCoercions}.


Ltac flat_cases :=
  repeat match goal with
         | |- context [if ?b then _ else _] => destruct b
         | |- context [match toPropertyKey ?v with _ => _ end] =>
             destruct (toPropertyKey v)
         end;
  cbn; eauto.

(** X20.  How the flat-file server treats its two files, on any disk.  A
    file that holds data holds data after every request, unless the request
    is a registration or a send whose write tears the file it writes.  A
    request that gets past validation creates a missing [users.json] when
    the file can be written, leaves it missing when the write is refused and
    leaves a file without JSON when the write is torn.  A file that cannot
    be read stays so until a handler writes it, and is then replaced by a
    file that holds the new entry alone: a registration leaves [users.json]
    with one user when the file can be written, and is answered 500 with the
    files as they were when not; a send that is answered 200 leaves
    [messages.json] with one message, and any other send leaves it
    unreadable. *)
Theorem FlatFs_files_over_requests d e s req :
  (forall data, Flat.USERS_FILE s = Flat.Content data ->
     (exists data',
        Flat.USERS_FILE (fst (FlatFs.handle d e s req)) = Flat.Content data')
     \/ (FlatFs.usersWrite d = FlatFs.Torn /\ isRegister req = true
         /\ Flat.USERS_FILE (fst (FlatFs.handle d e s req)) = Flat.Unreadable))
  /\ (forall data, Flat.MSG_FILE s = Flat.Content data ->
     (exists data',
        Flat.MSG_FILE (fst (FlatFs.handle d e s req)) = Flat.Content data')
     \/ (FlatFs.msgWrite d = FlatFs.Torn /\ isSend req = true
         /\ Flat.MSG_FILE (fst (FlatFs.handle d e s req)) = Flat.Unreadable))
  /\ (passesValidation req = true -> Flat.USERS_FILE s = Flat.Missing ->
      (FlatFs.usersWrite d = FlatFs.Written ->
       exists data',
         Flat.USERS_FILE (fst (FlatFs.handle d e s req)) = Flat.Content data')
      /\ (FlatFs.usersWrite d = FlatFs.Refused ->
          Flat.USERS_FILE (fst (FlatFs.handle d e s req)) = Flat.Missing)
      /\ (FlatFs.usersWrite d = FlatFs.Torn ->
          Flat.USERS_FILE (fst (FlatFs.handle d e s req)) = Flat.Unreadable))
  /\ (Flat.USERS_FILE s = Flat.Unreadable ->
      forall name k,
        req = Register (JStr name) k ->
        truthy (JStr name) = true -> truthy k = true -> name <> "__proto__" ->
        (FlatFs.usersWrite d = FlatFs.Written ->
         Flat.USERS_FILE (fst (FlatFs.handle d e s req))
         = Flat.Content
             [ (name, {| Flat.publicKeyPem := k;
                         Flat.token := randomToken (randomBytes16 e);
                         Flat.createdAt := now e |}) ])
        /\ (throws (FlatFs.usersWrite d) = true ->
            FlatFs.handle d e s req = (s, Flat.uncaught)))
  /\ (Flat.USERS_FILE s = Flat.Unreadable ->
      isRegister req = false ->
      Flat.USERS_FILE (fst (FlatFs.handle d e s req)) = Flat.Unreadable)
  /\ (Flat.MSG_FILE s = Flat.Unreadable ->
      forall sender r c k i a,
        req = Send sender r c k i a ->
        (status (snd (FlatFs.handle d e s req)) = 200 ->
         Flat.MSG_FILE (fst (FlatFs.handle d e s req))
         = Flat.Content
             [ {| Http.from := sender; Http.to := r; Http.ciphertext := c;
                  Http.encryptedKey := k; Http.iv := i; Http.timestamp := now e |} ])
        /\ (status (snd (FlatFs.handle d e s req)) <> 200 ->
            Flat.MSG_FILE (fst (FlatFs.handle d e s req)) = Flat.Unreadable)).
Proof.
  destruct s as [uf mf]. destruct d as [uw mw].
  cbn [Flat.USERS_FILE Flat.MSG_FILE FlatFs.usersWrite FlatFs.msgWrite].
  split; [|split; [|split; [|split; [|split]]]].
  - intros data ->. unfold FlatFs.handle.
    destruct req; cbn;
      unfold FlatFs.register, FlatFs.publicKey, FlatFs.send, FlatFs.messages,
             FlatFs.users;
      cbn; flat_cases; try (destruct uw; cbn; eauto; fail);
      destruct mw, mf; cbn; eauto.
  - intros data ->. unfold FlatFs.handle.
    destruct req; cbn;
      unfold FlatFs.register, FlatFs.publicKey, FlatFs.send, FlatFs.messages,
             FlatFs.users;
      cbn; destruct uw, uf; cbn; flat_cases; destruct mw; cbn; eauto.
  - intros V ->. unfold FlatFs.handle.
    split; [|split]; intros ->;
      destruct req; cbn in *;
      unfold FlatFs.register, FlatFs.publicKey, FlatFs.send, FlatFs.messages,
             FlatFs.users;
      cbn;
      try (apply andb_prop in V; destruct V as [-> ->]; cbn; flat_cases; fail);
      try (repeat (apply andb_prop in V; destruct V as [V ->]); rewrite V; cbn;
           flat_cases; destruct mw, mf; cbn; eauto; fail);
      flat_cases; destruct mw, mf; cbn; eauto.
  - intros -> name k -> Tn Tk Np. split.
    + intros ->. cbn [FlatFs.handle]. unfold FlatFs.register.
      rewrite Tn, Tk, toPropertyKey_string. cbn.
      unfold Flat.setProperty. cbn.
      apply String.eqb_neq in Np. rewrite Np. reflexivity.
    + intros T.
      rewrite (FlatFs_register_throws
                 {| FlatFs.usersWrite := uw; FlatFs.msgWrite := mw |}
                 e _ name k T Tn Tk).
      cbn. destruct uw; try discriminate T; reflexivity.
  - intros -> NoReg. unfold FlatFs.handle.
    destruct req; try discriminate NoReg; cbn;
      unfold FlatFs.publicKey, FlatFs.send, FlatFs.messages, FlatFs.users;
      cbn; flat_cases; destruct mw, mf; cbn; eauto.
  - intros -> sender r c k i a ->.
    unfold FlatFs.handle, FlatFs.send. cbn.
    destruct (negb (truthy sender) || negb (truthy r) || negb (truthy c)
              || negb (truthy k) || negb (truthy i)); cbn;
      [split; [discriminate | reflexivity]|].
    destruct (FlatFs.readJson uw uf []) as [us uf'].
    destruct (toPropertyKey sender); cbn; [|split; [discriminate | reflexivity]].
    destruct (Flat.isUndefined _); cbn; [split; [discriminate | reflexivity]|].
    destruct (invalidApiKey _ _); cbn; [split; [discriminate | reflexivity]|].
    destruct mw; cbn; split; try reflexivity; try discriminate.
    intros H. now contradiction H.
Qed.

End OverTime.

(** A registration on unreadable files leaves one user when [users.json]
    can be written, and is answered 500 when not, the files as before; on a
    full disk bob's registration leaves alice's [users.json] without JSON. *)
Lemma FlatFs_files_over_requests_witness :
  Flat.USERS_FILE
    (fst (FlatFs.handle writable (quiet 3 4) flatBroken
            (Register (JStr "bob") (JStr "PEM_B"))))
  = Flat.Content
      [ ("bob", {| Flat.publicKeyPem := JStr "PEM_B"; Flat.token := randomToken 4;
                   Flat.createdAt := 3 |}) ]
  /\ FlatFs.handle readOnly (quiet 3 4) flatBroken
       (Register (JStr "bob") (JStr "PEM_B"))
     = (flatBroken, Flat.uncaught)
  /\ Flat.USERS_FILE
       (fst (FlatFs.handle full (quiet 3 4) Flat.empty Users))
     = Flat.Unreadable.
Proof.
  split; [|split].
  - destruct (@FlatFs_files_over_requests scalarKeys writable (quiet 3 4) flatBroken
                (Register (JStr "bob") (JStr "PEM_B"))) as (_ & _ & _ & Lost & _).
    apply (Lost eq_refl "bob" (JStr "PEM_B")); try reflexivity. discriminate.
  - destruct (@FlatFs_files_over_requests scalarKeys readOnly (quiet 3 4) flatBroken
                (Register (JStr "bob") (JStr "PEM_B"))) as (_ & _ & _ & Lost & _).
    apply (Lost eq_refl "bob" (JStr "PEM_B")); try reflexivity. discriminate.
  - destruct (@FlatFs_files_over_requests scalarKeys full (quiet 3 4) Flat.empty
                Users) as (_ & _ & Created & _).
    apply Created; reflexivity.
Defined.

(** ** Fetching *)

Section Fetching.
Context {casts : MongooseCasts} {js : JsCoercions}.

(** X21.  A fetch for a name that no user has is answered 404 whatever the
    header, and nothing changes: the check for the user comes before the
    check of the credential.  So on the MongoDB server while the lookup does
    not fail, and on the flat-file server for every name that is no property
    of [Object.prototype]; for such a property name the flat-file server
    answers 401 instead. *)
Theorem fetch_unknown_user e name apiKey :
  (forall s, firstOpFails e = false ->
             Mongo.lookup (Mongo.users s) name = None ->
             Mongo.handle e s (Messages name apiKey)
             = (s, {| status := 404; json := BError "unknown user" |}))
  /\ (forall s, Flat.ownProperty (Flat.registry s) name = None ->
                ~ In name Flat.objectPrototype ->
                snd (Flat.handle e s (Messages name apiKey))
                = {| status := 404; json := BError "unknown user" |}
                /\ Flat.registry (fst (Flat.handle e s (Messages name apiKey)))
                   = Flat.registry s
                /\ Flat.stored (fst (Flat.handle e s (Messages name apiKey)))
                   = Flat.stored s)
  /\ (forall s, Flat.ownProperty (Flat.registry s) name = None ->
                In name Flat.objectPrototype ->
                snd (Flat.handle e s (Messages name apiKey))
                = {| status := 401; json := BError "invalid api key" |}).
Proof.
  split; [|split].
  - intros s F L. unfold Mongo.handle, Mongo.tryHandler, Mongo.tryMessages.
    rewrite F, Mongo_findOne_string, L. reflexivity.
  - intros s Own NoProto.
    assert (R : snd (Flat.handle e s (Messages name apiKey))
                = {| status := 404; json := BError "unknown user" |}).
    { unfold Flat.handle, Flat.messages.
      destruct (Flat.readJson (Flat.USERS_FILE s) []) as [us uf] eqn:E.
      destruct (touched_users s us uf E) as (-> & _ & _).
      rewrite (Flat_getProperty_absent _ _ Own NoProto). reflexivity. }
    split; [exact R|].
    destruct (Flat_handle_change e s (Messages name apiKey))
      as [[A B]|[(St & _)|(St & _)]]; [auto | |];
      rewrite R in St; discriminate St.
  - intros s Own Proto. unfold Flat.handle, Flat.messages.
    destruct (Flat.readJson (Flat.USERS_FILE s) []) as [us uf] eqn:E.
    destruct (touched_users s us uf E) as (-> & _ & _).
    rewrite (Flat_getProperty_inherited _ _ Own Proto). cbn.
    rewrite invalidApiKey_inherited. reflexivity.
Qed.

(** X22.  Whatever the clock did and whatever state the store is in, the
    messages of a successful fetch on the MongoDB server are in ascending
    order of timestamp. *)
Theorem Mongo_fetch_ascending e s name apiKey :
  status (snd (Mongo.handle e s (Messages name apiKey))) = 200 ->
  exists found,
    snd (Mongo.handle e s (Messages name apiKey))
    = {| status := 200; json := BMessages found |}
    /\ StronglySorted Z.le (map Http.timestamp found).
Proof.
  intros H. rewrite (Mongo_messages_200 _ _ _ _ H). cbn [snd].
  eexists. split; [reflexivity|].
  apply sorted_map_timestamps, sortByTimestamp_ascending.
Qed.

Lemma Flat_handle_asRead e s req :
  snd (Flat.handle e s req) = snd (Flat.handle e (asRead s) req)
  /\ Flat.registry (fst (Flat.handle e s req))
     = Flat.registry (fst (Flat.handle e (asRead s) req))
  /\ Flat.stored (fst (Flat.handle e s req))
     = Flat.stored (fst (Flat.handle e (asRead s) req)).
Proof.
  unfold asRead, Flat.handle, Flat.registry, Flat.stored.
  destruct s as [uf mf].
  destruct req as [u k|u|sender r c k i a|u a|]; cbn;
    unfold Flat.register, Flat.publicKey, Flat.send, Flat.messages, Flat.users;
    cbn.
  - destruct (negb (truthy u) || negb (truthy k)); cbn.
    + destruct uf, mf; auto.
    + destruct uf, mf; cbn; destruct (toPropertyKey u); cbn; auto.
  - destruct uf, mf; cbn;
      match goal with |- context [Flat.isUndefined ?p] =>
        destruct (Flat.isUndefined p) end; cbn; auto.
  - destruct (negb (truthy sender) || negb (truthy r) || negb (truthy c)
              || negb (truthy k) || negb (truthy i)); cbn.
    + destruct uf, mf; auto.
    + destruct uf, mf; cbn; destruct (toPropertyKey sender); cbn; auto;
        match goal with |- context [Flat.isUndefined ?p] =>
          destruct (Flat.isUndefined p) end; cbn; auto;
        match goal with |- context [invalidApiKey ?x ?y] =>
          destruct (invalidApiKey x y) end; cbn; auto.
  - destruct uf, mf; cbn;
      match goal with |- context [Flat.isUndefined ?p] =>
        destruct (Flat.isUndefined p) end; cbn; auto;
      match goal with |- context [invalidApiKey ?x ?y] =>
        destruct (invalidApiKey x y) end; cbn; auto.
  - destruct uf, mf; auto.
Qed.

(** The answers of the flat-file server depend on the files only through
    what [readJson] gives for them. *)
Lemma Flat_run_same_view trace : forall s s',
  Flat.registry s = Flat.registry s' -> Flat.stored s = Flat.stored s' ->
  snd (Flat.run s trace) = snd (Flat.run s' trace).
Proof.
  induction trace as [|[e req] trace IH]; intros s s' R S; [reflexivity|].
  rewrite !Flat_run_cons. cbn [snd].
  assert (V : asRead s = asRead s') by (unfold asRead; now rewrite R, S).
  destruct (Flat_handle_asRead e s req) as (A1 & B1 & C1).
  destruct (Flat_handle_asRead e s' req) as (A2 & B2 & C2).
  rewrite V in A1, B1, C1. f_equal; [congruence|].
  apply IH; congruence.
Qed.

Lemma afterThrow_kept d req s : tearsNothing d -> afterThrow d req s = s.
Proof.
  intros [U M]. destruct d as [uw mw], s as [uf mf]. cbn in U, M.
  destruct req; cbn; try reflexivity.
  - destruct uw; try reflexivity. now contradiction U.
  - destruct mw; try reflexivity. now contradiction M.
Qed.

(** X23.  Reading consumes nothing, and a refused request leaves no trace.
    After a key lookup, a fetch or a listing, and after any request that is
    not answered 200, each server answers every further sequence of requests
    exactly as it would have answered it before; so the MongoDB server after
    a request it answers 500, and the flat-file server after a request that
    Express answers 500, as long as no write tore a file. *)
Theorem reads_and_refusals_leave_no_trace e req trace :
  (forall s,
      isRead req = true \/ status (snd (Mongo.handle e s req)) <> 200 ->
      snd (Mongo.run (fst (Mongo.handle e s req)) trace) = snd (Mongo.run s trace))
  /\ (forall s,
      isRead req = true \/ status (snd (Flat.handle e s req)) <> 200 ->
      snd (Flat.run (fst (Flat.handle e s req)) trace) = snd (Flat.run s trace))
  /\ (forall d s,
      tearsNothing d ->
      isRead req = true \/ status (snd (FlatFs.handle d e s req)) <> 200 ->
      snd (Flat.run (fst (FlatFs.handle d e s req)) trace) = snd (Flat.run s trace)).
Proof.
  assert (F : forall s,
      isRead req = true \/ status (snd (Flat.handle e s req)) <> 200 ->
      Flat.registry (fst (Flat.handle e s req)) = Flat.registry s
      /\ Flat.stored (fst (Flat.handle e s req)) = Flat.stored s).
  { intros s HF.
    destruct (Flat_handle_change e s req)
      as [[R S]|[(St & u & k & key & -> & _)|(St & f & r & c & k & i & a & -> & _)]];
      [auto | |]; destruct HF as [HF|HF]; try discriminate HF; contradiction. }
  split; [|split].
  - intros s HM.
    assert (E : fst (Mongo.handle e s req) = s); [|now rewrite E].
    destruct (Mongo_handle_change e s req)
      as [E|[(St & u & k & d & -> & _)|(St & f & r & c & k & i & a & d & -> & _)]];
      [exact E | |]; destruct HM as [HM|HM]; try discriminate HM; contradiction.
  - intros s HF. apply Flat_run_same_view; now apply F.
  - intros d s NoTear HF.
    pose proof (FlatFs_handle_cases d e s req) as C.
    destruct (writeFails d req && (status (snd (Flat.handle e s req)) =? 200)).
    + rewrite C. cbn [fst]. now rewrite afterThrow_kept.
    + destruct C as [A V]. rewrite A in HF.
      assert (R : Flat.registry (fst (FlatFs.handle d e s req))
                  = Flat.registry (fst (Flat.handle e s req))).
      { unfold asRead in V. now inversion V. }
      assert (S : Flat.stored (fst (FlatFs.handle d e s req))
                  = Flat.stored (fst (Flat.handle e s req))).
      { unfold asRead in V. now inversion V. }
      destruct (F s HF) as [R' S'].
      apply Flat_run_same_view; congruence.
Qed.

End Fetching.

Lemma fetch_unknown_user_witness :
  Mongo.handle (quiet 5 0) mongoAlice (Messages "carol" (Some (randomToken 1)))
  = (mongoAlice, {| status := 404; json := BError "unknown user" |})
  /\ snd (Flat.handle (quiet 5 0) flatAlice (Messages "valueOf" (Some (randomToken 1))))
     = {| status := 401; json := BError "invalid api key" |}.
Proof.
  destruct (@fetch_unknown_user scalarCasts scalarKeys (quiet 5 0) "carol"
              (Some (randomToken 1))) as (M & _).
  destruct (@fetch_unknown_user scalarCasts scalarKeys (quiet 5 0) "valueOf"
              (Some (randomToken 1))) as (_ & _ & F).
  split; [apply M; reflexivity | apply F; [reflexivity | vm_compute; tauto]].
Defined.

Lemma Mongo_fetch_ascending_witness :
  exists found,
    snd (Mongo.handle (quiet 9 0) (fst (Mongo.run Mongo.empty clockGoesBack))
           (Messages "alice" (Some (randomToken 1))))
    = {| status := 200; json := BMessages found |}
    /\ StronglySorted Z.le (map Http.timestamp found).
Proof.
  apply (@Mongo_fetch_ascending scalarCasts). reflexivity.
Defined.

(** A registration that the MongoDB server answers 500 because the database
    is down, a send that the flat-file server refuses for its header, and a
    registration that Express answers 500 because [users.json] cannot be
    written: the scenario runs afterwards as it would have run before. *)
Lemma reads_and_refusals_leave_no_trace_witness :
  snd (Mongo.run
         (fst (Mongo.handle {| now := 1; randomBytes16 := 9; firstOpFails := true;
                               secondOpFails := false |} Mongo.empty
                 (Register (JStr "alice") (JStr "PEM_X"))))
         scenario)
  = snd (Mongo.run Mongo.empty scenario)
  /\ snd (Flat.run
            (fst (Flat.handle (quiet 1 0) flatAlice (aliceWritesWith (Some "x"))))
            scenario)
     = snd (Flat.run flatAlice scenario)
  /\ snd (Flat.run
            (fst (FlatFs.handle readOnly (quiet 1 9) Flat.empty
                    (Register (JStr "alice") (JStr "PEM_X"))))
            scenario)
     = snd (Flat.run Flat.empty scenario).
Proof.
  split; [|split].
  - apply (@reads_and_refusals_leave_no_trace scalarCasts scalarKeys).
    right. vm_compute. discriminate.
  - apply (@reads_and_refusals_leave_no_trace scalarCasts scalarKeys).
    right. vm_compute. discriminate.
  - apply (@reads_and_refusals_leave_no_trace scalarCasts scalarKeys).
    + split; discriminate.
    + right. vm_compute. discriminate.
Defined.
